(** * CSSFPP crawl orchestration and artifact correlation

    A shallow embedding of [experiments/crawl/visit_sites_playwright.py]
    and [experiments/crawl/rename_by_page_field.py].

    Conventions of the embedding:
    - Python [str] is [string]; the text is taken to be ASCII (a character
      above 127 is carried through unchanged and is neither a letter, a
      digit nor white space).
    - Python exceptions are the [Raise] case of [result].
    - A Python [float] is the rational [Q] that the double stands for.
      The float operations that lead to a time stamp (the conversion of an
      [int], the division by [1000.0], the product with [1e6]) are the
      exact operation followed by [b64], the rounding to the nearest double
      (ties to even), as IEEE 754 has it. Comparisons of floats are exact,
      and so is [start_epoch - 1.0] for a clock value from 1 to 2^53, as
      every value of [time.time()] is; it is kept exact.
    - Time is as CPython 3.11 on Linux (glibc) has it: [fromtimestamp]
      accepts the years 1 to 9999 and [%Y] does not pad a year below 1000
      (Windows refuses times before 1970, where the stamp then comes from
      the next fallback).
    - The library calls [urlparse(..).hostname] and [json.loads] are
      parameters of the program ([Section] variables); [py_urlparse_hostname]
      and [py_json_loads] are executable models of them used to run
      concrete inputs. *)

From Stdlib Require Import ZArith QArith Qround Qabs Qpower Lqa.
From Stdlib Require Import List String Ascii Bool Lia.
From Stdlib Require Import DecimalString DecimalNat.
From stdpp Require Import base strings gmap.
Import ListNotations.
Open Scope string_scope.
Set Warnings "-register-all".

(** ** Exceptions *)

Inductive exn : Set :=
| IndexError | AttributeError | ValueError | FileNotFoundError | ZeroDivisionError.

Inductive result (A : Type) : Type :=
| Ok (a : A)
| Raise (e : exn).
Arguments Ok {A} a.
Arguments Raise {A} e.

Definition bind {A B} (r : result A) (k : A → result B) : result B :=
  match r with
  | Ok a => k a
  | Raise e => Raise e
  end.

Notation "x <- r ;; k" := (bind r (fun x => k))
  (at level 100, r at next level, right associativity).

(** ** Python string primitives *)

Module Py.

Definition code (c : ascii) : nat := nat_of_ascii c.

Definition between (lo hi : nat) (c : ascii) : bool :=
  Nat.leb lo (code c) && Nat.leb (code c) hi.

(** [str.isspace] on ASCII: TAB LF VT FF CR, FS GS RS US, SPACE. *)
Definition is_space (c : ascii) : bool :=
  between 9 13 c || between 28 32 c.

Definition is_upper (c : ascii) : bool := between 65 90 c.
Definition is_lower (c : ascii) : bool := between 97 122 c.
Definition is_alpha (c : ascii) : bool := is_upper c || is_lower c.
Definition is_digit (c : ascii) : bool := between 48 57 c.

Definition dquote : ascii := ascii_of_nat 34.
Definition squote : ascii := ascii_of_nat 39.
Definition LF : ascii := ascii_of_nat 10.
Definition CR : ascii := ascii_of_nat 13.
Definition TAB : ascii := ascii_of_nat 9.

Definition str (c : ascii) : string := String c EmptyString.

Definition is_empty (s : string) : bool :=
  match s with EmptyString => true | String _ _ => false end.

Fixpoint all_chars (p : ascii → bool) (s : string) : bool :=
  match s with
  | EmptyString => true
  | String c s' => p c && all_chars p s'
  end.

Fixpoint contains (c : ascii) (s : string) : bool :=
  match s with
  | EmptyString => false
  | String d s' => Ascii.eqb c d || contains c s'
  end.

(** [s.startswith(pre)] *)
Fixpoint startswith (pre s : string) : bool :=
  match pre, s with
  | EmptyString, _ => true
  | String a pre', String b s' => Ascii.eqb a b && startswith pre' s'
  | String _ _, EmptyString => false
  end.

Fixpoint lstrip_by (p : ascii → bool) (s : string) : string :=
  match s with
  | EmptyString => EmptyString
  | String c s' => if p c then lstrip_by p s' else s
  end.

Fixpoint rstrip_by (p : ascii → bool) (s : string) : string :=
  match s with
  | EmptyString => EmptyString
  | String c s' =>
      let r := rstrip_by p s' in
      if is_empty r && p c then EmptyString else String c r
  end.

Definition strip_by (p : ascii → bool) (s : string) : string :=
  rstrip_by p (lstrip_by p s).

(** [s.strip()], [s.lstrip()] and [s.strip(ch)] *)
Definition strip : string → string := strip_by is_space.
Definition lstrip : string → string := lstrip_by is_space.
Definition strip_char (ch : ascii) : string → string := strip_by (Ascii.eqb ch).

Definition lower_char (c : ascii) : ascii :=
  if is_upper c then ascii_of_nat (code c + 32) else c.

(** [s.lower()] *)
Fixpoint lower (s : string) : string :=
  match s with
  | EmptyString => EmptyString
  | String c s' => String (lower_char c) (lower s')
  end.

(** [s.split(sep)] for a one-character separator: never empty. *)
Fixpoint split_on (sep : ascii) (s : string) : list string :=
  match s with
  | EmptyString => [EmptyString]
  | String c s' =>
      if Ascii.eqb c sep then EmptyString :: split_on sep s'
      else match split_on sep s' with
           | t :: ts => String c t :: ts
           | [] => [str c]
           end
  end.

(** [s.split()]: the maximal runs of characters that are not white space. *)
Fixpoint split (s : string) : list string :=
  match s with
  | EmptyString => []
  | String c s' =>
      if is_space c then split s'
      else match s' with
           | EmptyString => [str c]
           | String c' _ =>
               if is_space c' then str c :: split s'
               else match split s' with
                    | t :: ts => String c t :: ts
                    | [] => [str c]
                    end
           end
  end.

(** The line boundaries of [str.splitlines] below 128:
    LF VT FF CR FS GS RS (and CR LF as one boundary). *)
Definition is_linebreak (c : ascii) : bool :=
  between 10 13 c || between 28 30 c.

(** [s.splitlines()] *)
Fixpoint splitlines (s : string) : list string :=
  match s with
  | EmptyString => []
  | String c s' =>
      if is_linebreak c then
        EmptyString ::
          match s' with
          | String c' s'' =>
              if Ascii.eqb c CR && Ascii.eqb c' LF then splitlines s''
              else splitlines s'
          | EmptyString => []
          end
      else match splitlines s' with
           | l :: ls => String c l :: ls
           | [] => [str c]
           end
  end.

(** [xs[-1]] *)
Definition last_item {A} (xs : list A) : result A :=
  match last xs with
  | Some x => Ok x
  | None => Raise IndexError
  end.

(** The text before and after the last occurrence of [ch] ([str.rfind]). *)
Fixpoint rsplit_char (ch : ascii) (s : string) : option (string * string) :=
  match s with
  | EmptyString => None
  | String c s' =>
      match rsplit_char ch s' with
      | Some (b, a) => Some (String c b, a)
      | None => if Ascii.eqb c ch then Some (EmptyString, s') else None
      end
  end.

(** [str(n)] for a non-negative integer. *)
Definition decimal (n : nat) : string :=
  NilEmpty.string_of_uint (Nat.to_uint n).

End Py.

(** ** Regular expressions of the program *)

(** [A-Za-z0-9.-] *)
Definition host_char (c : ascii) : bool :=
  Py.is_alpha c || Py.is_digit c || Ascii.eqb c "." || Ascii.eqb c "-".

(** A full match of [[A-Za-z0-9.-]+\.[A-Za-z]{2,}]: the final group holds no
    dot, so it is what follows the last dot. *)
Definition domain_fullmatch (s : string) : bool :=
  match Py.rsplit_char "." s with
  | Some (u, v) =>
      negb (Py.is_empty u) && Py.all_chars host_char u
      && Py.all_chars Py.is_alpha v && Nat.leb 2 (String.length v)
  | None => false
  end.

(** Drops one final LF. *)
Fixpoint chomp (s : string) : string :=
  match s with
  | EmptyString => EmptyString
  | String c s' =>
      if Py.is_empty s' && Ascii.eqb c Py.LF then EmptyString
      else String c (chomp s')
  end.

(** [DOMAIN_RE.match(s)] with
    [DOMAIN_RE = re.compile(r"^[A-Za-z0-9.-]+\.[A-Za-z]{2,}$")];
    Python's [$] also matches just before a final LF. *)
Definition DOMAIN_RE_match (s : string) : bool :=
  domain_fullmatch (chomp s).

Fixpoint drop_digits (s : string) : string :=
  match s with
  | EmptyString => EmptyString
  | String c s' => if Py.is_digit c then drop_digits s' else s
  end.

Definition rank_sep (c : ascii) : bool :=
  Ascii.eqb c "." || Ascii.eqb c "-" || Ascii.eqb c ":".

(** [re.sub] of the pattern [^\d+[\.\-:]] by the empty text: a leading
    run of digits followed by one of [.], [-], [:] is removed. *)
Definition re_sub_rank (s : string) : string :=
  match s with
  | EmptyString => s
  | String c _ =>
      if Py.is_digit c then
        match drop_digits s with
        | String d rest => if rank_sep d then rest else s
        | EmptyString => s
        end
      else s
  end.

(** ** JSON values as Python objects *)

(** What [json.loads] builds: [None], [bool], [int], [float] (finite, or
    one of NaN and the infinities), [str], [list], [dict]. A [dict] is kept
    as its pairs in document order. *)
Inductive Json : Type :=
| JNull
| JBool (b : bool)
| JInt (z : Z)
| JFloat (q : Q)
| JNonFinite
| JStr (s : string)
| JArr (items : list Json)
| JObj (pairs : list (string * Json)).

(** Python truth value, as used by [or] and [not]. *)
Definition truthy (j : Json) : bool :=
  match j with
  | JNull => false
  | JBool b => b
  | JInt z => negb (Z.eqb z 0)
  | JFloat q => negb (Qeq_bool q 0)
  | JNonFinite => true
  | JStr s => negb (Py.is_empty s)
  | JArr items => match items with [] => false | _ => true end
  | JObj pairs => match pairs with [] => false | _ => true end
  end.

(** A later pair of the same key replaces an earlier one. *)
Fixpoint dict_get (key : string) (pairs : list (string * Json)) : option Json :=
  match pairs with
  | [] => None
  | (k, v) :: rest =>
      match dict_get key rest with
      | Some w => Some w
      | None => if String.eqb k key then Some v else None
      end
  end.

(** [data.get(key)]: only a [dict] has the method. *)
Definition py_get (data : Json) (key : string) : result Json :=
  match data with
  | JObj pairs => Ok (default JNull (dict_get key pairs))
  | _ => Raise AttributeError
  end.

(** [a or b], with [b] evaluated only when needed. *)
Definition py_or (a : Json) (b : result Json) : result Json :=
  if truthy a then Ok a else b.

(** What [urlparse(url).hostname] does: it raises, or yields [None] or a
    host name. *)
Inductive Hostname : Type :=
| UrlError
| Host (h : option string).

(** ** Time stamps *)

Definition round_half_even (q : Q) : Z :=
  let f := Qfloor q in
  match Qcompare (q - inject_Z f)%Q (1 # 2)%Q with
  | Lt => f
  | Gt => (f + 1)%Z
  | Eq => if Z.even f then f else (f + 1)%Z
  end.

(** [floor(log2(a))] for [a > 0]. *)
Definition ilog2 (a : Q) : Z :=
  let k := (Z.log2 (Qnum a) - Z.log2 (Zpos (Qden a)))%Z in
  if Qle_bool (2 ^ k) a then k else (k - 1)%Z.

(** The double (IEEE 754 binary64) nearest to [q], ties to even: 53
    significant bits, the least exponent that of the subnormal numbers;
    [None] is an infinity. The result of a float operation of Python is
    [b64] of the exact result. *)
Definition b64 (q : Q) : option Q :=
  match Qnum q with
  | 0%Z => Some 0%Q
  | _ =>
      let a := Qabs q in
      let e := Z.max (ilog2 a - 52) (-1074) in
      let m := round_half_even (a / 2 ^ e) in
      if (971 <? e)%Z || (Z.eqb e 971 && (2 ^ 53 <=? m)%Z) then None
      else Some (Qred (inject_Z (Z.sgn (Qnum q) * m) * 2 ^ e))
  end.

(** [modf]: the whole part, towards zero. *)
Definition Qtrunc (q : Q) : Z := if Qle_bool 0 q then Qfloor q else Qceiling q.

(** The whole seconds of [datetime.fromtimestamp(t, tz=timezone.utc)] for
    a float [t]: the fraction of [t] times [1e6], a float product, is
    rounded half to even to microseconds, which may carry into the seconds
    (towards zero first, then one second down for a negative fraction);
    years outside 1..9999 raise, which is [None] here. *)
Definition fromtimestamp (t : Q) : option Z :=
  let whole := Qtrunc t in
  match b64 ((t - inject_Z whole) * inject_Z 1000000) with
  | Some product =>
      let us := round_half_even product in
      let secs := if (1000000 <=? us)%Z then (whole + 1)%Z
                  else if (us <? 0)%Z then (whole - 1)%Z else whole in
      if (Z.leb (-62135596800) secs && Z.leb secs 253402300799)%Z
      then Some secs else None
  | None => None
  end.

(** Year, month and day of a day number counted from 1970-01-01. *)
Definition civil_from_days (days : Z) : Z * Z * Z :=
  (let z := days + 719468 in
   let era := z / 146097 in
   let doe := z - era * 146097 in
   let yoe := (doe - doe / 1460 + doe / 36524 - doe / 146096) / 365 in
   let doy := doe - (365 * yoe + yoe / 4 - yoe / 100) in
   let mp := (5 * doy + 2) / 153 in
   let d := doy - (153 * mp + 2) / 5 + 1 in
   let m := if mp <? 10 then mp + 3 else mp - 9 in
   let y := yoe + era * 400 + (if m <=? 2 then 1 else 0) in
   (y, m, d))%Z.

Fixpoint zeros (n : nat) : string :=
  match n with
  | O => EmptyString
  | S n' => String "0" (zeros n')
  end.

(** A non-negative number in at least [width] digits. *)
Definition padded (width : nat) (z : Z) : string :=
  let digits := Py.decimal (Z.to_nat z) in
  zeros (width - String.length digits) ++ digits.

(** [dt.strftime("%Y-%m-%dT%H-%M-%SZ")] of the UTC date and time at [secs]
    seconds after the epoch; [%Y] gives the year as it is, in fewer than
    four digits below the year 1000. *)
Definition strftime (secs : Z) : string :=
  let '(y, m, d) := civil_from_days (secs / 86400) in
  let sod := (secs mod 86400)%Z in
  padded 1 y ++ "-" ++ padded 2 m ++ "-" ++ padded 2 d ++ "T"
  ++ padded 2 (sod / 3600) ++ "-" ++ padded 2 (sod mod 3600 / 60) ++ "-"
  ++ padded 2 (sod mod 60) ++ "Z".

(** [x / 1000.0] for a float [x]. *)
Definition div_1000 (x : Q) : option Q := b64 (x / inject_Z 1000).

(** [isinstance(ms, (int, float))] and the value of [ms / 1000.0] handed to
    [fromtimestamp]: an [int] (and [bool] is an [int]) is first converted
    to the nearest float, which raises when it is too large; NaN and the
    infinities make [fromtimestamp] raise. [None] stands for all of these:
    the [except] clause leaves [dt = None]. *)
Definition epoch_seconds (ms : Json) : option Q :=
  match ms with
  | JInt z => match b64 (inject_Z z) with Some x => div_1000 x | None => None end
  | JBool b => div_1000 (inject_Z (if b then 1 else 0))
  | JFloat q => div_1000 q
  | _ => None
  end.

(** ** The downloads directory *)

(** A directory entry: a regular file or not, its modification time, its
    text, and whether renaming it fails (locked, still being written). *)
Record Entry : Type := mkEntry {
  is_file : bool;
  st_mtime : Q;
  content : string;
  locked : bool
}.

(** The entries by name, in the order [iterdir] yields them. *)
Definition Dir : Type := list (string * Entry).

Definition names (d : Dir) : list string := fst <$> d.

Fixpoint entry (name : string) (d : Dir) : option Entry :=
  match d with
  | [] => None
  | (n, e) :: rest => if String.eqb n name then Some e else entry name rest
  end.

(** [path.exists()] *)
Definition path_exists (d : Dir) (name : string) : bool :=
  match entry name d with Some _ => true | None => false end.

Fixpoint replace_name (old new : string) (d : Dir) : Dir :=
  match d with
  | [] => []
  | (n, e) :: rest =>
      if String.eqb n old then (new, e) :: rest
      else (n, e) :: replace_name old new rest
  end.

(** [old.rename(new)]: [None] when it raises (no such file, a locked file,
    a target that exists). The content and modification time are kept. *)
Definition rename (old new : string) (d : Dir) : option Dir :=
  match entry old d with
  | Some e =>
      if locked e || path_exists d new then None
      else Some (replace_name old new d)
  | None => None
  end.

(** [Path.suffix] and [Path.stem] of a file name. *)
Definition path_suffix (name : string) : string :=
  match Py.rsplit_char "." name with
  | Some (b, a) =>
      if Py.is_empty b || Py.is_empty a then EmptyString else String "." a
  | None => EmptyString
  end.

Definition path_stem (name : string) : string :=
  match Py.rsplit_char "." name with
  | Some (b, a) => if Py.is_empty b || Py.is_empty a then name else b
  | None => name
  end.

(** [target.with_name(f"{base}_{i}{target.suffix}")] *)
Definition candidate (target : string) (i : nat) : string :=
  path_stem target ++ "_" ++ Py.decimal i ++ path_suffix target.


(** The [while True] loop of [_uniquify], from [i], for at most [fuel]
    rounds. *)
Fixpoint uniquify_loop (d : Dir) (target : string) (fuel i : nat) : option string :=
  match fuel with
  | O => None
  | S fuel' =>
      if path_exists d (candidate target i) then uniquify_loop d target fuel' (S i)
      else Some (candidate target i)
  end.

(** [_uniquify(target)] / [uniquify(target)]: a directory of [n] entries
    stops the loop within [n + 1] rounds ([_uniquify_total]). *)
Definition _uniquify (d : Dir) (target : string) : option string :=
  if path_exists d target then uniquify_loop d target (S (length d)) 1
  else Some target.

(** [sld_from_hostname(host)] / [sld(hostname)] *)
Definition sld_from_hostname (host : string) : string :=
  let parts := Py.split_on "." host in
  Py.lower (if Nat.leb 2 (length parts)
            then nth (length parts - 2) parts EmptyString
            else host).

(** [iso_from_epoch_ms(ms, fallback_path)] and [iso_from_timestamp_ms]:
    [mtime] is [fallback_path.stat().st_mtime] when that succeeds, [now] the
    whole seconds of [datetime.now(timezone.utc)]. *)
Definition iso_from_epoch_ms (ms : Json) (mtime : option Q) (now : Z) : string :=
  let dt := match epoch_seconds ms with
            | Some t => fromtimestamp t
            | None => None
            end in
  let dt := match dt with
            | Some s => Some s
            | None => match mtime with
                      | Some t => fromtimestamp t
                      | None => None
                      end
            end in
  strftime (default now dt).

(** [f"css_dump_{iso_stamp}_{domain_label}.json"] *)
Definition canonical_name (iso_stamp domain_label : string) : string :=
  "css_dump_" ++ iso_stamp ++ "_" ++ domain_label ++ ".json".

(** ** The crawl driver: visit_sites_playwright.py *)

(** What one visit meets outside the program: the clock, the browser and
    the files the extension has written by the time of the rename pass. *)
Record Visit : Type := mkVisit {
  start_epoch : Q;              (* time.time() at the start of the visit *)
  clock_now : Z;                (* datetime.now(), whole seconds *)
  new_page : option string;     (* ctx.new_page(): str(e) when it raises *)
  goto_https : option string;   (* page.goto(url_https): str(e) when it raises *)
  goto_http : option string;    (* page.goto(url_http): str(e) when it raises *)
  downloaded : Dir              (* files that appeared in Downloads *)
}.

(** What the driver asks of the browser and what it prints per domain. *)
Inductive Event : Type :=
| Launch
| CloseContext
| Visiting (domain : string)
| NewPage
| Goto (url : string)
| Dwell
| ClosePage.

(** The navigation attempts of a trace. *)
Definition gotos (events : list Event) : list string :=
  omap (fun ev => match ev with Goto url => Some url | _ => None end) events.

(** The locals [loaded], [final_url], [err] after the [try] block. *)
Record Outcome : Type := mkOutcome {
  loaded : bool;
  final_url : option string;
  err : option string
}.

(** The module constants that the behaviour depends on. *)
Record Config : Type := mkConfig {
  RESTART_EVERY : Z;
  INCREMENTAL_RENAME : bool
}.

(** The variables of [main] and the files it appends to. *)
Record State : Type := mkState {
  visited : gset string;
  visited_txt : string;
  failed_txt : string;
  downloads : Dir;
  processed : Z;
  trace : list Event
}.

(** What [main] finds when it starts. *)
Record World : Type := mkWorld {
  extension_exists : bool;
  brave_exists : bool;
  sites_file : option string;   (* the text of SITES_FILE, if it exists *)
  visited_file : string;        (* the text of visited.txt, empty if absent *)
  failed_file : string;
  downloads_dir : Dir;
  visits : nat → Visit;         (* the visit met at each position of the list *)
  final_now : Z
}.

Section Program.

(** [urlparse(url).hostname] and [json.loads(text)] ([None]: it raises). *)
Context (urlparse_hostname : string → Hostname).
Context (json_loads : string → option Json).

(** [_extract_domain(raw)] *)
Definition _extract_domain (raw : string) : result (option string) :=
  if Py.is_empty raw then Ok None else
  let s := Py.strip_char Py.squote (Py.strip_char Py.dquote (Py.strip raw)) in
  if Py.is_empty s then Ok None else
  if Py.startswith "http://" s || Py.startswith "https://" s then
    match urlparse_hostname s with
    | Host h =>
        let host := Py.lower (default EmptyString h) in
        Ok (if DOMAIN_RE_match host then Some host else None)
    | UrlError => Ok None
    end
  else
    s <- (if Py.contains "," s
          then t <- Py.last_item (Py.split_on "," s) ;; Ok (Py.strip t)
          else Ok s) ;;
    s <- (if Py.contains " " s || Py.contains Py.TAB s
          then t <- Py.last_item (Py.split s) ;; Ok (Py.strip t)
          else Ok s) ;;
    let s := Py.lower (Py.strip_char "/" (re_sub_rank s)) in
    Ok (if DOMAIN_RE_match s then Some s else None).

(** The [for line in ...] loop of [load_sites], on [out] and [seen]. *)
Fixpoint load_lines (lines : list string) (out : list string) (seen : gset string)
  : result (list string) :=
  match lines with
  | [] => Ok out
  | line :: rest =>
      d <- _extract_domain line ;;
      match d with
      | Some d =>
          if negb (Py.is_empty d) && bool_decide (d ∉ seen)
          then load_lines rest (out ++ [d])%list ({[ d ]} ∪ seen)
          else load_lines rest out seen
      | None => load_lines rest out seen
      end
  end.

(** [load_sites(path)], on the text of the file at [path] if there is one. *)
Definition load_sites (file : option string) : result (list string) :=
  match file with
  | None => Raise FileNotFoundError
  | Some text => load_lines (Py.splitlines text) [] ∅
  end.

(** [_try_load_json(p)] / [try_load_json(p)] *)
Definition _try_load_json (d : Dir) (p : string) : option Json :=
  match entry p d with
  | Some e =>
      if is_file e then
        let text := content e in
        if Py.startswith "{" (Py.lstrip text) || Py.startswith "[" (Py.lstrip text)
        then json_loads text
        else None
      else None
  | None => None
  end.

(** [data.get("page") or data.get("url")] *)
Definition page_identifier (data : Json) : result Json :=
  page <- py_get data "page" ;;
  py_or page (py_get data "url").

(** [urlparse(page_url).hostname] for a JSON value: a value that is not a
    [str] has no [decode]. *)
Definition page_hostname (page_url : Json) : result (option string) :=
  match page_url with
  | JStr u =>
      match urlparse_hostname u with
      | Host h => Ok h
      | UrlError => Raise ValueError
      end
  | _ => Raise AttributeError
  end.

(** [files]: the regular files, then those of [mtime >= only_newer_than_epoch]. *)
Definition listed_files (d : Dir) (only_newer_than_epoch : option Q) : list string :=
  let files := filter (fun ne => is_file (snd ne)) d in
  let files := match only_newer_than_epoch with
               | Some bound => filter (fun ne => Qle_bool bound (st_mtime (snd ne))) files
               | None => files
               end in
  fst <$> files.

(** The first part of a round of the [for f in files] loop, up to
    [new_name]: [Ok None] is a [continue]. *)
Definition new_name (now : Z) (d : Dir) (f : string) : result (option string) :=
  match _try_load_json d f with
  | None => Ok None
  | Some JNull => Ok None
  | Some data =>
      page_url <- page_identifier data ;;
      if negb (truthy page_url) then Ok None else
      h <- page_hostname page_url ;;
      let host := Py.lower (default EmptyString h) in
      if negb (DOMAIN_RE_match host) then Ok None else
      let domain_label := sld_from_hostname host in
      ts_ms <- py_get data "timestamp" ;;
      let iso_stamp := iso_from_epoch_ms ts_ms (st_mtime <$> entry f d) now in
      Ok (Some (canonical_name iso_stamp domain_label))
  end.

(** One round of the loop of [postprocess_rename]: [Ok None] is a
    [continue] or a rename error that was caught, [Ok (Some (target, d'))]
    a rename. [None] from [_uniquify] (a loop that does not end) is ruled
    out by [_uniquify_total]. *)
Definition rename_one (now : Z) (d : Dir) (f : string)
  : result (option (string * Dir)) :=
  n <- new_name now d f ;;
  match n with
  | None => Ok None
  | Some name =>
      match _uniquify d name with
      | Some target =>
          if String.eqb target f then Ok None else
          match rename f target d with
          | Some d' => Ok (Some (target, d'))
          | None => Ok None
          end
      | None => Ok None
      end
  end.

(** The loop of [postprocess_rename]: the directory as the loop leaves it,
    and the count, or the exception that ended the loop. *)
Fixpoint rename_loop (now : Z) (files : list string) (d : Dir) (renamed : Z)
  : Dir * result Z :=
  match files with
  | [] => (d, Ok renamed)
  | f :: rest =>
      match rename_one now d f with
      | Ok (Some (_, d')) => rename_loop now rest d' (renamed + 1)
      | Ok None => rename_loop now rest d renamed
      | Raise e => (d, Raise e)
      end
  end.

(** [postprocess_rename(downloads_dir, only_newer_than_epoch)] on an
    existing directory. *)
Definition postprocess_rename (now : Z) (d : Dir) (only_newer_than_epoch : option Q)
  : Dir * result Z :=
  rename_loop now (listed_files d only_newer_than_epoch) d 0.

(** [_read_set(p)] *)
Definition _read_set (text : string) : gset string :=
  list_to_set (filter (fun s => negb (Py.is_empty s)) (Py.strip <$> Py.splitlines text)).

(** [_append_line(p, line)] *)
Definition _append_line (text line : string) : string :=
  text ++ line ++ Py.str Py.LF.

(** The [try] block of a visit and the closing of its page: what they ask
    of the browser, and the locals [loaded], [final_url], [err]. *)
Definition navigate (domain : string) (v : Visit) : list Event * Outcome :=
  let url_https := "https://" ++ domain in
  let url_http := "http://" ++ domain in
  match new_page v with
  | Some e => ([NewPage], mkOutcome false None (Some e))
  | None =>
      match goto_https v with
      | None =>
          ([NewPage; Goto url_https; Dwell; ClosePage],
           mkOutcome true (Some url_https) None)
      | Some _ =>
          match goto_http v with
          | None =>
              ([NewPage; Goto url_https; Goto url_http; Dwell; ClosePage],
               mkOutcome true (Some url_http) None)
          | Some e_http =>
              ([NewPage; Goto url_https; Goto url_http; ClosePage],
               mkOutcome false None (Some e_http))
          end
      end
  end.

(** [err] as a condition and in [err or 'not_loaded']. *)
Definition err_truthy (e : option string) : bool :=
  match e with
  | Some s => negb (Py.is_empty s)
  | None => false
  end.

(** [f"{domain}\t{final_url or ''}\t{err or 'not_loaded'}"] *)
Definition failure_line (domain : string) (o : Outcome) : string :=
  domain ++ Py.str Py.TAB ++ default EmptyString (final_url o) ++ Py.str Py.TAB
  ++ (if err_truthy (err o) then default EmptyString (err o) else "not_loaded").

(** [processed > 0 and (processed % RESTART_EVERY == 0)] *)
Definition restart_due (cfg : Config) (processed : Z) : result bool :=
  if (0 <? processed)%Z then
    if (RESTART_EVERY cfg =? 0)%Z then Raise ZeroDivisionError
    else Ok (processed mod RESTART_EVERY cfg =? 0)%Z
  else Ok false.

(** The bound handed to the incremental pass: [start_epoch - 1.0], a
    float subtraction that is exact for a clock value from 1 to 2^53. *)
Definition incremental_bound (v : Visit) : Q := (start_epoch v - 1)%Q.

(** The body of the [for] loop for a domain that is not yet visited. *)
Definition visit_domain (cfg : Config) (v : Visit) (domain : string) (st : State)
  : result State :=
  due <- restart_due cfg (processed st) ;;
  let restart := if due : bool then [CloseContext; Launch] else [] in
  let '(events, o) := navigate domain v in
  let arrived := (downloads st ++ downloaded v)%list in
  let dl := if INCREMENTAL_RENAME cfg
            then fst (postprocess_rename (clock_now v) arrived (Some (incremental_bound v)))
            else arrived in
  Ok {| visited := {[ domain ]} ∪ visited st;
        visited_txt := _append_line (visited_txt st) domain;
        failed_txt := if negb (loaded o) || err_truthy (err o)
                      then _append_line (failed_txt st) (failure_line domain o)
                      else failed_txt st;
        downloads := dl;
        processed := (processed st + 1)%Z;
        trace := (trace st ++ restart ++ [Visiting domain] ++ events)%list |}.

(** The [for idx, domain in enumerate(domains, start=1)] loop: the state
    it leaves, and the exception that ended it, if any. *)
Fixpoint crawl (cfg : Config) (visit_at : nat → Visit) (idx : nat)
  (domains : list string) (st : State) : State * option exn :=
  match domains with
  | [] => (st, None)
  | domain :: rest =>
      if bool_decide (domain ∈ visited st) then crawl cfg visit_at (S idx) rest st
      else match visit_domain cfg (visit_at idx) domain st with
           | Ok st' => crawl cfg visit_at (S idx) rest st'
           | Raise e => (st, Some e)
           end
  end.

Definition initial_state (w : World) : State :=
  {| visited := _read_set (visited_file w);
     visited_txt := visited_file w;
     failed_txt := failed_file w;
     downloads := downloads_dir w;
     processed := 0;
     trace := [Launch] |}.

Definition close_context (st : State) : State :=
  {| visited := visited st; visited_txt := visited_txt st;
     failed_txt := failed_txt st; downloads := downloads st;
     processed := processed st; trace := (trace st ++ [CloseContext])%list |}.

(** [main()] *)
Definition main (cfg : Config) (w : World) : result (State * option exn) :=
  if negb (extension_exists w) then Raise FileNotFoundError else
  if negb (brave_exists w) then Raise FileNotFoundError else
  domains <- load_sites (sites_file w) ;;
  let '(st, e) := crawl cfg (visits w) 1 domains (initial_state w) in
  let st := close_context st in
  match e with
  | Some _ => Ok (st, e)
  | None =>
      if INCREMENTAL_RENAME cfg then Ok (st, None)
      else
        let '(d, r) := postprocess_rename (final_now w) (downloads st) None in
        Ok ({| visited := visited st; visited_txt := visited_txt st;
               failed_txt := failed_txt st; downloads := d;
               processed := processed st; trace := trace st |},
            match r with Ok _ => None | Raise e => Some e end)
  end.

(** The domains the loop is left to visit: the loaded list without those
    of the visited log. *)
Definition work_set (sites : string) (visited_log : string) : result (list string) :=
  domains <- load_sites (Some sites) ;;
  Ok (filter (fun d => bool_decide (d ∉ _read_set visited_log)) domains).

End Program.

(** ** The batch script: rename_by_page_field.py *)

Module RenameByPageField.

Section Script.

Context (urlparse_hostname : string → Hostname).
Context (json_loads : string → option Json).

(** [extract_domain(url)]: every exception of [urlparse] is caught. *)
Definition extract_domain (url : Json) : option string :=
  match url with
  | JStr u =>
      match urlparse_hostname u with
      | Host h =>
          let host := Py.lower (default EmptyString h) in
          if DOMAIN_RE_match host then Some host else None
      | UrlError => None
      end
  | _ => None
  end.

(** How one round of the loop of [main] ends. *)
Inductive Round : Type :=
| Skipped              (* skipped += 1; continue *)
| AlreadyNamed         (* f.resolve() == target.resolve() *)
| Renamed (target : string) (d : Dir)
| RenameFailed.        (* the except branch: skipped += 1 *)

(** The round up to [new_name]: [Ok None] is a [skipped += 1; continue]. *)
Definition new_name (now : Z) (d : Dir) (f : string) : result (option string) :=
  match _try_load_json json_loads d f with
  | None => Ok None
  | Some JNull => Ok None
  | Some data =>
      page_url <- page_identifier data ;;
      if negb (truthy page_url) then Ok None else
      match extract_domain page_url with
      | None => Ok None
      | Some host =>
          if Py.is_empty host then Ok None else
          let label := sld_from_hostname host in
          ts_ms <- py_get data "timestamp" ;;
          let iso := iso_from_epoch_ms ts_ms (st_mtime <$> entry f d) now in
          Ok (Some (canonical_name iso label))
      end
  end.

Definition rename_one (now : Z) (d : Dir) (f : string) : result Round :=
  n <- new_name now d f ;;
  match n with
  | None => Ok Skipped
  | Some name =>
      match _uniquify d name with
      | Some target =>
          if String.eqb f target then Ok AlreadyNamed else
          match rename f target d with
          | Some d' => Ok (Renamed target d')
          | None => Ok RenameFailed
          end
      | None => Ok Skipped
      end
  end.

Fixpoint rename_loop (now : Z) (files : list string) (d : Dir) (renamed skipped : Z)
  : Dir * result (Z * Z) :=
  match files with
  | [] => (d, Ok (renamed, skipped))
  | f :: rest =>
      match rename_one now d f with
      | Ok (Renamed _ d') => rename_loop now rest d' (renamed + 1) skipped
      | Ok AlreadyNamed => rename_loop now rest d renamed skipped
      | Ok Skipped | Ok RenameFailed => rename_loop now rest d renamed (skipped + 1)
      | Raise e => (d, Raise e)
      end
  end.

(** [main()] on an existing DOWNLOADS_DIR: the directory it leaves and the
    counts [renamed], [skipped]. *)
Definition main (now : Z) (d : Dir) : Dir * result (Z * Z) :=
  rename_loop now (listed_files d None) d 0 0.

End Script.

End RenameByPageField.

(** ** Executable models of the two library calls *)

Module Lib.

Fixpoint remove_chars (p : ascii → bool) (s : string) : string :=
  match s with
  | EmptyString => EmptyString
  | String c s' => if p c then remove_chars p s' else String c (remove_chars p s')
  end.

(** The text before the first character satisfying [p], that character and
    the text after it. *)
Fixpoint break_at (p : ascii → bool) (s : string) : string * option (ascii * string) :=
  match s with
  | EmptyString => (EmptyString, None)
  | String c s' =>
      if p c then (EmptyString, Some (c, s'))
      else let '(b, r) := break_at p s' in (String c b, r)
  end.

Definition one_of (cs : string) (c : ascii) : bool := Py.contains c cs.

Definition scheme_char (c : ascii) : bool :=
  Py.is_alpha c || Py.is_digit c || one_of "+-." c.

(** The URL without its scheme, as [urlsplit] cuts it. *)
Definition after_scheme (url : string) : string :=
  match url, break_at (Ascii.eqb ":") url with
  | String c0 _, (pre, Some (_, rest)) =>
      if negb (Py.is_empty pre) && Py.is_alpha c0 && Py.all_chars scheme_char pre
      then rest else url
  | _, _ => url
  end.

Definition netloc (url : string) : string :=
  match after_scheme url with
  | String "/" (String "/" rest) => fst (break_at (one_of "/?#") rest)
  | _ => EmptyString
  end.

(** [urlparse(url).hostname] of CPython 3.10 for ASCII text: TAB, CR and LF
    are removed, the network location is what follows [//] up to the first
    of [/?#], an unmatched bracket raises [ValueError]; the host is what
    follows the last [@], up to the port, in lower case. *)
Definition py_urlparse_hostname (url : string) : Hostname :=
  let url := remove_chars (fun c => Ascii.eqb c Py.TAB || Ascii.eqb c Py.CR
                                    || Ascii.eqb c Py.LF) url in
  let nl := netloc url in
  if xorb (Py.contains "[" nl) (Py.contains "]" nl) then UrlError else
  let hostinfo := match Py.rsplit_char "@" nl with
                  | Some (_, a) => a
                  | None => nl
                  end in
  let hostname :=
    match break_at (Ascii.eqb "[") hostinfo with
    | (_, Some (_, bracketed)) => fst (break_at (Ascii.eqb "]") bracketed)
    | (_, None) => fst (break_at (Ascii.eqb ":") hostinfo)
    end in
  if Py.is_empty hostname then Host None else
  match break_at (Ascii.eqb "%") hostname with
  | (h, Some (_, zone)) => Host (Some (Py.lower h ++ "%" ++ zone))
  | (h, None) => Host (Some (Py.lower h))
  end.

(** *** A JSON reader *)

Definition json_space (c : ascii) : bool := one_of " " c || Ascii.eqb c Py.TAB
  || Ascii.eqb c Py.LF || Ascii.eqb c Py.CR.

Definition skip_ws (s : string) : string := Py.lstrip_by json_space s.

Definition digit_value (c : ascii) : Z := Z.of_nat (Py.code c - 48).

Fixpoint digits (s : string) (n : Z) (count : nat) : Z * nat * string :=
  match s with
  | String c s' =>
      if Py.is_digit c then digits s' (10 * n + digit_value c)%Z (S count)
      else (n, count, s)
  | EmptyString => (n, count, s)
  end.

Definition pow10 (e : Z) : Q :=
  if (0 <=? e)%Z then inject_Z (10 ^ e) else (1 / inject_Z (10 ^ (- e)))%Q.

(** The float of a decimal literal: the nearest double. *)
Definition float_literal (q : Q) : Json :=
  match b64 q with Some x => JFloat x | None => JNonFinite end.

(** A number: an integer literal is an [int], one with a fraction or an
    exponent a [float]. *)
Definition read_number (s : string) : option (Json * string) :=
  let '(neg, s1) := match s with
                    | String "-" r => (true, r)
                    | _ => (false, s)
                    end in
  let sign (z : Z) := if neg : bool then (- z)%Z else z in
  match s1 with
  | String c r =>
      if Py.is_digit c then
        let '(ip, _, s2) :=
          if Ascii.eqb c "0" then (0%Z, 1%nat, r) else digits s1 0 0 in
        let '(fp, fn, s3, has_frac) :=
          match s2 with
          | String "." r2 =>
              let '(f, k, r3) := digits r2 0 0 in (f, k, r3, true)
          | _ => (0%Z, 0%nat, s2, false)
          end in
        if has_frac && Nat.eqb fn 0 then None else
        let exp_part :=
          match s3 with
          | String e r3 =>
              if one_of "eE" e then
                let '(eneg, r4) := match r3 with
                                   | String "-" r' => (true, r')
                                   | String "+" r' => (false, r')
                                   | _ => (false, r3)
                                   end in
                let '(ev, ek, r5) := digits r4 0 0 in
                if Nat.eqb ek 0 then None
                else Some (Some (if eneg : bool then (- ev)%Z else ev), r5)
              else Some (None, s3)
          | EmptyString => Some (None, s3)
          end in
        match exp_part with
        | None => None
        | Some (None, rest) =>
            if has_frac
            then Some (float_literal
                         (inject_Z (sign (ip * 10 ^ Z.of_nat fn + fp)%Z)
                          * pow10 (- Z.of_nat fn))%Q, rest)
            else Some (JInt (sign ip), rest)
        | Some (Some e, rest) =>
            Some (float_literal
                    (inject_Z (sign (ip * 10 ^ Z.of_nat fn + fp)%Z)
                     * pow10 (e - Z.of_nat fn))%Q, rest)
        end
      else None
  | EmptyString => None
  end.

Definition escape (c : ascii) : option ascii :=
  if one_of "\/" c || Ascii.eqb c Py.dquote then Some c
  else if Ascii.eqb c "n" then Some Py.LF
  else if Ascii.eqb c "r" then Some Py.CR
  else if Ascii.eqb c "t" then Some Py.TAB
  else if Ascii.eqb c "b" then Some (ascii_of_nat 8)
  else if Ascii.eqb c "f" then Some (ascii_of_nat 12)
  else None.

(** The characters of a string literal after its opening quote; escapes by
    code point ([\u]) are not read. *)
Fixpoint read_string (s : string) : option (string * string) :=
  match s with
  | EmptyString => None
  | String c s' =>
      if Ascii.eqb c Py.dquote then Some (EmptyString, s')
      else if Nat.ltb (Py.code c) 32 then None
      else if Ascii.eqb c "\" then
        match s' with
        | String e s'' =>
            match escape e, read_string s'' with
            | Some x, Some (t, rest) => Some (String x t, rest)
            | _, _ => None
            end
        | EmptyString => None
        end
      else match read_string s' with
           | Some (t, rest) => Some (String c t, rest)
           | None => None
           end
  end.

Definition literal (word : string) (v : Json) (s : string) : option (Json * string) :=
  if Py.startswith word s
  then Some (v, string_of_list_ascii (drop (String.length word) (list_ascii_of_string s)))
  else None.

Fixpoint read_value (fuel : nat) (s : string) : option (Json * string) :=
  match fuel with
  | O => None
  | S fuel' =>
      match skip_ws s with
      | EmptyString => None
      | String c r as s0 =>
          if Ascii.eqb c "{" then
            match skip_ws r with
            | String "}" rest => Some (JObj [], rest)
            | _ => match read_members fuel' r with
                   | Some (ps, rest) => Some (JObj ps, rest)
                   | None => None
                   end
            end
          else if Ascii.eqb c "[" then
            match skip_ws r with
            | String "]" rest => Some (JArr [], rest)
            | _ => match read_items fuel' r with
                   | Some (xs, rest) => Some (JArr xs, rest)
                   | None => None
                   end
            end
          else if Ascii.eqb c Py.dquote then
            match read_string r with
            | Some (t, rest) => Some (JStr t, rest)
            | None => None
            end
          else if Ascii.eqb c "t" then literal "true" (JBool true) s0
          else if Ascii.eqb c "f" then literal "false" (JBool false) s0
          else if Ascii.eqb c "n" then literal "null" JNull s0
          else if Ascii.eqb c "N" then literal "NaN" JNonFinite s0
          else if Ascii.eqb c "I" then literal "Infinity" JNonFinite s0
          else if Py.startswith "-Infinity" s0 then literal "-Infinity" JNonFinite s0
          else read_number s0
      end
  end
with read_items (fuel : nat) (s : string) : option (list Json * string) :=
  match fuel with
  | O => None
  | S fuel' =>
      match read_value fuel' s with
      | Some (v, rest) =>
          match skip_ws rest with
          | String "," rest' =>
              match read_items fuel' rest' with
              | Some (vs, rest'') => Some (v :: vs, rest'')
              | None => None
              end
          | String "]" rest' => Some ([v], rest')
          | _ => None
          end
      | None => None
      end
  end
with read_members (fuel : nat) (s : string) : option (list (string * Json) * string) :=
  match fuel with
  | O => None
  | S fuel' =>
      match skip_ws s with
      | String q r =>
          if Ascii.eqb q Py.dquote then
            match read_string r with
            | Some (k, rest) =>
                match skip_ws rest with
                | String ":" rest1 =>
                    match read_value fuel' rest1 with
                    | Some (v, rest2) =>
                        match skip_ws rest2 with
                        | String "," rest3 =>
                            match read_members fuel' rest3 with
                            | Some (ps, rest4) => Some ((k, v) :: ps, rest4)
                            | None => None
                            end
                        | String "}" rest3 => Some ([(k, v)], rest3)
                        | _ => None
                        end
                    | None => None
                    end
                | _ => None
                end
            | None => None
            end
          else None
      | EmptyString => None
      end
  end.

(** [json.loads(text)]: one value and nothing but white space after it. *)
Definition py_json_loads (text : string) : option Json :=
  match read_value (2 * String.length text + 2) text with
  | Some (v, rest) => if Py.is_empty (skip_ws rest) then Some v else None
  | None => None
  end.

End Lib.

(** ** Notions used to state properties of the loops *)

(** The distinct elements of a list, each at its first occurrence. *)
Fixpoint first_seen (ds : list string) : list string :=
  match ds with
  | [] => []
  | d :: rest => d :: filter (fun x => x ≠ d) (first_seen rest)
  end.

(** The domains that the lines of a site list yield, line by line. *)
Definition domains_of (urlparse_hostname : string → Hostname)
  (lines : list string) : list string :=
  omap (fun line =>
          match _extract_domain urlparse_hostname line with
          | Ok (Some d) => if Py.is_empty d then None else Some d
          | _ => None
          end) lines.

(** A character that is no white space, no quote and no comma. *)
Definition plain_char (c : ascii) : bool :=
  negb (Py.is_space c) && negb (Ascii.eqb Py.dquote c)
  && negb (Ascii.eqb Py.squote c) && negb (Ascii.eqb "," c).

(** The domains of the [Visiting] events of a trace, in order. *)
Definition visits_of (events : list Event) : list string :=
  omap (fun ev => match ev with Visiting d => Some d | _ => None end) events.

(** The text that [_append_line] adds for a list of lines. *)
Fixpoint log_text (lines : list string) : string :=
  match lines with
  | [] => EmptyString
  | l :: rest => l ++ Py.str Py.LF ++ log_text rest
  end.

(** [s.endswith(c)] for one character. *)
Fixpoint ends_with (c : ascii) (s : string) : bool :=
  match s with
  | EmptyString => false
  | String x EmptyString => Ascii.eqb x c
  | String _ s' => ends_with c s'
  end.

(** A log that is empty or ends with a line feed, as every log written
    by [_append_line] does. *)
Definition terminated (log : string) : bool :=
  Py.is_empty log || ends_with Py.LF log.

Definition is_launch (ev : Event) : bool :=
  match ev with Launch => true | _ => false end.

Definition is_close (ev : Event) : bool :=
  match ev with CloseContext => true | _ => false end.

(** How many events of a trace satisfy [p]. *)
Definition count_events (p : Event → bool) (events : list Event) : nat :=
  length (filter (fun ev => p ev) events).

(** The events of visits made in a row, each given by its domain and the
    events of its navigation, when [j] visits have been processed before
    the first of them: the visit that follows [j] processed visits is
    preceded by a close and a launch exactly when [j] is a positive
    multiple of [N]. *)
Fixpoint cadence (N j : Z) (visits : list (string * list Event)) : list Event :=
  match visits with
  | [] => []
  | (d, events) :: rest =>
      ((if (0 <? j)%Z && (j mod N =? 0)%Z then [CloseContext; Launch] else [])
       ++ Visiting d :: events ++ cadence N (j + 1) rest)%list
  end.

(** How many positions of two listings bear different names. *)
Fixpoint changed (before after : list string) : nat :=
  match before, after with
  | x :: before', y :: after' =>
      (if String.eqb x y then 0 else 1) + changed before' after'
  | _, _ => 0
  end.

(** ** Sample data *)

Module Sample.

Definition quoted (s : string) : string :=
  Py.str Py.dquote ++ s ++ Py.str Py.dquote.

(** The artifact text of the specification: an object of page
    https://x.com/path and timestamp 1700000000000. *)
Definition artifact_text : string :=
  "{" ++ quoted "page" ++ ":" ++ quoted "https://x.com/path" ++ ","
  ++ quoted "timestamp" ++ ":1700000000000}".

Definition artifact (mtime : Q) : Entry := mkEntry true mtime artifact_text false.

Definition canonical : string := "css_dump_2023-11-14T22-13-20Z_x.json".
Definition canonical_1 : string := "css_dump_2023-11-14T22-13-20Z_x_1.json".

(** A visit that starts at second 100, loads over HTTPS and finds no new
    file. *)
Definition quiet_visit : Visit := mkVisit 100 0 None None None [].

(** A visit whose two navigation attempts fail with the given messages. *)
Definition failing_visit (e_https e_http : string) : Visit :=
  mkVisit 100 0 None (Some e_https) (Some e_http) [].

(** The state of [main] before the loop when both logs and the downloads
    directory are empty. *)
Definition fresh_world : World :=
  mkWorld true true None EmptyString EmptyString [] (fun _ => quiet_visit) 0.

Definition fresh : State := initial_state fresh_world.

(** A site list of three domains, of which the visited log holds the
    second. *)
Definition three_sites : string :=
  "a.com" ++ Py.str Py.LF ++ "b.org" ++ Py.str Py.LF ++ "c.net".

(** A resumed run on [three_sites]: the visit met at position 3 fails
    twice, the others load over HTTPS. *)
Definition resumed_world : World :=
  mkWorld true true (Some three_sites) ("b.org" ++ Py.str Py.LF) EmptyString []
    (fun idx => if Nat.eqb idx 3 then failing_visit "timeout" "refused"
                else quiet_visit) 0.

(** A visit during which no page can be opened. *)
Definition crashed_visit : Visit := mkVisit 100 0 (Some "crashed") None None [].

End Sample.

(** * Properties *)

(** ** Characters and strings *)

Ltac each_char c :=
  destruct c as [[] [] [] [] [] [] [] []]; vm_compute; try reflexivity;
  try discriminate; auto.

Lemma lower_char_idem c : Py.lower_char (Py.lower_char c) = Py.lower_char c.
Proof. each_char c. Qed.

Lemma lower_char_not_upper c : Py.is_upper (Py.lower_char c) = false.
Proof. each_char c. Qed.

Lemma host_char_not_space c : host_char c = true → Py.is_space c = false.
Proof. each_char c. Qed.

Lemma not_break_not_LF c : Py.is_linebreak c = false → Ascii.eqb c Py.LF = false.
Proof. each_char c. Qed.

Lemma lower_idem s : Py.lower (Py.lower s) = Py.lower s.
Proof. induction s as [|c s IH]; simpl; [done|]. by rewrite lower_char_idem, IH. Qed.

Lemma lower_no_upper s :
  Py.all_chars (fun c => negb (Py.is_upper c)) (Py.lower s) = true.
Proof. induction s as [|c s IH]; simpl; [done|]. by rewrite lower_char_not_upper, IH. Qed.

Lemma is_empty_true s : Py.is_empty s = true ↔ s = EmptyString.
Proof. destruct s; simpl; split; congruence. Qed.

Lemma append_cons c a b : String c a ++ b = String c (a ++ b).
Proof. reflexivity. Qed.

Lemma append_empty_l b : EmptyString ++ b = b.
Proof. reflexivity. Qed.

Lemma all_chars_app p a b :
  Py.all_chars p (a ++ b) = Py.all_chars p a && Py.all_chars p b.
Proof.
  induction a as [|c a IH]; [done|].
  rewrite append_cons. simpl. by rewrite IH, andb_assoc.
Qed.

Lemma all_chars_impl (p q : ascii → bool) s :
  (∀ c, p c = true → q c = true) →
  Py.all_chars p s = true → Py.all_chars q s = true.
Proof.
  intros Hpq. induction s as [|c s IH]; simpl; [done|].
  intros [Hc Hs]%andb_true_iff. rewrite (Hpq _ Hc). simpl. auto.
Qed.

Lemma rsplit_char_app ch s u v :
  Py.rsplit_char ch s = Some (u, v) → s = u ++ String ch v.
Proof.
  revert u v. induction s as [|c s IH]; simpl; intros u v; [done|].
  destruct (Py.rsplit_char ch s) as [[b a]|] eqn:Hs.
  - intros [= <- <-]. rewrite append_cons. f_equal. by apply IH.
  - destruct (Ascii.eqb_spec c ch) as [->|]; [|done].
    by intros [= <- <-].
Qed.

Lemma rstrip_by_id p s :
  Py.all_chars (fun c => negb (p c)) s = true → Py.rstrip_by p s = s.
Proof.
  induction s as [|c s IH]; simpl; [done|].
  intros [Hc Hs]%andb_true_iff. rewrite (IH Hs).
  apply negb_true_iff in Hc. by rewrite Hc, andb_false_r.
Qed.

Lemma lstrip_by_id p s :
  Py.all_chars (fun c => negb (p c)) s = true → Py.lstrip_by p s = s.
Proof.
  destruct s as [|c s]; simpl; [done|].
  intros [Hc _]%andb_true_iff. apply negb_true_iff in Hc. by rewrite Hc.
Qed.

Lemma strip_id s :
  Py.all_chars (fun c => negb (Py.is_space c)) s = true → Py.strip s = s.
Proof.
  intros H. unfold Py.strip, Py.strip_by. rewrite (lstrip_by_id _ _ H).
  by apply rstrip_by_id.
Qed.

Lemma chomp_id s :
  Py.all_chars (fun c => negb (Py.is_linebreak c)) s = true → chomp s = s.
Proof.
  induction s as [|c s IH]; simpl; [done|].
  intros [Hc Hs]%andb_true_iff. rewrite (IH Hs).
  apply negb_true_iff, not_break_not_LF in Hc. by rewrite Hc, andb_false_r.
Qed.

Lemma splitlines_no_break s l :
  l ∈ Py.splitlines s →
  Py.all_chars (fun c => negb (Py.is_linebreak c)) l = true.
Proof.
  assert (H : ∀ n s, String.length s < n → ∀ l, l ∈ Py.splitlines s →
      Py.all_chars (fun c => negb (Py.is_linebreak c)) l = true).
  { clear. induction n as [|n IH]; intros s Hn l; [lia|].
    destruct s as [|c s]; simpl in *; [by intros ?%elem_of_nil|].
    destruct (Py.is_linebreak c) eqn:Hc.
    - intros [->|Hl]%elem_of_cons; [done|].
      destruct s as [|c' s']; [by apply elem_of_nil in Hl|].
      destruct (Ascii.eqb c Py.CR && Ascii.eqb c' Py.LF);
        (eapply IH; [|exact Hl]); simpl in *; lia.
    - assert (Hrec : ∀ l', l' ∈ Py.splitlines s →
          Py.all_chars (fun c => negb (Py.is_linebreak c)) l' = true).
      { intros l'. apply IH. lia. }
      destruct (Py.splitlines s) as [|l0 ls].
      + intros ->%list_elem_of_singleton. simpl. by rewrite Hc.
      + intros [->|Hl]%elem_of_cons.
        * simpl. rewrite Hc. simpl. apply Hrec. left.
        * apply Hrec. by right. }
  apply (H (S (String.length s))). lia.
Qed.

(** A full match holds only characters of the host class. *)
Lemma domain_fullmatch_chars s :
  domain_fullmatch s = true →
  Py.all_chars host_char s = true ∧ s ≠ EmptyString.
Proof.
  unfold domain_fullmatch.
  destruct (Py.rsplit_char "." s) as [[u v]|] eqn:Hs; [|done].
  apply rsplit_char_app in Hs as ->.
  intros [[[Hu Hcu]%andb_true_iff Hv]%andb_true_iff _]%andb_true_iff.
  split.
  - rewrite all_chars_app. simpl. rewrite Hcu. simpl.
    eapply all_chars_impl; [|exact Hv].
    intros c Hc. unfold host_char. by rewrite Hc.
  - destruct u; [done|]. rewrite append_cons. discriminate.
Qed.

(** A matched text without line break is its own [strip()]. *)
Lemma DOMAIN_RE_match_strip s :
  DOMAIN_RE_match s = true →
  Py.all_chars (fun c => negb (Py.is_linebreak c)) s = true →
  Py.strip s = s ∧ Py.is_empty s = false.
Proof.
  unfold DOMAIN_RE_match. intros Hm Hnb. rewrite (chomp_id _ Hnb) in Hm.
  apply domain_fullmatch_chars in Hm as [Hc Hne]. split.
  - apply strip_id. eapply all_chars_impl; [|exact Hc].
    intros c Hh. by rewrite (host_char_not_space _ Hh).
  - by destruct s.
Qed.

(** ** The domain list loader *)

Section Loader.

Context (urlparse_hostname : string → Hostname).

(** Whatever [_extract_domain] returns matches [DOMAIN_RE] and is in lower
    case. *)
Lemma extract_domain_some raw d :
  _extract_domain urlparse_hostname raw = Ok (Some d) →
  DOMAIN_RE_match d = true ∧ Py.lower d = d.
Proof.
  unfold _extract_domain.
  destruct (Py.is_empty raw); [done|].
  set (s := Py.strip_char _ _). destruct (Py.is_empty s); [done|].
  destruct (_ || _).
  - destruct (urlparse_hostname s) as [|h]; [done|].
    destruct (DOMAIN_RE_match _) eqn:Hm; intros [= <-].
    split; [done|apply lower_idem].
  - destruct (if Py.contains "," s then _ else _) as [s1|]; simpl; [|done].
    destruct (if Py.contains " " s1 || _ then _ else _) as [s2|]; simpl; [|done].
    destruct (DOMAIN_RE_match _) eqn:Hm; intros [= <-].
    split; [done|apply lower_idem].
Qed.

Lemma load_lines_spec lines : ∀ out seen res,
  load_lines urlparse_hostname lines out seen = Ok res →
  (∀ d, d ∈ seen ↔ d ∈ out) → NoDup out →
  NoDup res ∧
  ∀ d, d ∈ res →
    d ∈ out ∨ ∃ line, line ∈ lines ∧ _extract_domain urlparse_hostname line = Ok (Some d).
Proof.
  induction lines as [|line rest IH]; intros out seen res; simpl.
  { intros [= <-] _ Hnd. split; [done|]. by left. }
  destruct (_extract_domain urlparse_hostname line) as [[d|]|] eqn:Hline; simpl; [| |done].
  - destruct (negb (Py.is_empty d) && bool_decide (d ∉ seen)) eqn:Hnew.
    + apply andb_true_iff in Hnew as [_ Hd%bool_decide_eq_true].
      intros Hres Hseen Hnd.
      destruct (IH _ _ _ Hres) as [Hnd' Hin].
      * intros d0. rewrite elem_of_union, elem_of_singleton, elem_of_app,
          list_elem_of_singleton, Hseen. tauto.
      * apply NoDup_app. split_and!; [done| |apply NoDup_singleton].
        intros x Hx ->%list_elem_of_singleton. by apply Hd, Hseen.
      * split; [done|]. intros d0 Hd0.
        destruct (Hin _ Hd0) as [[?| ->%list_elem_of_singleton]%elem_of_app
                                |(l & Hl & He)].
        -- by left.
        -- right. exists line. split; [left|done].
        -- right. exists l. split; [by right|done].
    + intros Hres Hseen Hnd. destruct (IH _ _ _ Hres Hseen Hnd) as [Hnd' Hin].
      split; [done|]. intros d0 Hd0.
      destruct (Hin _ Hd0) as [?|(l & Hl & He)]; [by left|].
      right. exists l. split; [by right|done].
  - intros Hres Hseen Hnd. destruct (IH _ _ _ Hres Hseen Hnd) as [Hnd' Hin].
    split; [done|]. intros d0 Hd0.
    destruct (Hin _ Hd0) as [?|(l & Hl & He)]; [by left|].
    right. exists l. split; [by right|done].
Qed.

(** What [load_sites] returns has no duplicate, and each element comes
    from a line of the file. *)
Lemma load_sites_spec file domains :
  load_sites urlparse_hostname file = Ok domains →
  NoDup domains ∧
  ∀ d, d ∈ domains →
    ∃ text line, file = Some text ∧ line ∈ Py.splitlines text
                 ∧ _extract_domain urlparse_hostname line = Ok (Some d).
Proof.
  destruct file as [text|]; simpl; [|done]. intros Hres.
  destruct (load_lines_spec _ _ _ _ Hres) as [Hnd Hin].
  - intros d. by rewrite elem_of_empty, elem_of_nil.
  - apply NoDup_nil_2.
  - split; [done|]. intros d Hd.
    destruct (Hin _ Hd) as [?%elem_of_nil|(l & Hl & He)]; [done|].
    by exists text, l.
Qed.

Lemma load_sites_match file domains d :
  load_sites urlparse_hostname file = Ok domains → d ∈ domains →
  DOMAIN_RE_match d = true ∧ Py.lower d = d.
Proof.
  intros [_ Hin]%load_sites_spec Hd.
  destruct (Hin _ Hd) as (text & line & _ & _ & He).
  by apply extract_domain_some in He.
Qed.

(** C7. The loader meets a line made of a double quote, a space and a
    double quote: after the quotes are stripped the text is one space,
    [s.split()] is empty and [s.split()[-1]] raises [IndexError], which
    nothing catches; [load_sites] raises instead of dropping the line. *)
Theorem load_sites_quoted_blank_raises :
  load_sites urlparse_hostname (Some (Py.str Py.dquote ++ " " ++ Py.str Py.dquote))
  = Raise IndexError.
Proof. reflexivity. Qed.

(** C10. Every domain that [load_sites] returns is in lower case: it is
    its own [lower()] and holds no upper-case letter, whether it came from
    a URL or from a bare, CSV or ranked entry. Hence two lines whose
    domains are equal up to letter case yield the same domain, so that the
    second is dropped as a duplicate, and membership of a loaded domain in
    the visited set does not depend on letter case. *)
Theorem loaded_domains_lowercase file domains d :
  load_sites urlparse_hostname file = Ok domains → d ∈ domains →
  Py.lower d = d
  ∧ Py.all_chars (fun c => negb (Py.is_upper c)) d = true
  ∧ (∀ raw d', _extract_domain urlparse_hostname raw = Ok (Some d') →
       Py.lower d' = Py.lower d → d' = d)
  ∧ (∀ d', d' ∈ domains → Py.lower d' = Py.lower d → d' = d)
  ∧ (∀ log, d ∈ _read_set log ↔ Py.lower d ∈ _read_set log).
Proof.
  intros Hload Hd.
  destruct (load_sites_match _ _ _ Hload Hd) as [_ Hlow].
  split_and!.
  - done.
  - rewrite <- Hlow. apply lower_no_upper.
  - intros raw d' [_ Hlow']%extract_domain_some. by rewrite Hlow, Hlow'.
  - intros d' Hd'. destruct (load_sites_match _ _ _ Hload Hd') as [_ Hlow'].
    by rewrite Hlow, Hlow'.
  - intros log. by rewrite Hlow.
Qed.

End Loader.

(** ** The visited log and the driver loop *)

Lemma read_set_elem log d :
  d ∈ _read_set log ↔
  Py.is_empty d = false ∧ ∃ line, line ∈ Py.splitlines log ∧ Py.strip line = d.
Proof.
  unfold _read_set.
  rewrite elem_of_list_to_set, list_elem_of_filter, list_elem_of_fmap.
  split.
  - intros [Hne (line & -> & Hl)]. split; [|by exists line].
    by destruct (Py.is_empty (Py.strip line)).
  - intros [Hne (line & Hl & <-)]. split; [by rewrite Hne|by exists line].
Qed.

(** A line of the visited log that is a domain is in the visited set. *)
Lemma visited_line_in_read_set log d :
  d ∈ Py.splitlines log → DOMAIN_RE_match d = true → d ∈ _read_set log.
Proof.
  intros Hl Hm.
  destruct (DOMAIN_RE_match_strip d Hm (splitlines_no_break _ _ Hl)) as [Hs Hne].
  apply read_set_elem. split; [done|]. by exists d.
Qed.

Lemma navigate_no_visiting domain v d : Visiting d ∉ (navigate domain v).1.
Proof.
  unfold navigate.
  destruct (new_page v), (goto_https v), (goto_http v); simpl;
    intros H; repeat (apply elem_of_cons in H as [H|H]; [done|]);
    by apply elem_of_nil in H.
Qed.

Section Driver.

Context (urlparse_hostname : string → Hostname).
Context (json_loads : string → option Json).

Lemma visit_domain_visiting cfg v domain st st' d :
  visit_domain urlparse_hostname json_loads cfg v domain st = Ok st' →
  visited st' = {[ domain ]} ∪ visited st
  ∧ (Visiting d ∈ trace st' → Visiting d ∈ trace st ∨ d = domain).
Proof.
  unfold visit_domain.
  destruct (restart_due cfg (processed st)) as [due|]; simpl; [|done].
  pose proof (navigate_no_visiting domain v d) as Hnav.
  destruct (navigate domain v) as [events o]. intros [= <-]. simpl.
  split; [done|].
  rewrite !elem_of_app, elem_of_cons.
  intros [?|[Hr|[[= ->]|?]]]; [by left| |by right|done].
  destruct due; [|by apply elem_of_nil in Hr].
  repeat (apply elem_of_cons in Hr as [Hr|Hr]; [done|]).
  by apply elem_of_nil in Hr.
Qed.

(** The loop prints [Visiting] only for domains of the list that were not
    in the visited set when it started. *)
Lemma crawl_visiting cfg visit_at domains : ∀ idx st st' e d,
  crawl urlparse_hostname json_loads cfg visit_at idx domains st = (st', e) →
  Visiting d ∈ trace st' →
  Visiting d ∈ trace st ∨ (d ∈ domains ∧ d ∉ visited st).
Proof.
  induction domains as [|domain rest IH]; intros idx st st' e d; simpl.
  { intros [= <- <-]. by left. }
  destruct (bool_decide (domain ∈ visited st)) eqn:Hv.
  - intros Hc Ht. destruct (IH _ _ _ _ _ Hc Ht) as [?|[? ?]]; [by left|].
    right. split; [by right|done].
  - apply bool_decide_eq_false in Hv.
    destruct (visit_domain _ _ cfg (visit_at idx) domain st) as [st1|] eqn:Hvd.
    + destruct (visit_domain_visiting _ _ _ _ _ d Hvd) as [Hvis Htr].
      intros Hc Ht. destruct (IH _ _ _ _ _ Hc Ht) as [H1|[Hin Hnv]].
      * destruct (Htr H1) as [?| ->]; [by left|].
        right. split; [left|done].
      * right. split; [by right|]. intros Hd. apply Hnv. rewrite Hvis.
        apply elem_of_union. by right.
    + intros [= <- <-]. by left.
Qed.

(** C8. A domain that is a line of the visited log is not in the work set
    that the loader and the filter compute from that log, whatever the site
    list; and a run of [main] that starts from that log never prints
    [Visiting] for it, that is, never visits it. *)
Theorem resume_skips_visited sites log d :
  d ∈ Py.splitlines log →
  (∀ ws, work_set urlparse_hostname sites log = Ok ws → d ∉ ws)
  ∧ (∀ cfg w st e,
       sites_file w = Some sites → visited_file w = log →
       main urlparse_hostname json_loads cfg w = Ok (st, e) →
       Visiting d ∉ trace st).
Proof.
  intros Hline. split.
  - intros ws. unfold work_set.
    destruct (load_sites urlparse_hostname (Some sites)) as [domains|] eqn:Hl;
      simpl; [|done].
    intros [= <-] [Hnot Hd]%list_elem_of_filter.
    apply bool_decide_unpack in Hnot. apply Hnot.
    apply visited_line_in_read_set; [done|].
    by destruct (load_sites_match _ _ _ _ Hl Hd).
  - intros cfg w st e Hsites Hlog. unfold main.
    destruct (extension_exists w); simpl; [|done].
    destruct (brave_exists w); simpl; [|done].
    destruct (load_sites urlparse_hostname (sites_file w)) as [domains|] eqn:Hl;
      simpl; [|done].
    destruct (crawl _ _ cfg (visits w) 1 domains (initial_state w))
      as [st1 e1] eqn:Hc.
    assert (Hno : Visiting d ∉ trace st1).
    { intros Ht. destruct (crawl_visiting _ _ _ _ _ _ _ _ Hc Ht) as [H0|[Hd Hnv]].
      - simpl in H0. apply list_elem_of_singleton in H0. done.
      - apply Hnv. simpl. rewrite Hlog.
        apply visited_line_in_read_set; [done|].
        by destruct (load_sites_match _ _ _ _ Hl Hd). }
    assert (Hno' : Visiting d ∉ trace (close_context st1)).
    { simpl. rewrite elem_of_app, list_elem_of_singleton. by intros [?|?]. }
    destruct e1 as [e1|]; [by intros [= <- <-]|].
    destruct (INCREMENTAL_RENAME cfg); [by intros [= <- <-]|].
    destruct (postprocess_rename _ _ _ _ _) as [dd r].
    by intros [= <- <-].
Qed.

End Driver.

(** The example of the specification: a URL, a CSV row, a line that is no
    domain and a ranked line; a repeated domain in upper case is dropped. *)
Lemma load_sites_example :
  load_sites Lib.py_urlparse_hostname
    (Some ("https://a.com/x" ++ Py.str Py.LF ++ "83,b.org" ++ Py.str Py.LF
           ++ "notadomain" ++ Py.str Py.LF ++ "12 c.net" ++ Py.str Py.LF
           ++ "B.ORG" ++ Py.str Py.LF))
  = Ok ["a.com"; "b.org"; "c.net"].
Proof. vm_compute. reflexivity. Qed.

Lemma loaded_domains_lowercase_witness :
  Py.lower "example.com" = "example.com"
  ∧ Py.all_chars (fun c => negb (Py.is_upper c)) "example.com" = true.
Proof.
  destruct (loaded_domains_lowercase Lib.py_urlparse_hostname
              (Some "Example.COM") ["example.com"] "example.com")
    as (H1 & H2 & _).
  - vm_compute. reflexivity.
  - apply list_elem_of_singleton. reflexivity.
  - split; [exact H1|exact H2].
Defined.

Lemma resume_skips_visited_witness :
  (∀ ws, work_set Lib.py_urlparse_hostname
           ("a.com" ++ Py.str Py.LF ++ "b.org")
           ("a.com" ++ Py.str Py.LF) = Ok ws → "a.com" ∉ ws)
  ∧ (∀ cfg w st e,
       sites_file w = Some ("a.com" ++ Py.str Py.LF ++ "b.org") →
       visited_file w = "a.com" ++ Py.str Py.LF →
       main Lib.py_urlparse_hostname Lib.py_json_loads cfg w = Ok (st, e) →
       Visiting "a.com" ∉ trace st).
Proof.
  apply (resume_skips_visited Lib.py_urlparse_hostname Lib.py_json_loads).
  vm_compute. apply list_elem_of_singleton. reflexivity.
Defined.

(** ** The directory *)

Lemma length_append a b :
  String.length (a ++ b) = String.length a + String.length b.
Proof.
  induction a as [|c a IH]; [done|]. rewrite append_cons. simpl. by rewrite IH.
Qed.

Lemma append_inv_tail a b s : a ++ s = b ++ s → a = b.
Proof.
  revert b. induction a as [|c a IH]; intros [|c' b] H.
  - done.
  - apply (f_equal String.length) in H.
    rewrite !length_append in H. simpl in H. lia.
  - apply (f_equal String.length) in H.
    rewrite !length_append in H. simpl in H. lia.
  - rewrite !append_cons in H. injection H as -> H. f_equal. by apply IH.
Qed.

Lemma append_inv_head s a b : s ++ a = s ++ b → a = b.
Proof.
  induction s as [|c s IH]; [done|].
  rewrite !append_cons. intros [= H]. by apply IH.
Qed.

Lemma decimal_inj i j : Py.decimal i = Py.decimal j → i = j.
Proof.
  unfold Py.decimal. intros H.
  apply (f_equal NilEmpty.uint_of_string) in H.
  rewrite !NilEmpty.usu in H. injection H as H.
  apply (f_equal Nat.of_uint) in H.
  by rewrite !DecimalNat.Unsigned.of_to in H.
Qed.

Lemma candidate_inj target i j :
  candidate target i = candidate target j → i = j.
Proof.
  unfold candidate. intros H.
  apply append_inv_head in H. apply (append_inv_head "_") in H.
  apply append_inv_tail in H. by apply decimal_inj.
Qed.



Lemma path_exists_names d n : path_exists d n = true ↔ n ∈ names d.
Proof.
  unfold path_exists, names.
  induction d as [|[m e] d IH]; simpl.
  - split; [done|]. by intros ?%elem_of_nil.
  - rewrite elem_of_cons. simpl.
    destruct (String.eqb_spec m n) as [->|Hne]; [by split; auto|].
    rewrite IH. split; [by right|]. by intros [->|?].
Qed.

Lemma path_exists_false d n : path_exists d n = false ↔ n ∉ names d.
Proof.
  rewrite <- path_exists_names. by destruct (path_exists d n).
Qed.

Lemma entry_names d n e : entry n d = Some e → n ∈ names d.
Proof. intros H. apply path_exists_names. unfold path_exists. by rewrite H. Qed.

Lemma entry_replace_other old new d n :
  n ≠ old → n ≠ new → entry n (replace_name old new d) = entry n d.
Proof.
  intros Ho Hn. induction d as [|[m e] d IH]; simpl; [done|].
  destruct (String.eqb_spec m old) as [->|Hmo]; simpl.
  - destruct (String.eqb_spec new n) as [->|]; [done|].
    by destruct (String.eqb_spec old n) as [->|].
  - destruct (String.eqb_spec m n); [done|]. apply IH.
Qed.


Lemma names_replace old new d n :
  n ∈ names (replace_name old new d) →
  n = new ∨ (n ∈ names d ∧ (old ∈ names d → NoDup (names d) → n ≠ old)).
Proof.
  unfold names. induction d as [|[m e] d IH]; simpl; [by intros ?%elem_of_nil|].
  destruct (String.eqb_spec m old) as [->|Hmo]; simpl.
  - rewrite !elem_of_cons. intros [->|Hn]; [by left|].
    right. split; [by right|]. intros _ Hnd ->.
    apply NoDup_cons in Hnd as [Hnot _]. done.
  - rewrite !elem_of_cons. intros [->|Hn].
    + right. split; [by left|]. by intros _ _ ->.
    + destruct (IH Hn) as [->|[Hin Hne]]; [by left|].
      right. split; [by right|].
      intros [?|Ho] Hnd; [congruence|].
      apply NoDup_cons in Hnd as [_ Hnd]. by apply Hne.
Qed.


Lemma names_replace_keep old new d n :
  n ∈ names d → n ≠ old → n ∈ names (replace_name old new d).
Proof.
  unfold names. induction d as [|[m e] d IH]; simpl; [by intros ?%elem_of_nil|].
  destruct (String.eqb_spec m old) as [->|Hmo]; simpl.
  - intros [->|Hn]%elem_of_cons Hne; [done|]. by right.
  - intros [->|Hn]%elem_of_cons Hne; [left|]. right. by apply IH.
Qed.

Lemma NoDup_replace old new d :
  NoDup (names d) → new ∉ names d → NoDup (names (replace_name old new d)).
Proof.
  unfold names. induction d as [|[m e] d IH]; simpl; [done|].
  rewrite NoDup_cons, not_elem_of_cons. intros [Hm Hnd] [Hne Hnew].
  destruct (String.eqb_spec m old) as [->|Hmo]; simpl.
  - apply NoDup_cons. done.
  - apply NoDup_cons. split; [|by apply IH].
    intros [->|[? _]]%names_replace; done.
Qed.

Lemma length_replace old new d : length (replace_name old new d) = length d.
Proof.
  induction d as [|[m e] d IH]; simpl; [done|].
  destruct (String.eqb m old); simpl; by rewrite ?IH.
Qed.

(** ** [_uniquify] *)

Lemma uniquify_loop_some d target fuel : ∀ i r,
  uniquify_loop d target fuel i = Some r →
  ∃ k, (i ≤ k)%nat ∧ r = candidate target k ∧ path_exists d r = false
       ∧ ∀ j, (i ≤ j < k)%nat → path_exists d (candidate target j) = true.
Proof.
  induction fuel as [|fuel IH]; intros i r; simpl; [done|].
  destruct (path_exists d (candidate target i)) eqn:Hi.
  - intros (k & Hk & -> & Hfree & Hused)%IH.
    exists k. split_and!; [lia|done|done|].
    intros j Hj. destruct (decide (j = i)) as [->|]; [done|].
    apply Hused. lia.
  - intros [= <-]. exists i. split_and!; [lia|done|done|]. intros j Hj. lia.
Qed.

Lemma uniquify_loop_none d target fuel : ∀ i,
  uniquify_loop d target fuel i = None →
  ∀ j, (i ≤ j < i + fuel)%nat → path_exists d (candidate target j) = true.
Proof.
  induction fuel as [|fuel IH]; intros i; simpl; [intros _ j Hj; lia|].
  destruct (path_exists d (candidate target i)) eqn:Hi; [|done].
  intros Hn j Hj. destruct (decide (j = i)) as [->|]; [done|].
  apply (IH _ Hn). lia.
Qed.

(** The loop of [_uniquify] ends: among [n + 1] candidate names, one is
    not an entry of a directory of [n] entries. *)
Lemma _uniquify_total d target : ∃ r, _uniquify d target = Some r.
Proof.
  unfold _uniquify. destruct (path_exists d target); [|by eexists].
  destruct (uniquify_loop d target (S (length d)) 1) as [r|] eqn:Hl;
    [by eexists|].
  exfalso.
  pose proof (uniquify_loop_none _ _ _ _ Hl) as Hall.
  assert (Hsub : candidate target <$> seq 1 (S (length d)) ⊆+ names d).
  { apply NoDup_submseteq.
    - apply NoDup_fmap_2; [intros i j; apply candidate_inj|apply NoDup_seq].
    - intros x (j & -> & Hj%elem_of_seq)%list_elem_of_fmap.
      apply path_exists_names, Hall. lia. }
  apply submseteq_length in Hsub.
  unfold names in Hsub. rewrite !length_fmap, length_seq in Hsub. lia.
Qed.

(** [_uniquify] returns a name that is not taken: the target itself if it
    is free, else the candidate of the least [k >= 1] that is free. *)
Lemma _uniquify_spec d target r :
  _uniquify d target = Some r →
  (r ∉ names d)
  ∧ (((target ∉ names d) ∧ r = target)
     ∨ (target ∈ names d
        ∧ ∃ k, (1 ≤ k)%nat ∧ r = candidate target k
               ∧ ∀ j, (1 ≤ j < k)%nat → candidate target j ∈ names d)).
Proof.
  unfold _uniquify. destruct (path_exists d target) eqn:He.
  - intros (k & Hk & -> & Hfree & Hused)%uniquify_loop_some.
    split; [by apply path_exists_false|]. right.
    split; [by apply path_exists_names|].
    exists k. split_and!; [done|done|].
    intros j Hj. by apply path_exists_names, Hused.
  - intros [= <-]. apply path_exists_false in He. split; [done|by left].
Qed.




(** ** The correlator *)

Section Correlator.

Context (urlparse_hostname : string → Hostname).
Context (json_loads : string → option Json).

(** The name computed for a file depends on its own entry only. *)
Lemma new_name_entry now d d' f :
  entry f d = entry f d' →
  new_name urlparse_hostname json_loads now d f
  = new_name urlparse_hostname json_loads now d' f.
Proof. unfold new_name, _try_load_json. by intros ->. Qed.

(** A file whose computed name leads [_uniquify] to [t] is renamed to [t]
    unless the rename fails. *)
Lemma rename_one_renamed now d f e name t :
  new_name urlparse_hostname json_loads now d f = Ok (Some name) →
  entry f d = Some e → locked e = false →
  _uniquify d name = Some t →
  rename_one urlparse_hostname json_loads now d f
  = Ok (Some (t, replace_name f t d)).
Proof.
  intros Hname He Hl Hu. unfold rename_one. rewrite Hname. simpl. rewrite Hu.
  destruct (_uniquify_spec _ _ _ Hu) as [Hnew _].
  destruct (String.eqb_spec t f) as [->|_].
  { exfalso. apply Hnew. by eapply entry_names. }
  unfold rename. rewrite He, Hl. simpl.
  apply path_exists_false in Hnew. by rewrite Hnew.
Qed.



End Correlator.

Section CorrelatorSteps.

Context (urlparse_hostname : string → Hostname).
Context (json_loads : string → option Json).

(** What the loop does with a file that already bears its computed name:
    [_uniquify] runs before the comparison with the current path and, the
    name being taken by the file itself, returns a suffixed name; the file
    is renamed to it. *)
Lemma rename_one_already_canonical now d f e :
  new_name urlparse_hostname json_loads now d f = Ok (Some f) →
  entry f d = Some e → locked e = false →
  ∃ k, (1 ≤ k)%nat
    ∧ rename_one urlparse_hostname json_loads now d f
      = Ok (Some (candidate f k, replace_name f (candidate f k) d)).
Proof.
  intros Hname He Hl.
  destruct (_uniquify_total d f) as [t Ht].
  destruct (_uniquify_spec _ _ _ Ht) as [_ [[Hnot _]|[_ (k & Hk & -> & _)]]].
  { exfalso. apply Hnot. by eapply entry_names. }
  exists k. split; [done|]. by eapply rename_one_renamed.
Qed.

(** An object without the keys [page] and [url] has no page identifier. *)
Lemma page_identifier_absent pairs :
  dict_get "page" pairs = None → dict_get "url" pairs = None →
  page_identifier (JObj pairs) = Ok JNull.
Proof. unfold page_identifier. simpl. by intros -> ->. Qed.

(** The files that the loop passes over in silence: text that does not
    start as JSON, text that does not parse, a value without page
    identifier, a host that is not a domain. *)
Lemma rename_one_ignores now d f :
  (∀ e, entry f d = Some e →
     (Py.startswith "{" (Py.lstrip (content e))
      || Py.startswith "[" (Py.lstrip (content e)) = false)
     ∨ json_loads (content e) = None
     ∨ (∃ data v, json_loads (content e) = Some data
          ∧ page_identifier data = Ok v ∧ truthy v = false)
     ∨ (∃ data u h, json_loads (content e) = Some data
          ∧ page_identifier data = Ok (JStr u)
          ∧ urlparse_hostname u = Host h
          ∧ DOMAIN_RE_match (Py.lower (default EmptyString h)) = false)) →
  rename_one urlparse_hostname json_loads now d f = Ok None.
Proof.
  intros H. unfold rename_one, new_name, _try_load_json.
  destruct (entry f d) as [e|]; [|done].
  destruct (is_file e); [|done].
  destruct (H e eq_refl) as [Hs|[Hj|[(data & v & Hj & Hp & Hv)|(data & u & h & Hj & Hp & Hu & Hm)]]].
  - by rewrite Hs.
  - rewrite Hj. by destruct (_ || _).
  - rewrite Hj. destruct (_ || _); [|done].
    destruct data; try done. rewrite Hp. simpl. by rewrite Hv.
  - rewrite Hj. destruct (_ || _); [|done].
    destruct data; try done. rewrite Hp. simpl.
    destruct (Py.is_empty u); [done|]. simpl. rewrite Hu. simpl. by rewrite Hm.
Qed.

End CorrelatorSteps.

(** ** Runs on sample directories *)


(** C1. A directory holds one artifact under a raw name. The first pass
    renames it to its canonical name. The second pass, on the directory as
    the first left it, renames the file again, to the name of suffix 1, and
    returns one rename, not zero: the file whose computed name is its
    current name is not left untouched. The batch script does the same. *)
Theorem second_pass_renames_again :
  postprocess_rename Lib.py_urlparse_hostname Lib.py_json_loads 0
    [("download", Sample.artifact 5)] None
  = ([(Sample.canonical, Sample.artifact 5)], Ok 1%Z)
  ∧ postprocess_rename Lib.py_urlparse_hostname Lib.py_json_loads 0
      [(Sample.canonical, Sample.artifact 5)] None
    = ([(Sample.canonical_1, Sample.artifact 5)], Ok 1%Z)
  ∧ RenameByPageField.main Lib.py_urlparse_hostname Lib.py_json_loads 0
      [(Sample.canonical, Sample.artifact 5)]
    = ([(Sample.canonical_1, Sample.artifact 5)], Ok (1%Z, 0%Z)).
Proof. split_and!; vm_compute; reflexivity. Qed.

(** C9. A file whose text is the JSON array [[]] passes the test on the
    first character and parses; [data.get] then raises [AttributeError],
    which the loop does not catch: the pass ends there and the artifact
    listed after it is not looked at. The batch script does the same. *)
Theorem json_array_file_raises :
  postprocess_rename Lib.py_urlparse_hostname Lib.py_json_loads 0
    [("junk", mkEntry true 5 "[]" false); ("download", Sample.artifact 5)] None
  = ([("junk", mkEntry true 5 "[]" false); ("download", Sample.artifact 5)],
     Raise AttributeError)
  ∧ RenameByPageField.main Lib.py_urlparse_hostname Lib.py_json_loads 0
      [("junk", mkEntry true 5 "[]" false)]
    = ([("junk", mkEntry true 5 "[]" false)], Raise AttributeError).
Proof. split; vm_compute; reflexivity. Qed.


(** ** The visits of the driver *)

Lemma append_assoc a b c : (a ++ b) ++ c = a ++ b ++ c.
Proof.
  induction a as [|x a IH]; [done|]. rewrite !append_cons. by rewrite IH.
Qed.

Lemma navigate_no_restart domain v :
  (Launch ∉ (navigate domain v).1) ∧ (CloseContext ∉ (navigate domain v).1).
Proof.
  unfold navigate.
  destruct (new_page v), (goto_https v), (goto_http v); simpl; split;
    intros H; repeat (apply elem_of_cons in H as [H|H]; [done|]);
    by apply elem_of_nil in H.
Qed.

Section Visits.

Context (urlparse_hostname : string → Hostname).
Context (json_loads : string → option Json).

Lemma visit_domain_ok cfg v domain st due :
  restart_due cfg (processed st) = Ok due →
  visit_domain urlparse_hostname json_loads cfg v domain st
  = Ok {| visited := {[ domain ]} ∪ visited st;
          visited_txt := _append_line (visited_txt st) domain;
          failed_txt :=
            if negb (loaded (navigate domain v).2)
               || err_truthy (err (navigate domain v).2)
            then _append_line (failed_txt st)
                   (failure_line domain (navigate domain v).2)
            else failed_txt st;
          downloads :=
            if INCREMENTAL_RENAME cfg
            then (postprocess_rename urlparse_hostname json_loads (clock_now v)
                    (downloads st ++ downloaded v)%list
                    (Some (incremental_bound v))).1
            else (downloads st ++ downloaded v)%list;
          processed := (processed st + 1)%Z;
          trace := (trace st ++ (if due then [CloseContext; Launch] else [])
                    ++ Visiting domain :: (navigate domain v).1)%list |}.
Proof.
  intros Hdue. unfold visit_domain. rewrite Hdue. simpl.
  by destruct (navigate domain v).
Qed.

Lemma visit_domain_inv cfg v domain st st' :
  visit_domain urlparse_hostname json_loads cfg v domain st = Ok st' →
  ∃ due, restart_due cfg (processed st) = Ok due.
Proof.
  unfold visit_domain. destruct (restart_due cfg (processed st)) as [due|];
    [by exists due|done].
Qed.

Lemma gotos_app a b : gotos (a ++ b) = (gotos a ++ gotos b)%list.
Proof. apply omap_app. Qed.

End Visits.

(** ** Runs of sample visits *)

(** * Further properties of the code *)

(** ** The loader, where it returns *)

Lemma filter_all {A} (P : A → Prop) `{∀ x, Decision (P x)} (l : list A) :
  (∀ x, x ∈ l → P x) → filter P l = l.
Proof.
  induction l as [|x l IH]; intros Hall; [done|].
  rewrite filter_cons_True by (apply Hall; left).
  f_equal. apply IH. intros y Hy. apply Hall. by right.
Qed.

Lemma first_seen_elem ds x : x ∈ first_seen ds ↔ x ∈ ds.
Proof.
  induction ds as [|d ds IH]; simpl; [done|].
  rewrite !elem_of_cons, list_elem_of_filter, IH. split.
  - intros [->|[_ Hx]]; [by left|by right].
  - intros [->|Hx]; [by left|].
    destruct (decide (x = d)) as [->|Hne]; [by left|by right].
Qed.

Lemma first_seen_NoDup ds : NoDup (first_seen ds).
Proof.
  induction ds as [|d ds IH]; simpl; [apply NoDup_nil_2|].
  apply NoDup_cons. split.
  - intros [Hne _]%list_elem_of_filter. by apply Hne.
  - by apply NoDup_filter.
Qed.

Section LoaderOrder.

Context (urlparse_hostname : string → Hostname).

Lemma domains_of_elem lines d :
  d ∈ domains_of urlparse_hostname lines ↔
  Py.is_empty d = false
  ∧ ∃ line, line ∈ lines ∧ _extract_domain urlparse_hostname line = Ok (Some d).
Proof.
  unfold domains_of. rewrite list_elem_of_omap. split.
  - intros (line & Hl & Hd).
    destruct (_extract_domain urlparse_hostname line) as [[d'|]|] eqn:He;
      try done.
    destruct (Py.is_empty d') eqn:Hne; [done|]. injection Hd as ->.
    split; [done|]. by exists line.
  - intros [Hne (line & Hl & He)]. exists line. split; [done|].
    by rewrite He, Hne.
Qed.

Lemma load_lines_order lines : ∀ out seen res,
  load_lines urlparse_hostname lines out seen = Ok res →
  (∀ d, d ∈ seen ↔ d ∈ out) →
  res = (out ++ filter (fun x => x ∉ out)
                  (first_seen (domains_of urlparse_hostname lines)))%list.
Proof.
  induction lines as [|line rest IH]; intros out seen res; simpl.
  { intros [= <-] _. by rewrite app_nil_r. }
  unfold domains_of. simpl. fold (domains_of urlparse_hostname rest).
  destruct (_extract_domain urlparse_hostname line) as [[d|]|] eqn:Hline;
    simpl; [| |done].
  - destruct (Py.is_empty d) eqn:Hne; simpl; [by apply IH|].
    destruct (bool_decide (d ∉ seen)) eqn:Hnew.
    + apply bool_decide_eq_true in Hnew. intros Hres Hseen.
      assert (Hout : d ∉ out) by (by rewrite <- Hseen).
      rewrite (IH _ _ _ Hres).
      * rewrite filter_cons_True by done. rewrite <- app_assoc. simpl.
        do 2 f_equal. rewrite list_filter_filter.
        apply list_filter_iff. intros x.
        rewrite elem_of_app, list_elem_of_singleton. tauto.
      * intros d0. rewrite elem_of_union, elem_of_singleton, elem_of_app,
          list_elem_of_singleton, Hseen. tauto.
    + apply bool_decide_eq_false in Hnew. intros Hres Hseen.
      assert (Hout : d ∈ out).
      { apply Hseen. by destruct (decide (d ∈ seen)). }
      rewrite (IH _ _ _ Hres Hseen).
      rewrite filter_cons_False by (intros Hn; by apply Hn).
      f_equal. rewrite list_filter_filter. apply list_filter_iff.
      intros x. split; [|tauto]. intros Hx. split; [done|]. by intros ->.
  - by apply IH.
Qed.

Lemma load_sites_order text domains :
  load_sites urlparse_hostname (Some text) = Ok domains →
  domains = first_seen (domains_of urlparse_hostname (Py.splitlines text)).
Proof.
  simpl. intros Hres.
  rewrite (load_lines_order _ _ _ _ Hres).
  - simpl. apply filter_all. intros x _. apply not_elem_of_nil.
  - intros d. by rewrite elem_of_empty, elem_of_nil.
Qed.

(** X1. [load_sites], where it returns, returns the domains of the lines in
    the order of their first occurrence, each once: the loop with [seen]
    and [out] computes [first_seen]. *)
Theorem load_sites_first_seen text domains :
  load_sites urlparse_hostname (Some text) = Ok domains →
  domains = first_seen (domains_of urlparse_hostname (Py.splitlines text)).
Proof. apply load_sites_order. Qed.

(** X2. [load_sites], where it returns, returns a list without duplicates
    that holds exactly the domains that [_extract_domain] finds in the
    lines of the file, and every one of them matches [DOMAIN_RE]. *)
Theorem load_sites_sound_complete text domains :
  load_sites urlparse_hostname (Some text) = Ok domains →
  NoDup domains
  ∧ (∀ d, d ∈ domains ↔
       ∃ line, line ∈ Py.splitlines text
               ∧ _extract_domain urlparse_hostname line = Ok (Some d))
  ∧ (∀ d, d ∈ domains → DOMAIN_RE_match d = true).
Proof.
  intros Hres. pose proof (load_sites_order _ _ Hres) as ->.
  split_and!.
  - apply first_seen_NoDup.
  - intros d. rewrite first_seen_elem, domains_of_elem. split.
    + by intros [_ ?].
    + intros (line & Hl & He). split; [|by exists line].
      destruct (extract_domain_some _ _ _ He) as [Hm _].
      destruct (domain_fullmatch_chars _ Hm) as [_ Hne].
      destruct d; [|done]. by vm_compute in Hm.
  - intros d (_ & line & _ & He)%first_seen_elem%domains_of_elem.
    by destruct (extract_domain_some _ _ _ He).
Qed.

End LoaderOrder.

Lemma load_sites_first_seen_witness :
  ["b.org"; "a.com"]
  = first_seen (domains_of Lib.py_urlparse_hostname
                  (Py.splitlines ("b.org" ++ Py.str Py.LF ++ "a.com"
                                  ++ Py.str Py.LF ++ "B.org"))).
Proof.
  apply (load_sites_first_seen Lib.py_urlparse_hostname).
  vm_compute. reflexivity.
Defined.

Lemma load_sites_sound_complete_witness :
  NoDup ["b.org"; "a.com"]
  ∧ ∀ d, d ∈ ["b.org"; "a.com"] → DOMAIN_RE_match d = true.
Proof.
  destruct (load_sites_sound_complete Lib.py_urlparse_hostname
              ("b.org" ++ Py.str Py.LF ++ "a.com" ++ Py.str Py.LF ++ "B.org")
              ["b.org"; "a.com"]) as (H1 & _ & H3).
  - vm_compute. reflexivity.
  - split; [exact H1|exact H3].
Defined.

(** ** The loader: when it raises, and what rank stripping does *)

Lemma contains_false_all c s :
  Py.contains c s = false ↔
  Py.all_chars (fun x => negb (Ascii.eqb c x)) s = true.
Proof.
  induction s as [|x s IH]; simpl; [done|].
  rewrite orb_false_iff, andb_true_iff, negb_true_iff, IH. tauto.
Qed.

Lemma splitlines_chars p s l :
  l ∈ Py.splitlines s → Py.all_chars p s = true → Py.all_chars p l = true.
Proof.
  assert (H : ∀ n s, (String.length s < n)%nat → ∀ l, l ∈ Py.splitlines s →
      Py.all_chars p s = true → Py.all_chars p l = true).
  { clear. induction n as [|n IH]; intros s Hn l; [lia|].
    destruct s as [|c s]; simpl in *; [by intros ?%elem_of_nil|].
    intros Hl [Hc Hs]%andb_true_iff. revert Hl.
    destruct (Py.is_linebreak c).
    - intros [->|Hl]%elem_of_cons; [done|].
      destruct s as [|c' s']; [by apply elem_of_nil in Hl|].
      simpl in Hs. apply andb_true_iff in Hs as [Hc' Hs'].
      destruct (Ascii.eqb c Py.CR && Ascii.eqb c' Py.LF).
      + apply (IH s'); [simpl in *; lia|done|done].
      + apply (IH (String c' s')); [simpl in *; lia|done|].
        simpl. by rewrite Hc', Hs'.
    - assert (Hrec : ∀ l', l' ∈ Py.splitlines s → Py.all_chars p l' = true).
      { intros l' Hl'. apply (IH s); [lia|done|done]. }
      destruct (Py.splitlines s) as [|l0 ls].
      + intros ->%list_elem_of_singleton. simpl. by rewrite Hc.
      + intros [->|Hl]%elem_of_cons.
        * simpl. rewrite Hc. simpl. apply Hrec. left.
        * apply Hrec. by right. }
  apply (H (S (String.length s))). lia.
Qed.

Lemma lstrip_by_head p s c r : Py.lstrip_by p s = String c r → p c = false.
Proof.
  induction s as [|x s IH]; simpl; [done|].
  destruct (p x) eqn:Hx; [done|]. by intros [= <- _].
Qed.

Lemma rstrip_by_head p s c r :
  Py.rstrip_by p s = String c r → ∃ r', s = String c r'.
Proof.
  destruct s as [|x s]; simpl; [done|].
  destruct (Py.is_empty (Py.rstrip_by p s) && p x); [done|].
  intros [= <- _]. by eexists.
Qed.

(** A stripped text does not start with a stripped character. *)
Lemma strip_by_head p s c r : Py.strip_by p s = String c r → p c = false.
Proof.
  unfold Py.strip_by. intros [r' Hl]%rstrip_by_head.
  by apply lstrip_by_head in Hl.
Qed.

Lemma split_head c r : Py.is_space c = false → Py.split (String c r) ≠ [].
Proof.
  intros Hc. simpl. rewrite Hc. destruct r as [|c' r]; [done|].
  destruct (Py.is_space c'); [done|]. by destruct (Py.split (String c' r)).
Qed.

Lemma split_on_nonempty sep s : Py.split_on sep s ≠ [].
Proof.
  destruct s as [|c s]; simpl; [done|].
  destruct (Ascii.eqb c sep); [done|]. by destruct (Py.split_on sep s).
Qed.

Lemma last_item_nonempty {A} (xs : list A) :
  xs ≠ [] → ∃ x, Py.last_item xs = Ok x.
Proof.
  unfold Py.last_item. intros Hne.
  destruct (last xs) as [x|] eqn:Hl; [by exists x|].
  by apply last_None in Hl.
Qed.

Section LoaderRaises.

Context (urlparse_hostname : string → Hostname).

(** Without quote characters in the line, [s.split()[-1]] is reached only
    with a text that has a character other than white space. *)
Lemma extract_domain_no_quote raw :
  Py.contains Py.dquote raw = false → Py.contains Py.squote raw = false →
  ∃ r, _extract_domain urlparse_hostname raw = Ok r.
Proof.
  intros Hd Hs. unfold _extract_domain.
  destruct (Py.is_empty raw); [by eexists|].
  assert (Hstrip : Py.strip_char Py.squote (Py.strip_char Py.dquote (Py.strip raw))
                   = Py.strip raw).
  { assert (Hq : ∀ q, Py.contains q raw = false →
        Py.all_chars (fun x => negb (Ascii.eqb q x)) (Py.strip raw) = true).
    { intros q Hq%contains_false_all. unfold Py.strip, Py.strip_by.
      assert (Hl : Py.all_chars (fun x => negb (Ascii.eqb q x))
                     (Py.lstrip_by Py.is_space raw) = true).
      { clear -Hq. induction raw as [|c s IH]; simpl in *; [done|].
        apply andb_true_iff in Hq as [Hc Hq].
        destruct (Py.is_space c); [by apply IH|]. simpl. by rewrite Hc, Hq. }
      revert Hl. generalize (Py.lstrip_by Py.is_space raw). clear.
      induction s as [|c s IH]; simpl; [done|].
      intros [Hc Hs]%andb_true_iff.
      destruct (Py.is_empty (Py.rstrip_by Py.is_space s) && Py.is_space c);
        [done|]. simpl. by rewrite Hc, IH. }
    unfold Py.strip_char, Py.strip_by.
    rewrite (lstrip_by_id _ _ (Hq _ Hd)), (rstrip_by_id _ _ (Hq _ Hd)).
    by rewrite (lstrip_by_id _ _ (Hq _ Hs)), (rstrip_by_id _ _ (Hq _ Hs)). }
  rewrite Hstrip. set (s := Py.strip raw).
  destruct (Py.is_empty s); [by eexists|].
  destruct (_ || _).
  { destruct (urlparse_hostname s); by eexists. }
  assert (Hs1 : ∃ s1, (if Py.contains "," s
                       then t <- Py.last_item (Py.split_on "," s) ;; Ok (Py.strip t)
                       else Ok s) = Ok s1
                      ∧ ∀ c r, s1 = String c r → Py.is_space c = false).
  { destruct (Py.contains "," s).
    - destruct (last_item_nonempty _ (split_on_nonempty "," s)) as [t Ht].
      rewrite Ht. simpl. exists (Py.strip t). split; [done|].
      intros c r. apply strip_by_head.
    - exists s. split; [done|]. intros c r. apply strip_by_head. }
  destruct Hs1 as (s1 & -> & Hhead). simpl.
  destruct (Py.contains " " s1 || Py.contains Py.TAB s1) eqn:Hsp.
  - destruct s1 as [|c r]; [done|].
    destruct (last_item_nonempty _ (split_head c r (Hhead _ _ eq_refl))) as [t Ht].
    rewrite Ht. simpl. by eexists.
  - simpl. by eexists.
Qed.

Lemma load_lines_total lines : ∀ out seen,
  (∀ line, line ∈ lines → ∃ r, _extract_domain urlparse_hostname line = Ok r) →
  ∃ res, load_lines urlparse_hostname lines out seen = Ok res.
Proof.
  induction lines as [|line rest IH]; intros out seen Hall; simpl;
    [by eexists|].
  destruct (Hall line) as [r ->]; [left|]. simpl.
  assert (Hrest : ∀ l, l ∈ rest →
            ∃ r, _extract_domain urlparse_hostname l = Ok r).
  { intros l Hl. apply Hall. by right. }
  destruct r as [d|]; [|by apply IH].
  destruct (negb (Py.is_empty d) && bool_decide (d ∉ seen)); by apply IH.
Qed.

(** X3. [load_sites] raises nothing on a site list that it can read and
    whose text holds no single or double quote: it returns a list. *)
Theorem load_sites_raises_only_on_quotes text :
  Py.contains Py.dquote text = false →
  Py.contains Py.squote text = false →
  ∃ domains, load_sites urlparse_hostname (Some text) = Ok domains.
Proof.
  intros Hd Hs. simpl. apply load_lines_total.
  intros line Hl. apply extract_domain_no_quote.
  - apply contains_false_all, (splitlines_chars _ _ _ Hl).
    by apply contains_false_all.
  - apply contains_false_all, (splitlines_chars _ _ _ Hl).
    by apply contains_false_all.
Qed.

End LoaderRaises.

Lemma load_sites_raises_only_on_quotes_witness :
  ∃ domains,
    load_sites Lib.py_urlparse_hostname
      (Some ("rank,domain" ++ Py.str Py.LF ++ "1,a.com" ++ Py.str Py.LF
             ++ "   " ++ Py.str Py.LF ++ "https://B.org/x, y"))
    = Ok domains.
Proof.
  apply (load_sites_raises_only_on_quotes Lib.py_urlparse_hostname);
    reflexivity.
Defined.

Lemma digit_plain c : Py.is_digit c = true → plain_char c = true.
Proof. each_char c. Qed.

Lemma digit_not_h c : Py.is_digit c = true → Ascii.eqb "h" c = false.
Proof. each_char c. Qed.

Lemma rank_sep_plain c :
  rank_sep c = true → plain_char c = true ∧ Py.is_digit c = false.
Proof. each_char c. Qed.

Lemma plain_char_spec c :
  plain_char c = true →
  negb (Py.is_space c) = true
  ∧ negb (Ascii.eqb Py.dquote c) = true ∧ negb (Ascii.eqb Py.squote c) = true
  ∧ negb (Ascii.eqb "," c) = true ∧ negb (Ascii.eqb " " c) = true
  ∧ negb (Ascii.eqb Py.TAB c) = true.
Proof.
  destruct c as [[] [] [] [] [] [] [] []]; vm_compute;
    first [discriminate|intros _; repeat split].
Qed.

Lemma alpha_facts c :
  Py.is_alpha c = true →
  negb (Ascii.eqb "/" c) = true ∧ Py.is_alpha (Py.lower_char c) = true
  ∧ negb (Py.is_linebreak c) = true ∧ Ascii.eqb c "." = false.
Proof.
  destruct c as [[] [] [] [] [] [] [] []]; vm_compute;
    first [discriminate|intros _; repeat split].
Qed.

Lemma startswith_head a pre b s :
  Ascii.eqb a b = false → Py.startswith (String a pre) (String b s) = false.
Proof. intros H. simpl. by rewrite H. Qed.

Lemma drop_digits_app n c rest :
  Py.all_chars Py.is_digit n = true → Py.is_digit c = false →
  drop_digits (n ++ String c rest) = String c rest.
Proof.
  intros Hn Hc. induction n as [|d n IH].
  - rewrite append_empty_l. simpl. by rewrite Hc.
  - simpl in Hn. apply andb_true_iff in Hn as [Hd Hn].
    rewrite append_cons. simpl. rewrite Hd. by apply IH.
Qed.

Lemma rsplit_char_none ch s :
  Py.all_chars (fun c => negb (Ascii.eqb c ch)) s = true →
  Py.rsplit_char ch s = None.
Proof.
  induction s as [|c s IH]; simpl; [done|].
  intros [Hc Hs]%andb_true_iff. rewrite (IH Hs).
  apply negb_true_iff in Hc. by rewrite Hc.
Qed.

Section RankStripping.

Context (urlparse_hostname : string → Hostname).

(** X4. The removal of a leading rank applies to bare host names too. A line
    that is a run of digits, one of [.], [-], [:], and a rest, with no white
    space, quote or comma, yields what the rest alone matches: the numeric
    first label is lost; and when the rest is letters only, as in a host
    of a numeric label and a top-level domain, the line is dropped. *)
Theorem rank_strip_eats_numeric_label n c rest :
  n ≠ EmptyString → Py.all_chars Py.is_digit n = true →
  rank_sep c = true → Py.all_chars plain_char rest = true →
  _extract_domain urlparse_hostname (n ++ String c rest)
  = Ok (let s := Py.lower (Py.strip_char "/" rest) in
        if DOMAIN_RE_match s then Some s else None)
  ∧ (Py.all_chars Py.is_alpha rest = true →
     _extract_domain urlparse_hostname (n ++ String c rest) = Ok None).
Proof.
  intros Hne Hn Hc Hrest.
  destruct (rank_sep_plain c Hc) as [Hcp Hcd].
  destruct n as [|d n']; [done|]. clear Hne.
  pose proof Hn as Hn0. simpl in Hn0. apply andb_true_iff in Hn0 as [Hd Hn'].
  set (raw := String d n' ++ String c rest).
  assert (Hplain : Py.all_chars plain_char raw = true).
  { unfold raw. rewrite all_chars_app. simpl (Py.all_chars _ (String c rest)).
    rewrite Hcp, Hrest. by rewrite (all_chars_impl _ _ _ digit_plain Hn). }
  assert (Hall : ∀ q, (∀ x, plain_char x = true → q x = true) →
                      Py.all_chars q raw = true).
  { intros q Hq. by apply (all_chars_impl plain_char). }
  assert (Hemp : Py.is_empty raw = false) by done.
  assert (Hs0 : Py.strip raw = raw).
  { apply strip_id, Hall. intros x Hx. by destruct (plain_char_spec x Hx). }
  assert (Hs1 : Py.strip_char Py.dquote raw = raw).
  { unfold Py.strip_char, Py.strip_by.
    assert (Hq : Py.all_chars (fun x => negb (Ascii.eqb Py.dquote x)) raw = true).
    { apply Hall. intros x Hx. by destruct (plain_char_spec x Hx) as (_ & ? & _). }
    by rewrite (lstrip_by_id _ _ Hq), (rstrip_by_id _ _ Hq). }
  assert (Hs2 : Py.strip_char Py.squote raw = raw).
  { unfold Py.strip_char, Py.strip_by.
    assert (Hq : Py.all_chars (fun x => negb (Ascii.eqb Py.squote x)) raw = true).
    { apply Hall. intros x Hx.
      by destruct (plain_char_spec x Hx) as (_ & _ & ? & _). }
    by rewrite (lstrip_by_id _ _ Hq), (rstrip_by_id _ _ Hq). }
  assert (Hcomma : Py.contains "," raw = false).
  { apply contains_false_all, Hall. intros x Hx.
    by destruct (plain_char_spec x Hx) as (_ & _ & _ & ? & _). }
  assert (Hspace : Py.contains " " raw = false).
  { apply contains_false_all, Hall. intros x Hx.
    by destruct (plain_char_spec x Hx) as (_ & _ & _ & _ & ? & _). }
  assert (Htab : Py.contains Py.TAB raw = false).
  { apply contains_false_all, Hall. intros x Hx.
    by destruct (plain_char_spec x Hx) as (_ & _ & _ & _ & _ & ?). }
  assert (Hurl : Py.startswith "http://" raw || Py.startswith "https://" raw
                 = false).
  { unfold raw. rewrite append_cons.
    by rewrite !startswith_head by (by apply digit_not_h). }
  assert (Hsub : re_sub_rank raw = rest).
  { unfold re_sub_rank, raw. rewrite append_cons. simpl. rewrite Hd.
    rewrite (drop_digits_app _ _ _ Hn' Hcd). by rewrite Hc. }
  clearbody raw.
  assert (Hmain : _extract_domain urlparse_hostname raw
                  = Ok (let s := Py.lower (Py.strip_char "/" rest) in
                        if DOMAIN_RE_match s then Some s else None)).
  { unfold _extract_domain.
    rewrite Hs0, Hs1, Hs2, Hemp, Hurl, Hcomma. simpl.
    rewrite Hspace, Htab. simpl. by rewrite Hsub. }
  split; [exact Hmain|].
  intros Halpha. rewrite Hmain. simpl.
  assert (Hslash : Py.strip_char "/" rest = rest).
  { unfold Py.strip_char, Py.strip_by.
    assert (Hq : Py.all_chars (fun x => negb (Ascii.eqb "/" x)) rest = true).
    { apply (all_chars_impl Py.is_alpha); [|done].
      intros x Hx. by destruct (alpha_facts x Hx). }
    by rewrite (lstrip_by_id _ _ Hq), (rstrip_by_id _ _ Hq). }
  rewrite Hslash.
  assert (Hlow : Py.all_chars Py.is_alpha (Py.lower rest) = true).
  { clear -Halpha. induction rest as [|x r IH]; simpl in *; [done|].
    apply andb_true_iff in Halpha as [Hx Hr].
    destruct (alpha_facts x Hx) as (_ & -> & _). simpl. by apply IH. }
  unfold DOMAIN_RE_match. rewrite chomp_id.
  - unfold domain_fullmatch. rewrite rsplit_char_none; [done|].
    apply (all_chars_impl Py.is_alpha); [|done].
    intros x Hx. destruct (alpha_facts x Hx) as (_ & _ & _ & ->). done.
  - apply (all_chars_impl Py.is_alpha); [|done].
    intros x Hx. by destruct (alpha_facts x Hx) as (_ & _ & ? & _).
Qed.

End RankStripping.

Lemma rank_strip_eats_numeric_label_witness :
  _extract_domain Lib.py_urlparse_hostname "163.com" = Ok None
  ∧ _extract_domain Lib.py_urlparse_hostname "360.example.org"
    = Ok (Some "example.org").
Proof.
  split.
  - apply (rank_strip_eats_numeric_label Lib.py_urlparse_hostname "163" "." "com");
      [discriminate|reflexivity|reflexivity|reflexivity|reflexivity].
  - apply (proj1 (rank_strip_eats_numeric_label Lib.py_urlparse_hostname
                    "360" "." "example.org" ltac:(discriminate)
                    eq_refl eq_refl eq_refl)).
Defined.

(** ** What a pass of the correlator keeps *)

Lemma replace_name_entries old new d : (replace_name old new d).*2 = d.*2.
Proof.
  induction d as [|[m e] d IH]; simpl; [done|].
  destruct (String.eqb m old); simpl; [done|]. f_equal. exact IH.
Qed.

Lemma entry_of_elem d n e : NoDup (names d) → (n, e) ∈ d → entry n d = Some e.
Proof.
  unfold names. induction d as [|[m x] d IH]; simpl; [by intros _ ?%elem_of_nil|].
  intros Hnd Hin. apply NoDup_cons in Hnd as [Hm Hnd].
  apply elem_of_cons in Hin as [Heq|Hin].
  - injection Heq as -> ->. by rewrite String.eqb_refl.
  - destruct (String.eqb_spec m n) as [->|_]; [|by apply IH].
    exfalso. apply Hm. apply list_elem_of_fmap. by exists (n, e).
Qed.

Lemma rsplit_json x : Py.rsplit_char "." (x ++ ".json") = Some (x, "json").
Proof.
  induction x as [|c x IH]; [done|].
  rewrite append_cons. simpl. by rewrite IH.
Qed.

(** X5. The suffix of a collision goes before the extension [.json] whatever
    dots the stamp and the label hold: the candidate [i] of the name
    [css_dump_<stamp>_<label>.json] is [css_dump_<stamp>_<label>_<i>.json]. *)
Theorem candidate_before_extension stamp label i :
  candidate (canonical_name stamp label) i
  = "css_dump_" ++ stamp ++ "_" ++ label ++ "_" ++ Py.decimal i ++ ".json".
Proof.
  unfold candidate, path_stem, path_suffix, canonical_name.
  replace ("css_dump_" ++ stamp ++ "_" ++ label ++ ".json")
    with (("css_dump_" ++ stamp ++ "_" ++ label) ++ ".json")
    by (by rewrite !append_assoc).
  rewrite rsplit_json. simpl. by rewrite !append_assoc.
Qed.

Section PassInvariants.

Context (urlparse_hostname : string → Hostname).
Context (json_loads : string → option Json).

(** What a rename of the loop is: the file exists and is not locked, the
    new name is not that of any entry, and only the name changes. *)
Lemma rename_one_result now d f t d1 :
  rename_one urlparse_hostname json_loads now d f = Ok (Some (t, d1)) →
  d1 = replace_name f t d ∧ (t ∉ names d)
  ∧ ∃ e, entry f d = Some e ∧ locked e = false.
Proof.
  unfold rename_one.
  destruct (new_name _ _ now d f) as [[name|]|]; simpl; [|done..].
  destruct (_uniquify d name) as [t'|]; [|done].
  destruct (String.eqb t' f); [done|]. unfold rename.
  destruct (entry f d) as [e|]; [|done].
  destruct (locked e) eqn:Hl; [done|]. simpl.
  destruct (path_exists d t') eqn:Hp; [done|].
  intros [= <- <-]. split_and!; [done|by apply path_exists_false|by exists e].
Qed.

(** An invariant of the directory that every rename of the loop keeps
    holds of the directory that the loop leaves, also when it raises. *)
Lemma rename_loop_invariant (P : Dir → Prop) now files : ∀ d r d' res,
  (∀ d0 f t, P d0 → t ∉ names d0 →
     (∃ e, entry f d0 = Some e ∧ locked e = false) →
     P (replace_name f t d0)) →
  P d →
  rename_loop urlparse_hostname json_loads now files d r = (d', res) →
  P d'.
Proof.
  induction files as [|f rest IH]; intros d r d' res Hstep HP; simpl.
  { by intros [= <- _]. }
  destruct (rename_one _ _ now d f) as [[[t d1]|]|] eqn:Hone.
  - destruct (rename_one_result _ _ _ _ _ Hone) as (-> & Hfree & He).
    apply IH; [done|]. by apply Hstep.
  - by apply IH.
  - by intros [= <- _].
Qed.

(** X6. A pass only renames: it leaves the entries (kind, modification time,
    text) as they were and in the same order, it neither adds nor removes
    an entry, and it keeps the names pairwise distinct; all this also when
    the pass raises. *)
Theorem pass_only_renames now d since d' res :
  postprocess_rename urlparse_hostname json_loads now d since = (d', res) →
  d'.*2 = d.*2
  ∧ length d' = length d
  ∧ (NoDup (names d) → NoDup (names d')).
Proof.
  unfold postprocess_rename. intros Hloop. split_and!.
  - apply (rename_loop_invariant (fun x => x.*2 = d.*2) _ _ _ _ _ _
             ltac:(intros d0 f t H0 _ _; cbv beta in *; by rewrite replace_name_entries)
             eq_refl Hloop).
  - apply (rename_loop_invariant (fun x => length x = length d) _ _ _ _ _ _
             ltac:(intros d0 f t H0 _ _; cbv beta in *; by rewrite length_replace)
             eq_refl Hloop).
  - intros Hnd.
    apply (rename_loop_invariant (fun x => NoDup (names x)) _ _ _ _ _ _
             ltac:(intros d0 f t H0 Hfree _; cbv beta in *; by apply NoDup_replace)
             Hnd Hloop).
Qed.

(** What a pass does not look at, it leaves as it is. *)
Lemma pass_keeps_skipped now d since d' res n e :
  postprocess_rename urlparse_hostname json_loads now d since = (d', res) →
  NoDup (names d) → entry n d = Some e →
  is_file e = false
  ∨ (∃ bound, since = Some bound ∧ (st_mtime e < bound)%Q)
  ∨ locked e = true →
  entry n d' = Some e.
Proof.
  unfold postprocess_rename. intros Hloop Hnd He Hout.
  assert (Hskip : n ∉ listed_files d since ∨ locked e = true).
  { destruct Hout as [Hf|[(bound & -> & Hlt)|Hl]]; [left|left|by right].
    - unfold listed_files.
      intros ([n' e'] & -> & Hin)%list_elem_of_fmap. simpl in He.
      assert ((n', e') ∈ filter (fun ne => is_file ne.2) d ∧ is_file e' = true)
        as [Hin' Hfe].
      { destruct since.
        - apply list_elem_of_filter in Hin as [_ Hin]. split; [done|].
          apply list_elem_of_filter in Hin as [Hf' _]. by apply Is_true_eq_true.
        - split; [done|].
          apply list_elem_of_filter in Hin as [Hf' _]. by apply Is_true_eq_true. }
      apply list_elem_of_filter in Hin' as [_ Hd].
      rewrite (entry_of_elem _ _ _ Hnd Hd) in He. injection He as ->. congruence.
    - unfold listed_files.
      intros ([n' e'] & -> & [Hb [_ Hd]%list_elem_of_filter]%list_elem_of_filter)
               %list_elem_of_fmap.
      simpl in *. rewrite (entry_of_elem _ _ _ Hnd Hd) in He. injection He as ->.
      apply Is_true_eq_true, Qle_bool_iff in Hb.
      by apply Qlt_not_le in Hlt. }
  clear Hout Hnd. revert Hloop He Hskip.
  generalize (listed_files d since) as files. generalize 0%Z as r.
  intros r files. revert d r.
  induction files as [|f rest IH]; intros d r; simpl.
  { intros [= <- _] He _. exact He. }
  intros Hloop He Hskip.
  assert (Hrest : n ∉ rest ∨ locked e = true).
  { destruct Hskip as [Hn|?]; [left|by right].
    by apply not_elem_of_cons in Hn as [_ ?]. }
  destruct (rename_one _ _ now d f) as [[[t d1]|]|] eqn:Hone.
  - destruct (rename_one_result _ _ _ _ _ Hone) as (-> & Hfree & e' & He' & Hl').
    apply (IH _ _ Hloop); [|done].
    rewrite entry_replace_other; [done| |].
    + intros ->. rewrite He in He'. injection He' as ->.
      destruct Hskip as [Hn|Hl]; [|congruence]. apply Hn. left.
    + intros ->. apply Hfree. by eapply entry_names.
  - by apply (IH _ _ Hloop).
  - by injection Hloop as <- _.
Qed.

(** X7. A pass leaves alone every entry that is not a regular file, every
    file modified before the bound of a scoped pass, and every locked
    file: each keeps its name. *)
Theorem pass_leaves_out_of_scope now d since d' res n e :
  postprocess_rename urlparse_hostname json_loads now d since = (d', res) →
  NoDup (names d) → entry n d = Some e →
  is_file e = false
  ∨ (∃ bound, since = Some bound ∧ (st_mtime e < bound)%Q)
  ∨ locked e = true →
  entry n d' = Some e.
Proof. apply pass_keeps_skipped. Qed.

End PassInvariants.

Lemma pass_leaves_out_of_scope_witness :
  entry "old"
    (postprocess_rename Lib.py_urlparse_hostname Lib.py_json_loads 0
       [("old", Sample.artifact 5); ("new", Sample.artifact 99)]
       (Some 50%Q)).1
  = Some (Sample.artifact 5).
Proof.
  eapply (pass_leaves_out_of_scope Lib.py_urlparse_hostname Lib.py_json_loads 0
            [("old", Sample.artifact 5); ("new", Sample.artifact 99)]
            (Some 50%Q) _ _ "old" (Sample.artifact 5)).
  - apply surjective_pairing.
  - apply (bool_decide_unpack _). vm_compute. exact I.
  - reflexivity.
  - right. left. exists 50%Q. split; reflexivity.
Defined.

Lemma pass_only_renames_witness :
  (postprocess_rename Lib.py_urlparse_hostname Lib.py_json_loads 0
     [("junk", mkEntry true 5 "[]" false); ("download", Sample.artifact 5)]
     None).1.*2
  = [mkEntry true 5 "[]" false; Sample.artifact 5].
Proof.
  exact (proj1 (pass_only_renames Lib.py_urlparse_hostname Lib.py_json_loads 0
                  [("junk", mkEntry true 5 "[]" false);
                   ("download", Sample.artifact 5)] None _ _
                  (surjective_pairing _))).
Defined.

(** ** The count that a pass returns *)

Lemma listed_files_sublist d since : listed_files d since `sublist_of` names d.
Proof.
  unfold listed_files, names. apply fmap_sublist.
  destruct since as [bound|].
  - etrans; apply sublist_filter.
  - apply sublist_filter.
Qed.

Lemma changed_same l : changed l l = 0%nat.
Proof. induction l as [|x l IH]; simpl; [done|]. by rewrite String.eqb_refl. Qed.

Lemma names_replace_lookup f t d : ∀ j x,
  names (replace_name f t d) !! j = Some x →
  x = t ∨ names d !! j = Some x.
Proof.
  unfold names. induction d as [|[m e] d IH]; intros j x; simpl; [by right|].
  destruct (String.eqb m f); simpl.
  - destruct j as [|j]; simpl; [intros [= <-]; by left|by right].
  - destruct j as [|j]; simpl; [by right|apply IH].
Qed.

(** Renaming a file whose position still bears its first name changes
    one more position. *)
Lemma names_cons m (e : Entry) d : names ((m, e) :: d) = m :: names d.
Proof. reflexivity. Qed.

Lemma changed_replace f t : ∀ d l0,
  NoDup (names d) → f ∈ names d → t ≠ f →
  (∀ i, names d !! i = Some f → l0 !! i = Some f) →
  changed l0 (names (replace_name f t d)) = S (changed l0 (names d)).
Proof.
  induction d as [|[m e] d IH]; intros l0 Hnd Hin Hne Hpos.
  { by apply elem_of_nil in Hin. }
  rewrite names_cons in Hnd, Hin, Hpos. apply NoDup_cons in Hnd as [Hm Hnd].
  simpl replace_name.
  destruct (String.eqb_spec m f) as [->|Hmf]; rewrite !names_cons.
  - specialize (Hpos 0%nat eq_refl). destruct l0 as [|x l0]; [done|].
    simpl in Hpos. injection Hpos as ->. simpl.
    rewrite String.eqb_refl.
    destruct (String.eqb_spec f t) as [->|_]; [done|]. done.
  - apply elem_of_cons in Hin as [->|Hin]; [done|].
    destruct l0 as [|x l0].
    + apply list_elem_of_lookup_1 in Hin as [i Hi].
      by specialize (Hpos (S i) Hi).
    + simpl. rewrite (IH l0 Hnd Hin Hne); [lia|].
      intros i Hi. apply (Hpos (S i) Hi).
Qed.

Section PassCount.

Context (urlparse_hostname : string → Hostname).
Context (json_loads : string → option Json).

Lemma rename_loop_count now l0 : ∀ files d r d' n,
  NoDup (names d) → NoDup files →
  (∀ f, f ∈ files → f ∈ names d) →
  (∀ f i, f ∈ files → names d !! i = Some f → l0 !! i = Some f) →
  rename_loop urlparse_hostname json_loads now files d r = (d', Ok n) →
  (n + Z.of_nat (changed l0 (names d))
   = r + Z.of_nat (changed l0 (names d')))%Z.
Proof.
  induction files as [|f rest IH]; intros d r d' n Hnd Hfiles Hin Hpos; simpl.
  { intros [= <- <-]. lia. }
  apply NoDup_cons in Hfiles as [Hf Hrest].
  assert (Hin' : ∀ x, x ∈ rest → x ∈ names d) by (intros x ?; apply Hin; by right).
  assert (Hpos' : ∀ x i, x ∈ rest → names d !! i = Some x → l0 !! i = Some x)
    by (intros x i ?; apply Hpos; by right).
  destruct (rename_one _ _ now d f) as [[[t d1]|]|] eqn:Hone; [| |done].
  - destruct (rename_one_result _ _ _ _ _ _ _ Hone) as (-> & Hfree & e & He & _).
    assert (Hfd : f ∈ names d) by (by eapply entry_names).
    assert (Htf : t ≠ f) by (by intros ->).
    intros Hloop.
    apply IH in Hloop.
    + rewrite (changed_replace f t d l0 Hnd Hfd Htf) in Hloop; [lia|].
      intros i. apply Hpos. left.
    + by apply NoDup_replace.
    + done.
    + intros x Hx. apply names_replace_keep; [by apply Hin'|]. by intros ->.
    + intros x i Hx [->|Hi]%names_replace_lookup; [|by apply Hpos'].
      exfalso. by apply Hfree, Hin'.
  - by apply IH.
Qed.

(** X8. The number that a pass returns is the number of entries whose name
    the pass changed. *)
Theorem pass_count_is_changed_names now d since d' n :
  NoDup (names d) →
  postprocess_rename urlparse_hostname json_loads now d since = (d', Ok n) →
  n = Z.of_nat (changed (names d) (names d')).
Proof.
  intros Hnd Hloop. unfold postprocess_rename in Hloop.
  pose proof (listed_files_sublist d since) as Hsub.
  apply (rename_loop_count now (names d)) in Hloop.
  - rewrite changed_same in Hloop. lia.
  - done.
  - by eapply sublist_NoDup.
  - intros f Hf. by eapply elem_of_sublist.
  - by intros f i _ Hi.
Qed.

End PassCount.

Lemma pass_count_is_changed_names_witness :
  2%Z = Z.of_nat
          (changed ["one"; "note"; "two"]
             [Sample.canonical; "note"; Sample.canonical_1]).
Proof.
  apply (pass_count_is_changed_names
           Lib.py_urlparse_hostname Lib.py_json_loads 0
           [("one", Sample.artifact 5); ("note", mkEntry true 5 "hello" false);
            ("two", Sample.artifact 5)] None
           [(Sample.canonical, Sample.artifact 5);
            ("note", mkEntry true 5 "hello" false);
            (Sample.canonical_1, Sample.artifact 5)]).
  - apply (bool_decide_unpack _). vm_compute. exact I.
  - vm_compute. reflexivity.
Defined.

(** ** The batch script and the pass of the driver *)

Lemma DOMAIN_RE_match_nonempty s : DOMAIN_RE_match s = true → Py.is_empty s = false.
Proof. by destruct s. Qed.

Section BatchScript.

Context (urlparse_hostname : string → Hostname).
Context (json_loads : string → option Json).

Lemma new_name_exists now d f name :
  RenameByPageField.new_name urlparse_hostname json_loads now d f
  = Ok (Some name) →
  f ∈ names d.
Proof.
  unfold RenameByPageField.new_name, _try_load_json.
  destruct (entry f d) as [e|] eqn:He; [|done]. intros _.
  by eapply entry_names.
Qed.

(** The branch [if f.resolve() == target.resolve(): continue] of the
    batch script is never taken: [uniquify] returns a name that no entry
    has, and the file is an entry. *)
Lemma batch_never_already_named now d f :
  RenameByPageField.rename_one urlparse_hostname json_loads now d f
  ≠ Ok RenameByPageField.AlreadyNamed.
Proof.
  unfold RenameByPageField.rename_one.
  destruct (RenameByPageField.new_name _ _ now d f) as [[name|]|] eqn:Hn;
    simpl; [|done..].
  destruct (_uniquify d name) as [t|] eqn:Hu; [|done].
  destruct (String.eqb_spec f t) as [->|_].
  - intros _. destruct (_uniquify_spec _ _ _ Hu) as [Hfree _].
    by apply Hfree, (new_name_exists now d t name).
  - by destruct (rename f t d).
Qed.

Lemma batch_loop_accounts now files : ∀ d r s d' r' s',
  RenameByPageField.rename_loop urlparse_hostname json_loads now files d r s
  = (d', Ok (r', s')) →
  (r' + s' = r + s + Z.of_nat (length files))%Z.
Proof.
  induction files as [|f rest IH]; intros d r s d' r' s'; simpl.
  { intros [= <- <- <-]. lia. }
  pose proof (batch_never_already_named now d f) as Hnever.
  destruct (RenameByPageField.rename_one _ _ now d f) as [[| |t d1|]|];
    try done; intros Hloop%IH; lia.
Qed.

(** X9. When the batch script ends, every regular file of the directory has
    been counted once, as renamed or as skipped. *)
Theorem batch_counts_every_file now d d' renamed skipped :
  RenameByPageField.main urlparse_hostname json_loads now d
  = (d', Ok (renamed, skipped)) →
  (renamed + skipped)%Z = Z.of_nat (length (listed_files d None)).
Proof.
  unfold RenameByPageField.main. intros Hloop%batch_loop_accounts. lia.
Qed.

Lemma new_name_agrees now d f x :
  new_name urlparse_hostname json_loads now d f = Ok x →
  RenameByPageField.new_name urlparse_hostname json_loads now d f = Ok x.
Proof.
  unfold new_name, RenameByPageField.new_name.
  destruct (_try_load_json json_loads d f) as [data|]; [|done].
  destruct data; try done.
  destruct (page_identifier (JObj pairs)) as [page_url|]; simpl; [|done].
  destruct (truthy page_url); simpl; [|done].
  unfold page_hostname, RenameByPageField.extract_domain.
  destruct page_url; try done.
  destruct (urlparse_hostname s) as [|h]; simpl; [done|].
  destruct (DOMAIN_RE_match _) eqn:Hm; simpl; [|done].
  by rewrite (DOMAIN_RE_match_nonempty _ Hm).
Qed.

Lemma batch_loop_agrees now files : ∀ d r s d' n,
  rename_loop urlparse_hostname json_loads now files d r = (d', Ok n) →
  ∃ s', RenameByPageField.rename_loop urlparse_hostname json_loads now files d r s
        = (d', Ok (n, s')).
Proof.
  induction files as [|f rest IH]; intros d r s d' n; simpl.
  { intros [= <- <-]. by eexists. }
  unfold rename_one, RenameByPageField.rename_one.
  destruct (new_name _ _ now d f) as [x|] eqn:Hn; simpl; [|done].
  rewrite (new_name_agrees _ _ _ _ Hn). simpl.
  destruct x as [name|]; [|apply IH].
  destruct (_uniquify d name) as [t|]; [|apply IH].
  rewrite (String.eqb_sym f t).
  destruct (String.eqb t f); [apply IH|].
  destruct (rename f t d); apply IH.
Qed.

(** X10. Where an unscoped pass of the driver ends without exception, the
    batch script on the same directory leaves the same directory and
    counts the same number of renames. *)
Theorem batch_agrees_with_pass now d d' n :
  postprocess_rename urlparse_hostname json_loads now d None = (d', Ok n) →
  ∃ skipped,
    RenameByPageField.main urlparse_hostname json_loads now d
    = (d', Ok (n, skipped)).
Proof. apply batch_loop_agrees. Qed.

End BatchScript.

Lemma batch_counts_every_file_witness :
  (2 + 1)%Z
  = Z.of_nat (length (listed_files
                        [("one", Sample.artifact 5);
                         ("note", mkEntry true 5 "hello" false);
                         ("two", Sample.artifact 5)] None)).
Proof.
  apply (batch_counts_every_file Lib.py_urlparse_hostname Lib.py_json_loads 0
           _ [(Sample.canonical, Sample.artifact 5);
              ("note", mkEntry true 5 "hello" false);
              (Sample.canonical_1, Sample.artifact 5)]).
  vm_compute. reflexivity.
Defined.

Lemma batch_agrees_with_pass_witness :
  ∃ skipped,
    RenameByPageField.main Lib.py_urlparse_hostname Lib.py_json_loads 0
      [("one", Sample.artifact 5); ("note", mkEntry true 5 "hello" false)]
    = ([(Sample.canonical, Sample.artifact 5);
        ("note", mkEntry true 5 "hello" false)], Ok (1%Z, skipped)).
Proof.
  apply (batch_agrees_with_pass Lib.py_urlparse_hostname Lib.py_json_loads).
  vm_compute. reflexivity.
Defined.

(** ** What a run of the driver visits and records *)

Lemma first_seen_filter (P : string → Prop) `{∀ x, Decision (P x)} ds :
  first_seen (filter P ds) = filter P (first_seen ds).
Proof.
  induction ds as [|d ds IH]; [done|]. simpl first_seen at 2.
  destruct (decide (P d)) as [Hd|Hd].
  - rewrite !filter_cons_True by done. simpl. f_equal.
    rewrite IH, !list_filter_filter. apply list_filter_iff. intros x. tauto.
  - rewrite !filter_cons_False by done.
    rewrite IH, list_filter_filter. apply list_filter_iff.
    intros x. split; [|by intros [? _]]. intros Hx. split; [done|].
    by intros ->.
Qed.

Lemma first_seen_NoDup_id ds : NoDup ds → first_seen ds = ds.
Proof.
  induction ds as [|d ds IH]; [done|]. intros [Hd Hnd]%NoDup_cons.
  simpl. f_equal. rewrite (IH Hnd). apply filter_all.
  intros x Hx ->. done.
Qed.

Lemma visits_of_app a b : visits_of (a ++ b) = (visits_of a ++ visits_of b)%list.
Proof. apply omap_app. Qed.

Lemma visits_of_navigate domain v : visits_of (navigate domain v).1 = [].
Proof.
  unfold navigate. by destruct (new_page v), (goto_https v), (goto_http v).
Qed.

Section Run.

Context (urlparse_hostname : string → Hostname).
Context (json_loads : string → option Json).

(** What one visit adds: one [Visiting] event, one line of the visited
    log, one element of the visited set, one to the counter. *)
Lemma visit_domain_records cfg v domain st st' :
  visit_domain urlparse_hostname json_loads cfg v domain st = Ok st' →
  visits_of (trace st') = (visits_of (trace st) ++ [domain])%list
  ∧ visited_txt st' = visited_txt st ++ domain ++ Py.str Py.LF
  ∧ visited st' = {[ domain ]} ∪ visited st
  ∧ processed st' = (processed st + 1)%Z.
Proof.
  intros Hv. destruct (visit_domain_inv _ _ _ _ _ _ _ Hv) as [due Hdue].
  rewrite (visit_domain_ok _ _ _ _ _ _ _ Hdue) in Hv. injection Hv as <-.
  simpl. split_and!; try done.
  rewrite !visits_of_app. simpl. rewrite visits_of_navigate.
  by destruct due.
Qed.

(** The loop keeps the trace, the visited log, the visited set and the
    counter in step: for the domains [vs] that it visits, in that order,
    each of them a domain of the list that was not yet visited and none
    of them twice, the log gains one line each, the set gains them, and
    the counter their number. *)
Lemma crawl_records cfg visit_at domains : ∀ idx st st' e,
  crawl urlparse_hostname json_loads cfg visit_at idx domains st = (st', e) →
  ∃ vs, visits_of (trace st') = (visits_of (trace st) ++ vs)%list
    ∧ visited_txt st' = visited_txt st ++ log_text vs
    ∧ visited st' = list_to_set vs ∪ visited st
    ∧ processed st' = (processed st + Z.of_nat (length vs))%Z
    ∧ NoDup vs
    ∧ (∀ x, x ∈ vs → x ∈ domains ∧ x ∉ visited st)
    ∧ (e = None → vs = first_seen (filter (fun x => x ∉ visited st) domains)).
Proof.
  induction domains as [|domain rest IH]; intros idx st st' e; simpl.
  { intros [= <- <-]. exists []. simpl.
    rewrite app_nil_r, union_empty_l_L. split_and!; try done.
    - clear. induction (visited_txt st) as [|c s IH]; [done|].
      by rewrite append_cons, <- IH.
    - lia.
    - apply NoDup_nil_2.
    - by intros x ?%elem_of_nil. }
  destruct (decide (domain ∈ visited st)) as [Hin|Hnot].
  - rewrite bool_decide_eq_true_2 by done.
    intros (vs & Ht & Hl & Hs & Hp & Hnd & Hvs & Hfull)%IH.
    exists vs. split_and!; try done.
    + intros x Hx. destruct (Hvs x Hx). split; [by right|done].
    + intros He. rewrite filter_cons_False by (intros Hn; by apply Hn).
      by apply Hfull.
  - rewrite bool_decide_eq_false_2 by done.
    destruct (visit_domain _ _ cfg (visit_at idx) domain st) as [st1|] eqn:Hv.
    + destruct (visit_domain_records _ _ _ _ _ Hv) as (Ht1 & Hl1 & Hs1 & Hp1).
      intros (vs & Ht & Hl & Hs & Hp & Hnd & Hvs & Hfull)%IH.
      exists (domain :: vs). split_and!.
      * rewrite Ht, Ht1. by rewrite <- app_assoc.
      * rewrite Hl, Hl1. simpl. by rewrite !append_assoc.
      * rewrite Hs, Hs1. rewrite list_to_set_cons.
        rewrite (comm_L (∪) {[domain]} (list_to_set vs)).
        by rewrite (assoc_L (∪)).
      * rewrite Hp, Hp1. simpl length. lia.
      * apply NoDup_cons. split; [|done]. intros Hd.
        destruct (Hvs _ Hd) as [_ Hn]. apply Hn. rewrite Hs1.
        apply elem_of_union. left. by apply elem_of_singleton.
      * intros x [->|Hx]%elem_of_cons; [split; [left|done]|].
        destruct (Hvs x Hx) as [Hr Hn]. split; [by right|].
        intros Hxv. apply Hn. rewrite Hs1. apply elem_of_union. by right.
      * intros He. rewrite (Hfull He).
        rewrite filter_cons_True by done. simpl. f_equal.
        rewrite <- first_seen_filter. f_equal.
        rewrite list_filter_filter. apply list_filter_iff. intros x.
        rewrite Hs1, elem_of_union, elem_of_singleton. tauto.
    + intros [= <- <-]. exists []. simpl.
      rewrite app_nil_r, union_empty_l_L. split_and!; try done.
      * clear. induction (visited_txt st) as [|c s IH]; [done|].
        by rewrite append_cons, <- IH.
      * lia.
      * apply NoDup_nil_2.
      * by intros x ?%elem_of_nil.
Qed.

Lemma crawl_no_exception cfg visit_at domains : ∀ idx st st' e,
  RESTART_EVERY cfg ≠ 0%Z →
  crawl urlparse_hostname json_loads cfg visit_at idx domains st = (st', e) →
  e = None.
Proof.
  induction domains as [|domain rest IH]; intros idx st st' e Hn; simpl.
  { by intros [= _ <-]. }
  destruct (bool_decide (domain ∈ visited st)); [by apply IH|].
  assert (∃ due, restart_due cfg (processed st) = Ok due) as [due Hdue].
  { unfold restart_due. destruct (0 <? processed st)%Z; [|by eexists].
    apply Z.eqb_neq in Hn. rewrite Hn. by eexists. }
  rewrite (visit_domain_ok _ _ _ _ _ _ _ Hdue). by apply IH.
Qed.

Lemma main_visits_work_set cfg w st e :
  RESTART_EVERY cfg ≠ 0%Z →
  main urlparse_hostname json_loads cfg w = Ok (st, e) →
  ∃ sites, sites_file w = Some sites
    ∧ work_set urlparse_hostname sites (visited_file w)
      = Ok (visits_of (trace st)).
Proof.
  intros Hn. unfold main.
  destruct (extension_exists w); simpl; [|done].
  destruct (brave_exists w); simpl; [|done].
  destruct (load_sites urlparse_hostname (sites_file w)) as [domains|] eqn:Hl;
    simpl; [|done].
  destruct (sites_file w) as [sites|] eqn:Hs; [|done].
  destruct (crawl _ _ cfg (visits w) 1 domains (initial_state w))
    as [st1 e1] eqn:Hc.
  pose proof (crawl_no_exception _ _ _ _ _ _ _ Hn Hc) as ->.
  destruct (crawl_records _ _ _ _ _ _ _ Hc) as (vs & Ht & _ & _ & _ & _ & _ & Hfull).
  specialize (Hfull eq_refl). simpl in Ht, Hfull.
  destruct (load_sites_spec _ _ _ Hl) as [Hnd _].
  assert (Hws : work_set urlparse_hostname sites (visited_file w) = Ok vs).
  { unfold work_set. rewrite Hl. simpl. f_equal. rewrite Hfull.
    rewrite first_seen_NoDup_id by (by apply NoDup_filter).
    apply list_filter_iff. intros x.
    split; [apply bool_decide_unpack|apply bool_decide_pack]. }
  assert (Hfinal : visits_of (trace (close_context st1)) = vs).
  { simpl. rewrite visits_of_app, Ht. simpl. by rewrite app_nil_r. }
  intros Hres. exists sites. split; [done|]. rewrite Hws. f_equal.
  destruct (INCREMENTAL_RENAME cfg).
  - injection Hres as <- _. by rewrite Hfinal.
  - destruct (postprocess_rename _ _ _ _ _) as [dd r].
    injection Hres as <- _. simpl. simpl in Hfinal. by rewrite Hfinal.
Qed.

(** X11. A run of [main] with a restart threshold other than zero visits
    exactly the work set: the loaded domains that are not in the visited
    log, in the order of the list, each once. *)
Theorem run_visits_work_set cfg w st e :
  RESTART_EVERY cfg ≠ 0%Z →
  main urlparse_hostname json_loads cfg w = Ok (st, e) →
  ∃ sites, sites_file w = Some sites
    ∧ work_set urlparse_hostname sites (visited_file w)
      = Ok (visits_of (trace st)).
Proof. apply main_visits_work_set. Qed.

(** X12. With [RESTART_EVERY = 0] the test [processed % RESTART_EVERY] raises
    [ZeroDivisionError] as soon as one visit has been processed: of two
    or more domains to visit, the loop visits the first and stops. *)
Theorem zero_threshold_stops_after_first_visit cfg visit_at idx d1 d2 rest st :
  RESTART_EVERY cfg = 0%Z → processed st = 0%Z →
  d1 ∉ visited st → d2 ∉ visited st → d1 ≠ d2 →
  ∃ st', crawl urlparse_hostname json_loads cfg visit_at idx (d1 :: d2 :: rest) st
         = (st', Some ZeroDivisionError)
    ∧ visits_of (trace st') = (visits_of (trace st) ++ [d1])%list
    ∧ processed st' = 1%Z.
Proof.
  intros HN Hp H1 H2 Hne. simpl.
  rewrite bool_decide_eq_false_2 by done.
  assert (Hdue : restart_due cfg (processed st) = Ok false).
  { unfold restart_due. by rewrite Hp. }
  rewrite (visit_domain_ok _ _ _ _ _ _ _ Hdue).
  match goal with |- context [crawl _ _ _ _ _ _ ?s] => set (st1 := s) end.
  rewrite bool_decide_eq_false_2.
  2:{ simpl. rewrite elem_of_union, elem_of_singleton. intros [?|?]; congruence. }
  unfold visit_domain, restart_due. simpl. rewrite Hp, HN. simpl.
  exists st1. split_and!; [done| |by simpl; rewrite Hp].
  simpl. rewrite !visits_of_app. simpl. by rewrite visits_of_navigate.
Qed.

End Run.

(** ** The visited log and the visited set *)

Lemma host_char_not_break c : host_char c = true → Py.is_linebreak c = false.
Proof. each_char c. Qed.

Lemma append_empty_r s : s ++ EmptyString = s.
Proof. induction s as [|c s IH]; [done|]. by rewrite append_cons, IH. Qed.

Lemma chomp_keep s : ends_with Py.LF s = false → chomp s = s.
Proof.
  induction s as [|c s IH]; [done|]. destruct s as [|c' s'].
  - simpl. by intros ->.
  - intros H. change (chomp (String c (String c' s')))
      with (String c (chomp (String c' s'))). by rewrite (IH H).
Qed.

Lemma domain_no_break d :
  DOMAIN_RE_match d = true → ends_with Py.LF d = false →
  Py.all_chars (fun c => negb (Py.is_linebreak c)) d = true.
Proof.
  unfold DOMAIN_RE_match. intros Hm He. rewrite (chomp_keep _ He) in Hm.
  apply domain_fullmatch_chars in Hm as [Hc _].
  eapply all_chars_impl; [|exact Hc].
  intros c Hh. by rewrite (host_char_not_break _ Hh).
Qed.

Lemma splitlines_cons c s :
  Py.splitlines (String c s)
  = if Py.is_linebreak c then
      EmptyString ::
        match s with
        | String c' s'' =>
            if Ascii.eqb c Py.CR && Ascii.eqb c' Py.LF then Py.splitlines s''
            else Py.splitlines s
        | EmptyString => []
        end
    else match Py.splitlines s with
         | l :: ls => String c l :: ls
         | [] => [Py.str c]
         end.
Proof. done. Qed.

Lemma splitlines_nil s : Py.splitlines s = [] → s = EmptyString.
Proof.
  destruct s as [|c s]; [done|]. rewrite splitlines_cons.
  destruct (Py.is_linebreak c); [done|]. by destruct (Py.splitlines s).
Qed.

Lemma splitlines_LF s :
  Py.splitlines (String Py.LF s) = EmptyString :: Py.splitlines s.
Proof. rewrite splitlines_cons. by destruct s. Qed.

Lemma splitlines_line v rest :
  Py.all_chars (fun c => negb (Py.is_linebreak c)) v = true →
  Py.splitlines (v ++ String Py.LF rest) = v :: Py.splitlines rest.
Proof.
  induction v as [|c v IH].
  - intros _. rewrite append_empty_l. apply splitlines_LF.
  - rewrite append_cons, splitlines_cons. simpl Py.all_chars.
    intros [Hc Hv]%andb_true_iff. apply negb_true_iff in Hc.
    by rewrite Hc, (IH Hv).
Qed.

Lemma splitlines_log_text vs :
  Forall (fun v => Py.all_chars (fun c => negb (Py.is_linebreak c)) v = true) vs →
  Py.splitlines (log_text vs) = vs.
Proof.
  induction 1 as [|v vs Hv _ IH]; [done|]. simpl log_text.
  change (Py.str Py.LF ++ log_text vs) with (String Py.LF (log_text vs)).
  by rewrite (splitlines_line _ _ Hv), IH.
Qed.

(** Text appended to a log that ends with a line feed starts a line of
    its own. *)
Lemma splitlines_app a b :
  ends_with Py.LF a = true →
  Py.splitlines (a ++ b) = (Py.splitlines a ++ Py.splitlines b)%list.
Proof.
  induction a as [|c a IH]; [done|]. destruct a as [|c' a'].
  - simpl ends_with. intros ->%Ascii.eqb_eq.
    rewrite append_cons, append_empty_l. by rewrite !splitlines_LF.
  - intros He.
    change (ends_with Py.LF (String c (String c' a')))
      with (ends_with Py.LF (String c' a')) in He.
    specialize (IH He). rewrite !append_cons, !(splitlines_cons c).
    destruct (Py.is_linebreak c).
    + destruct (Ascii.eqb c Py.CR && Ascii.eqb c' Py.LF) eqn:Hcr.
      * apply andb_true_iff in Hcr as [_ ->%Ascii.eqb_eq].
        by rewrite append_cons, !splitlines_LF in IH.
      * rewrite <- app_comm_cons. f_equal. by rewrite <- append_cons.
    + rewrite <- append_cons, IH.
      destruct (Py.splitlines (String c' a')) eqn:Hs; [|done].
      by apply splitlines_nil in Hs.
Qed.

Lemma ends_with_app c a b : ends_with c b = true → ends_with c (a ++ b) = true.
Proof.
  intros H. induction a as [|x a IH]; [done|]. rewrite append_cons.
  simpl. destruct (a ++ b); [done|]. exact IH.
Qed.

Lemma log_text_ends v vs : ends_with Py.LF (log_text (v :: vs)) = true.
Proof.
  revert v. induction vs as [|v' vs IH]; intros v.
  - simpl log_text. by apply ends_with_app.
  - change (log_text (v :: v' :: vs))
      with (v ++ Py.str Py.LF ++ log_text (v' :: vs)).
    do 2 apply ends_with_app. apply IH.
Qed.

Lemma terminated_log_text log vs :
  terminated log = true → terminated (log ++ log_text vs) = true.
Proof.
  intros Ht. destruct vs as [|v vs]; [by rewrite append_empty_r|].
  unfold terminated. rewrite (ends_with_app _ _ _ (log_text_ends v vs)).
  apply orb_true_r.
Qed.

(** What [_read_set] finds after [_append_line] has added domains to a
    log that was empty or ended with a line feed. *)
Lemma read_set_app log vs :
  terminated log = true →
  Forall (fun v => DOMAIN_RE_match v = true ∧ ends_with Py.LF v = false) vs →
  _read_set (log ++ log_text vs) = list_to_set vs ∪ _read_set log.
Proof.
  intros Ht Hvs.
  assert (Hnb : Forall
    (fun v => Py.all_chars (fun c => negb (Py.is_linebreak c)) v = true) vs).
  { eapply Forall_impl; [exact Hvs|]. intros v [? ?]. by apply domain_no_break. }
  assert (Hsp : Py.splitlines (log ++ log_text vs)
                = (Py.splitlines log ++ vs)%list).
  { destruct log as [|c log].
    - by rewrite append_empty_l, splitlines_log_text.
    - rewrite splitlines_app by exact Ht. by rewrite splitlines_log_text. }
  unfold _read_set. rewrite Hsp, fmap_app, filter_app, list_to_set_app_L.
  rewrite (comm_L (∪)). f_equal. f_equal.
  clear -Hvs Hnb. induction Hvs as [|v vs [Hm He] _ IH]; [done|].
  apply Forall_cons in Hnb as [Hv Hnb].
  destruct (DOMAIN_RE_match_strip v Hm Hv) as [Hs Hne].
  rewrite fmap_cons, Hs. rewrite filter_cons_True by (by rewrite Hne).
  f_equal. by apply IH.
Qed.

Lemma elem_of_visits_of d events : d ∈ visits_of events ↔ Visiting d ∈ events.
Proof.
  unfold visits_of. rewrite list_elem_of_omap. split.
  - intros (ev & Hev & Hd). destruct ev; try done. by injection Hd as ->.
  - intros Hev. by exists (Visiting d).
Qed.

Lemma count_events_app p a b :
  count_events p (a ++ b) = count_events p a + count_events p b.
Proof. unfold count_events. by rewrite filter_app, length_app. Qed.

Lemma append_line_grows text line : _append_line text line ≠ text.
Proof.
  unfold _append_line. intros H. apply (f_equal String.length) in H.
  rewrite !length_append in H. simpl in H. lia.
Qed.

Lemma filter_none {A} (P : A → Prop) `{∀ x, Decision (P x)} (l : list A) :
  (∀ x, x ∈ l → ¬ P x) → filter P l = [].
Proof.
  induction l as [|a l IH]; [done|]. intros Hl.
  rewrite filter_cons_False by (apply Hl; left).
  apply IH. intros x Hx. apply Hl. by right.
Qed.

Section Logs.

Context (urlparse_hostname : string → Hostname).
Context (json_loads : string → option Json).

(** What [main] leaves, in terms of its loop. *)
Lemma main_inv cfg w st e :
  main urlparse_hostname json_loads cfg w = Ok (st, e) →
  ∃ domains st1 e1,
    load_sites urlparse_hostname (sites_file w) = Ok domains
    ∧ crawl urlparse_hostname json_loads cfg (visits w) 1 domains (initial_state w)
      = (st1, e1)
    ∧ visited st = visited st1 ∧ visited_txt st = visited_txt st1
    ∧ failed_txt st = failed_txt st1 ∧ processed st = processed st1
    ∧ trace st = (trace st1 ++ [CloseContext])%list.
Proof.
  unfold main.
  destruct (extension_exists w); simpl; [|done].
  destruct (brave_exists w); simpl; [|done].
  destruct (load_sites urlparse_hostname (sites_file w)) as [domains|] eqn:Hl;
    simpl; [|done].
  destruct (crawl _ _ cfg (visits w) 1 domains (initial_state w))
    as [st1 e1] eqn:Hc.
  intros Hres. exists domains, st1, e1. split; [done|]. split; [done|].
  destruct e1 as [x|]; [by injection Hres as <- _|].
  destruct (INCREMENTAL_RENAME cfg); [by injection Hres as <- _|].
  destruct (postprocess_rename _ _ _ _ _) as [dd r]. by injection Hres as <- _.
Qed.

(** X13. When [main] has run on a visited log that was empty or ended with a
    line feed, and no loaded domain ends with a line feed, then the log it
    leaves is again such a log, [_read_set] of it is the visited set of
    the run, every domain the run visited is in it, and if the restart
    threshold is not zero, nothing is left to visit: the work set of the
    same site list against the new log is empty. *)
Theorem visited_log_mirrors_visited_set cfg w st e domains :
  main urlparse_hostname json_loads cfg w = Ok (st, e) →
  load_sites urlparse_hostname (sites_file w) = Ok domains →
  terminated (visited_file w) = true →
  (∀ d, d ∈ domains → ends_with Py.LF d = false) →
  terminated (visited_txt st) = true
  ∧ _read_set (visited_txt st) = visited st
  ∧ (∀ d, Visiting d ∈ trace st → d ∈ _read_set (visited_txt st))
  ∧ (RESTART_EVERY cfg ≠ 0%Z → ∀ sites, sites_file w = Some sites →
       work_set urlparse_hostname sites (visited_txt st) = Ok []).
Proof.
  intros (domains' & st1 & e1 & Hl' & Hc & Hv & Htxt & _ & _ & Htr)%main_inv
    Hl Hterm Hlf.
  rewrite Hl in Hl'. injection Hl' as <-.
  destruct (crawl_records _ _ _ _ _ _ _ _ _ Hc)
    as (vs & Ht & Hlog & Hs & _ & _ & Hvs & Hfull).
  simpl in Ht, Hlog, Hs, Hvs, Hfull.
  assert (Hdom : Forall
    (fun v => DOMAIN_RE_match v = true ∧ ends_with Py.LF v = false) vs).
  { apply Forall_forall. intros v [Hin _]%Hvs. split; [|by apply Hlf].
    by destruct (load_sites_match _ _ _ _ Hl Hin). }
  assert (Hrs : _read_set (visited_txt st) = visited st).
  { rewrite Htxt, Hv, Hlog, Hs. by apply read_set_app. }
  split_and!.
  - rewrite Htxt, Hlog. by apply terminated_log_text.
  - exact Hrs.
  - intros d Hd. rewrite Hrs, Hv, Hs. apply elem_of_union. left.
    apply elem_of_list_to_set. apply elem_of_visits_of in Hd.
    rewrite Htr, visits_of_app, Ht in Hd. simpl in Hd.
    by rewrite app_nil_r in Hd.
  - intros Hn sites Hsites. unfold work_set. rewrite <- Hsites, Hl. simpl.
    f_equal. rewrite Hrs, Hv, Hs.
    pose proof (crawl_no_exception _ _ _ _ _ _ _ _ _ Hn Hc) as He1.
    specialize (Hfull He1).
    apply filter_none. intros d Hd Hp%bool_decide_unpack.
    apply Hp. rewrite elem_of_union, elem_of_list_to_set.
    destruct (decide (d ∈ _read_set (visited_file w))) as [Hin|Hnot];
      [by right|left].
    rewrite Hfull. apply first_seen_elem, list_elem_of_filter. by split.
Qed.

(** X14. At the end of [main] every browser context that was launched has
    been closed, whether the loop ended or raised. *)
Theorem every_launch_is_closed cfg w st e :
  main urlparse_hostname json_loads cfg w = Ok (st, e) →
  count_events is_launch (trace st) = count_events is_close (trace st).
Proof.
  intros (domains & st1 & e1 & _ & Hc & _ & _ & _ & _ & ->)%main_inv.
  rewrite !count_events_app.
  change (count_events is_launch [CloseContext]) with 0.
  change (count_events is_close [CloseContext]) with 1.
  assert (H : ∀ ds idx s s' x,
    crawl urlparse_hostname json_loads cfg (visits w) idx ds s = (s', x) →
    count_events is_launch (trace s') + count_events is_close (trace s)
    = count_events is_launch (trace s) + count_events is_close (trace s')).
  { clear. induction ds as [|d ds IH]; intros idx s s' x; simpl.
    { intros [= <- _]. lia. }
    destruct (bool_decide (d ∈ visited s)); [apply IH|].
    destruct (visit_domain _ _ cfg (visits w idx) d s) as [s1|] eqn:Hv.
    - intros Hc%IH.
      destruct (visit_domain_inv _ _ _ _ _ _ _ Hv) as [due Hdue].
      rewrite (visit_domain_ok _ _ _ _ _ _ _ Hdue) in Hv. injection Hv as <-.
      simpl in Hc. rewrite !count_events_app in Hc.
      assert (count_events is_launch (navigate d (visits w idx)).1 = 0
              ∧ count_events is_close (navigate d (visits w idx)).1 = 0)
        as [Hn1 Hn2].
      { unfold navigate.
        by destruct (new_page (visits w idx)), (goto_https (visits w idx)),
          (goto_http (visits w idx)). }
      change (Visiting d :: (navigate d (visits w idx)).1)
        with ([Visiting d] ++ (navigate d (visits w idx)).1)%list in Hc.
      rewrite !count_events_app, Hn1, Hn2 in Hc.
      assert (Hr : count_events is_launch (if due then [CloseContext; Launch] else [])
                   = count_events is_close (if due then [CloseContext; Launch] else []))
        by by destruct due.
      rewrite Hr in Hc.
      change (count_events is_launch [Visiting d]) with 0 in Hc.
      change (count_events is_close [Visiting d]) with 0 in Hc. lia.
    - intros [= <- _]. lia. }
  specialize (H _ _ _ _ _ Hc). simpl in H.
  change (count_events is_launch [Launch]) with 1 in H.
  change (count_events is_close [Launch]) with 0 in H. lia.
Qed.

(** X15. Whatever happens during a visit, the domain is marked visited, in the
    set and in the log; a line goes to the failure log exactly when no
    page could be opened or both navigation attempts failed; and when
    the page cannot be opened, no navigation is attempted and the line
    bears the text of that error, or [not_loaded] when it is empty. *)
Theorem visit_marks_domain_visited cfg v domain st st' :
  visit_domain urlparse_hostname json_loads cfg v domain st = Ok st' →
  domain ∈ visited st'
  ∧ visited_txt st' = _append_line (visited_txt st) domain
  ∧ (failed_txt st' = failed_txt st
     ↔ new_page v = None ∧ (goto_https v = None ∨ goto_http v = None))
  ∧ (∀ e, new_page v = Some e →
       gotos (trace st') = gotos (trace st)
       ∧ failed_txt st'
         = _append_line (failed_txt st)
             (domain ++ Py.str Py.TAB ++ Py.str Py.TAB
              ++ (if Py.is_empty e then "not_loaded" else e))).
Proof.
  intros Hv. destruct (visit_domain_inv _ _ _ _ _ _ _ Hv) as [due Hdue].
  rewrite (visit_domain_ok _ _ _ _ _ _ _ Hdue) in Hv. injection Hv as <-.
  simpl. split_and!.
  - apply elem_of_union. left. by apply elem_of_singleton.
  - done.
  - unfold navigate.
    destruct (new_page v) as [e0|], (goto_https v) as [e1|],
      (goto_http v) as [e2|]; simpl;
      (split;
        [intros H;
         first [by apply append_line_grows in H
               |split; [done|]; by (left + right)]
        |intros [? [?|?]]; done]).
  - intros e0 He. unfold navigate. rewrite He. simpl. split.
    + rewrite !gotos_app. simpl. rewrite app_nil_r.
      destruct due; simpl; by rewrite app_nil_r.
    + unfold failure_line. simpl. by destruct e0.
Qed.

End Logs.

(** ** The run properties on a resumed run *)

Lemma run_visits_work_set_witness :
  ∃ st e,
    main Lib.py_urlparse_hostname Lib.py_json_loads (mkConfig 2 true)
      Sample.resumed_world = Ok (st, e)
    ∧ visits_of (trace st) = ["a.com"; "c.net"].
Proof.
  destruct (main Lib.py_urlparse_hostname Lib.py_json_loads (mkConfig 2 true)
              Sample.resumed_world) as [[st e]|x] eqn:Hm;
    [|by vm_compute in Hm].
  exists st, e. split; [done|].
  destruct (run_visits_work_set Lib.py_urlparse_hostname Lib.py_json_loads
              (mkConfig 2 true) Sample.resumed_world st e)
    as (sites & Hs & Hw); [done|exact Hm|].
  injection Hs as <-.
  assert (Hws : work_set Lib.py_urlparse_hostname Sample.three_sites
                  (visited_file Sample.resumed_world) = Ok ["a.com"; "c.net"])
    by (vm_compute; reflexivity).
  rewrite Hws in Hw. by injection Hw as <-.
Defined.

Lemma zero_threshold_stops_after_first_visit_witness :
  ∃ st',
    crawl Lib.py_urlparse_hostname Lib.py_json_loads (mkConfig 0 true)
      (fun _ => Sample.quiet_visit) 1 ["a.com"; "b.org"; "c.net"] Sample.fresh
    = (st', Some ZeroDivisionError)
    ∧ visits_of (trace st') = ["a.com"] ∧ processed st' = 1%Z.
Proof.
  apply (zero_threshold_stops_after_first_visit Lib.py_urlparse_hostname
           Lib.py_json_loads (mkConfig 0 true) (fun _ => Sample.quiet_visit)
           1 "a.com" "b.org" ["c.net"] Sample.fresh).
  - reflexivity.
  - reflexivity.
  - intros [_ (l & Hl & _)]%read_set_elem. by apply elem_of_nil in Hl.
  - intros [_ (l & Hl & _)]%read_set_elem. by apply elem_of_nil in Hl.
  - discriminate.
Defined.

Lemma visited_log_mirrors_visited_set_witness :
  ∃ st e,
    main Lib.py_urlparse_hostname Lib.py_json_loads (mkConfig 2 true)
      Sample.resumed_world = Ok (st, e)
    ∧ _read_set (visited_txt st) = visited st
    ∧ work_set Lib.py_urlparse_hostname Sample.three_sites (visited_txt st)
      = Ok [].
Proof.
  destruct (main Lib.py_urlparse_hostname Lib.py_json_loads (mkConfig 2 true)
              Sample.resumed_world) as [[st e]|x] eqn:Hm;
    [|by vm_compute in Hm].
  exists st, e. split; [done|].
  destruct (visited_log_mirrors_visited_set Lib.py_urlparse_hostname
              Lib.py_json_loads (mkConfig 2 true) Sample.resumed_world st e
              ["a.com"; "b.org"; "c.net"])
    as (_ & Hrs & _ & Hws).
  - exact Hm.
  - vm_compute. reflexivity.
  - reflexivity.
  - intros d Hd.
    repeat (apply elem_of_cons in Hd as [->|Hd]; [reflexivity|]).
    by apply elem_of_nil in Hd.
  - split; [exact Hrs|]. by apply Hws.
Defined.

(** A visited log whose last line has no line feed: the first line that
    the run appends is joined to it, and the next run finds neither
    domain in the log. *)
Example unterminated_log_joins_lines :
  ∃ st e,
    main Lib.py_urlparse_hostname Lib.py_json_loads (mkConfig 2 true)
      (mkWorld true true (Some ("a.com" ++ Py.str Py.LF ++ "b.org")) "a.com"
         EmptyString [] (fun _ => Sample.quiet_visit) 0) = Ok (st, e)
    ∧ visited_txt st = "a.comb.org" ++ Py.str Py.LF
    ∧ work_set Lib.py_urlparse_hostname ("a.com" ++ Py.str Py.LF ++ "b.org")
        (visited_txt st) = Ok ["a.com"; "b.org"].
Proof.
  eexists _, _. split; [vm_compute; reflexivity|].
  split; vm_compute; reflexivity.
Qed.

Lemma every_launch_is_closed_witness :
  ∃ st e,
    main Lib.py_urlparse_hostname Lib.py_json_loads (mkConfig 1 true)
      Sample.resumed_world = Ok (st, e)
    ∧ count_events is_launch (trace st) = count_events is_close (trace st).
Proof.
  destruct (main Lib.py_urlparse_hostname Lib.py_json_loads (mkConfig 1 true)
              Sample.resumed_world) as [[st e]|x] eqn:Hm;
    [|by vm_compute in Hm].
  exists st, e. split; [done|].
  exact (every_launch_is_closed Lib.py_urlparse_hostname Lib.py_json_loads
           (mkConfig 1 true) Sample.resumed_world st e Hm).
Defined.

Lemma visit_marks_domain_visited_witness :
  ∃ st',
    visit_domain Lib.py_urlparse_hostname Lib.py_json_loads (mkConfig 2 true)
      Sample.crashed_visit "a.com" Sample.fresh = Ok st'
    ∧ "a.com" ∈ visited st'
    ∧ gotos (trace st') = []
    ∧ failed_txt st'
      = "a.com" ++ Py.str Py.TAB ++ Py.str Py.TAB ++ "crashed" ++ Py.str Py.LF.
Proof.
  destruct (visit_domain Lib.py_urlparse_hostname Lib.py_json_loads
              (mkConfig 2 true) Sample.crashed_visit "a.com" Sample.fresh)
    as [st'|x] eqn:Hv; [|by vm_compute in Hv].
  exists st'. split; [done|].
  destruct (visit_marks_domain_visited Lib.py_urlparse_hostname
              Lib.py_json_loads (mkConfig 2 true) Sample.crashed_visit "a.com"
              Sample.fresh st' Hv) as (Hin & _ & _ & Hnp).
  destruct (Hnp "crashed" eq_refl) as [Hg Hf].
  split; [exact Hin|]. split; [exact Hg|]. rewrite Hf. reflexivity.
Defined.

(** ** The parts of a canonical name *)

Lemma split_on_no_sep sep s :
  Py.contains sep s = false → Py.split_on sep s = [s].
Proof.
  induction s as [|c s IH]; [done|]. simpl.
  intros [Hc Hs]%orb_false_iff. rewrite Ascii.eqb_sym, Hc. by rewrite (IH Hs).
Qed.

Lemma split_on_app sep a b :
  Py.split_on sep (a ++ String sep b)
  = (Py.split_on sep a ++ Py.split_on sep b)%list.
Proof.
  induction a as [|c a IH].
  - rewrite append_empty_l. simpl. by rewrite Ascii.eqb_refl.
  - rewrite append_cons. simpl. rewrite IH.
    destruct (Ascii.eqb c sep); [done|].
    destruct (Py.split_on sep a) eqn:Ha; [|done].
    by destruct (split_on_nonempty sep a).
Qed.

Lemma sld_label front l v :
  Py.contains "." l = false → Py.contains "." v = false →
  sld_from_hostname (l ++ "." ++ v) = Py.lower l
  ∧ sld_from_hostname (front ++ "." ++ l ++ "." ++ v) = Py.lower l.
Proof.
  intros Hl Hv.
  assert (Hlv : Py.split_on "." (l ++ "." ++ v) = [l; v]).
  { change ("." ++ v) with (String "."%char v).
    by rewrite split_on_app, !split_on_no_sep. }
  unfold sld_from_hostname. split.
  - by rewrite Hlv.
  - change ("." ++ l ++ "." ++ v) with (String "."%char (l ++ "." ++ v)).
    rewrite split_on_app, Hlv, length_app. simpl length.
    replace (Nat.leb 2 (length (Py.split_on "." front) + 2)) with true
      by (symmetry; apply Nat.leb_le; lia).
    replace (length (Py.split_on "." front) + 2 - 2)
      with (length (Py.split_on "." front)) by lia.
    by rewrite nth_middle.
Qed.

(** X16. The label of a host of two or more labels is the label before the
    last one, in lower case, whatever stands before it: [www.bbc.co.uk]
    and [amazon.co.uk] both get [co]. *)
Theorem sld_is_label_before_last front l v :
  Py.contains "." l = false → Py.contains "." v = false →
  sld_from_hostname (l ++ "." ++ v) = Py.lower l
  ∧ sld_from_hostname (front ++ "." ++ l ++ "." ++ v) = Py.lower l.
Proof. apply sld_label. Qed.

Lemma sld_is_label_before_last_witness :
  sld_from_hostname "amazon.co.uk" = "co"
  ∧ sld_from_hostname "www.BBC.co.uk" = "co".
Proof.
  destruct (sld_is_label_before_last "amazon" "co" "uk" eq_refl eq_refl)
    as [_ H1].
  destruct (sld_is_label_before_last "www.BBC" "co" "uk" eq_refl eq_refl)
    as [_ H2].
  split; [exact H1|exact H2].
Defined.

Lemma round_half_even_Z q z : (q == inject_Z z)%Q → round_half_even q = z.
Proof.
  intros Hq. unfold round_half_even.
  assert (Hf : Qfloor q = z) by (by rewrite Hq, Qfloor_Z).
  rewrite Hf.
  assert (Hlt : Qcompare (q - inject_Z z) (1 # 2) = Lt).
  { rewrite Hq. unfold Qcompare, Qminus, Qplus, Qopp, inject_Z. simpl.
    apply Z.compare_lt_iff. lia. }
  by rewrite Hlt.
Qed.

(** ** Float arithmetic and the second of a time stamp *)

Lemma round_half_even_near q :
  (q - (1 # 2) <= inject_Z (round_half_even q) <= q + (1 # 2))%Q.
Proof.
  unfold round_half_even.
  pose proof (Qfloor_le q) as Hlo. pose proof (Qlt_floor q) as Hhi.
  rewrite inject_Z_plus in Hhi. change (inject_Z 1) with 1%Q in Hhi.
  destruct (Qcompare (q - inject_Z (Qfloor q)) (1 # 2)) eqn:Hc.
  - apply Qeq_alt in Hc.
    destruct (Z.even (Qfloor q));
      [|rewrite inject_Z_plus; change (inject_Z 1) with 1%Q]; lra.
  - apply Qlt_alt in Hc. lra.
  - apply Qgt_alt in Hc. rewrite inject_Z_plus.
    change (inject_Z 1) with 1%Q. lra.
Qed.

Lemma two_pos e : (0 < 2 ^ e)%Q.
Proof. by apply Qpower_0_lt. Qed.

Lemma pow2_Z n : (0 <= n)%Z → (inject_Z (2 ^ n) == 2 ^ n)%Q.
Proof. intros Hn. by rewrite Zpower_Qpower. Qed.

Lemma ilog2_spec a :
  (0 < a)%Q → (2 ^ ilog2 a <= a)%Q ∧ (a < 2 ^ (ilog2 a + 1))%Q.
Proof.
  intros Ha. destruct a as [n d]. unfold ilog2. simpl Qnum. simpl Qden.
  assert (Hn : (0 < n)%Z) by (unfold Qlt in Ha; simpl in Ha; lia).
  set (ln := Z.log2 n). set (ld := Z.log2 (Z.pos d)).
  destruct (Z.log2_spec n Hn) as [Hn1 Hn2]. fold ln in Hn1, Hn2.
  destruct (Z.log2_spec (Z.pos d) eq_refl) as [Hd1 Hd2]. fold ld in Hd1, Hd2.
  assert (Hln : (0 <= ln)%Z) by apply Z.log2_nonneg.
  assert (Hld : (0 <= ld)%Z) by apply Z.log2_nonneg.
  assert (Hup : (n # d < 2 ^ (ln - ld + 1))%Q).
  { replace (ln - ld + 1)%Z with ((ln + 1) - ld)%Z by lia.
    rewrite Qpower_minus by done.
    rewrite <- !pow2_Z by lia.
    apply Qlt_shift_div_l; [rewrite pow2_Z by lia; apply two_pos|].
    unfold Qlt, Qmult, inject_Z. simpl. nia. }
  assert (Hdown : (2 ^ (ln - ld - 1) < n # d)%Q).
  { replace (ln - ld - 1)%Z with (ln - (ld + 1))%Z by lia.
    rewrite Qpower_minus by done.
    rewrite <- !pow2_Z by lia.
    apply Qlt_shift_div_r; [rewrite pow2_Z by lia; apply two_pos|].
    unfold Qlt, Qmult, inject_Z. simpl. nia. }
  destruct (Qle_bool (2 ^ (ln - ld)) (n # d)) eqn:Hc.
  - apply Qle_bool_iff in Hc. done.
  - split.
    + by apply Qlt_le_weak.
    + replace (ln - ld - 1 + 1)%Z with (ln - ld)%Z by lia.
      apply Qnot_le_lt. intros H. apply Qle_bool_iff in H. congruence.
Qed.

Lemma pow2_lt_inv i j : (2 ^ i < 2 ^ j)%Q → (i < j)%Z.
Proof. intros H. by apply (Qpower_lt_compat_l_inv 2). Qed.

Lemma pow2_le i j : (i <= j)%Z → (2 ^ i <= 2 ^ j)%Q.
Proof. intros H. by apply Qpower_le_compat_l. Qed.

Lemma pow2_succ k : (2 ^ (k + 1) == 2 * 2 ^ k)%Q.
Proof. rewrite Qpower_plus by done. rewrite Qpower_1_r. ring. Qed.

Lemma b64_near a k :
  (0 < a)%Q → (a < 2 ^ k)%Q → (-1021 <= k <= 1000)%Z →
  ∃ r, b64 a = Some r ∧ (a - 2 ^ (k - 54) <= r <= a + 2 ^ (k - 54))%Q.
Proof.
  intros Ha Hk Hrange.
  destruct (ilog2_spec a Ha) as [Hlo _].
  assert (Hil : (ilog2 a < k)%Z).
  { apply pow2_lt_inv. eapply Qle_lt_trans; [exact Hlo|exact Hk]. }
  unfold b64. destruct a as [n d].
  assert (Hn : (0 < n)%Z) by (unfold Qlt in Ha; simpl in Ha; lia).
  destruct n as [|p|p]; try lia. simpl Qnum. cbv beta iota.
  change (Qabs (Z.pos p # d)) with (Z.pos p # d).
  set (a := Z.pos p # d) in *.
  set (e := Z.max (ilog2 a - 52) (-1074)).
  assert (He : (e <= k - 53)%Z) by (unfold e; lia).
  replace (971 <? e)%Z with false by (symmetry; apply Z.ltb_ge; lia).
  replace (e =? 971)%Z with false by (symmetry; apply Z.eqb_neq; lia).
  simpl orb. cbv iota.
  eexists. split; [reflexivity|].
  rewrite Qred_correct. change (Z.sgn (Z.pos p)) with 1%Z. rewrite Z.mul_1_l.
  pose proof (round_half_even_near (a / 2 ^ e)) as Hm.
  set (m := inject_Z (round_half_even (a / 2 ^ e))) in *.
  pose proof (two_pos e) as HP.
  pose proof (pow2_le e (k - 53) He) as HPk.
  replace (k - 53)%Z with ((k - 54) + 1)%Z in HPk by lia.
  rewrite pow2_succ in HPk.
  set (P := (2 ^ e)%Q) in *. set (B := (2 ^ (k - 54))%Q) in *.
  assert (Hy : (a == a / P * P)%Q) by (field; lra).
  set (y := (a / P)%Q) in *.
  assert (H1 : ((y - (1 # 2)) * P <= m * P)%Q) by (apply Qmult_le_compat_r; lra).
  assert (H2 : (m * P <= (y + (1 # 2)) * P)%Q) by (apply Qmult_le_compat_r; lra).
  lra.
Qed.

Lemma b64_exact a z :
  (a == inject_Z z)%Q → (0 <= z < 2 ^ 53)%Z →
  ∃ r, b64 a = Some r ∧ (r == inject_Z z)%Q.
Proof.
  intros Haz Hz. destruct (decide (z = 0%Z)) as [->|Hnz].
  { exists 0%Q. split; [|done]. unfold b64.
    assert (Qnum a = 0%Z) as ->; [|done].
    unfold Qeq in Haz. simpl in Haz. lia. }
  assert (Ha : (0 < a)%Q).
  { rewrite Haz. unfold Qlt, inject_Z. simpl. lia. }
  destruct (ilog2_spec a Ha) as [Hlo Hhi].
  assert (Hil1 : (ilog2 a < 53)%Z).
  { apply pow2_lt_inv. eapply Qle_lt_trans; [exact Hlo|].
    rewrite Haz, <- pow2_Z by lia. rewrite <- Zlt_Qlt. lia. }
  assert (Hil0 : (0 <= ilog2 a)%Z).
  { assert (0 < ilog2 a + 1)%Z; [|lia]. apply pow2_lt_inv.
    eapply Qle_lt_trans; [|exact Hhi]. rewrite Haz.
    change (2 ^ 0)%Q with (inject_Z 1). rewrite <- Zle_Qle. lia. }
  unfold b64. destruct a as [n d].
  assert (Hn : (0 < n)%Z) by (unfold Qlt in Ha; simpl in Ha; lia).
  destruct n as [|p|p]; try lia. simpl Qnum. cbv beta iota.
  change (Qabs (Z.pos p # d)) with (Z.pos p # d).
  set (a := Z.pos p # d) in *.
  set (e := Z.max (ilog2 a - 52) (-1074)).
  assert (He : (e = ilog2 a - 52)%Z) by (unfold e; lia).
  replace (971 <? e)%Z with false by (symmetry; apply Z.ltb_ge; lia).
  replace (e =? 971)%Z with false by (symmetry; apply Z.eqb_neq; lia).
  simpl orb. cbv iota.
  eexists. split; [reflexivity|].
  rewrite Qred_correct. change (Z.sgn (Z.pos p)) with 1%Z. rewrite Z.mul_1_l.
  assert (Hq : (a / 2 ^ e == inject_Z (z * 2 ^ (- e)))%Q).
  { rewrite inject_Z_mult, pow2_Z by lia. rewrite Qpower_opp, Haz.
    field. pose proof (two_pos e). lra. }
  rewrite (round_half_even_Z _ _ Hq).
  rewrite inject_Z_mult, pow2_Z by lia. rewrite Qpower_opp.
  field. pose proof (two_pos e). lra.
Qed.

Lemma Qfloor_between q n :
  (inject_Z n <= q)%Q → (q < inject_Z n + 1)%Q → Qfloor q = n.
Proof.
  intros Hlo Hhi.
  pose proof (Qfloor_le q) as H1. pose proof (Qlt_floor q) as H2.
  rewrite inject_Z_plus in H2. change (inject_Z 1) with 1%Q in H2.
  assert (Ha : (inject_Z (Qfloor q) < inject_Z n + 1)%Q) by lra.
  assert (Hb : (inject_Z n < inject_Z (Qfloor q) + 1)%Q) by lra.
  change 1%Q with (inject_Z 1) in Ha, Hb.
  rewrite <- inject_Z_plus in Ha, Hb. rewrite <- Zlt_Qlt in Ha, Hb. lia.
Qed.

Lemma Qnum_0 q : (q == 0)%Q → Qnum q = 0%Z.
Proof. unfold Qeq. simpl. lia. Qed.

(** A float that is a whole number of seconds, from 1970 to the year
    9999, is that second. *)
Lemma fromtimestamp_whole t n :
  (t == inject_Z n)%Q → (0 <= n <= 253402300799)%Z →
  fromtimestamp t = Some n.
Proof.
  intros Ht Hn. unfold fromtimestamp.
  assert (Hw : Qtrunc t = n).
  { unfold Qtrunc. replace (Qle_bool 0 t) with true.
    - by rewrite Ht, Qfloor_Z.
    - symmetry. apply Qle_bool_iff. rewrite Ht.
      change 0%Q with (inject_Z 0). rewrite <- Zle_Qle. lia. }
  rewrite Hw. unfold b64 at 1.
  rewrite (Qnum_0 ((t - inject_Z n) * inject_Z 1000000))
    by (rewrite Ht; ring).
  change (round_half_even 0) with 0%Z. simpl.
  replace (Z.leb (-62135596800) n) with true by (symmetry; apply Z.leb_le; lia).
  by replace (Z.leb n 253402300799) with true by (symmetry; apply Z.leb_le; lia).
Qed.

(** An integer number of milliseconds, from 1970 to the year 9999: the
    float division and the rounding to microseconds keep the whole second. *)
Lemma fromtimestamp_int_ms ms :
  (0 <= ms <= 253402300799999)%Z →
  ∃ t, epoch_seconds (JInt ms) = Some t
       ∧ fromtimestamp t = Some (ms / 1000)%Z.
Proof.
  intros Hms. unfold epoch_seconds.
  destruct (b64_exact (inject_Z ms) ms) as (x1 & -> & Hx1); [done|lia|].
  set (n := (ms / 1000)%Z). set (k := (ms mod 1000)%Z).
  assert (Hdiv : ms = (1000 * n + k)%Z) by (apply Z.div_mod; lia).
  assert (Hk : (0 <= k < 1000)%Z) by (apply Z.mod_pos_bound; lia).
  assert (Hn : (0 <= n <= 253402300799)%Z) by lia.
  assert (Ha : (x1 / inject_Z 1000 == inject_Z n + inject_Z k * (1 # 1000))%Q).
  { rewrite Hx1, Hdiv, inject_Z_plus, inject_Z_mult.
    change (inject_Z 1000) with 1000%Q. field. }
  assert (Hrange : (Z.leb (-62135596800) n && Z.leb n 253402300799)%Z = true).
  { apply andb_true_iff. split; apply Z.leb_le; lia. }
  unfold div_1000. destruct (decide (k = 0%Z)) as [Hk0|Hk0].
  - rewrite Hk0 in Ha.
    destruct (b64_exact (x1 / inject_Z 1000) n) as (x2 & -> & Hx2);
      [rewrite Ha; change (inject_Z 0) with 0%Q; ring|lia|].
    exists x2. split; [done|]. by apply fromtimestamp_whole.
  - assert (Hk1 : (1 <= k <= 999)%Z) by lia.
    assert (Hkq : (1 <= inject_Z k <= 999)%Q).
    { split; [change 1%Q with (inject_Z 1)|change 999%Q with (inject_Z 999)];
        rewrite <- Zle_Qle; lia. }
    assert (Hnq : (0 <= inject_Z n <= 253402300799)%Q).
    { split; [change 0%Q with (inject_Z 0)
             |change 253402300799%Q with (inject_Z 253402300799)];
        rewrite <- Zle_Qle; lia. }
    destruct (b64_near (x1 / inject_Z 1000) 38) as (x2 & -> & Hx2).
    { rewrite Ha. lra. }
    { rewrite Ha. change (2 ^ 38)%Q with 274877906944%Q. lra. }
    { lia. }
    change (2 ^ (38 - 54))%Q with (1 # 65536)%Q in Hx2. rewrite Ha in Hx2.
    exists x2. split; [done|]. unfold fromtimestamp.
    assert (Hw : Qtrunc x2 = n).
    { unfold Qtrunc. replace (Qle_bool 0 x2) with true
        by (symmetry; apply Qle_bool_iff; lra).
      apply Qfloor_between; lra. }
    rewrite Hw.
    destruct (b64_near ((x2 - inject_Z n) * inject_Z 1000000) 20)
      as (prod & -> & Hprod).
    { change (inject_Z 1000000) with 1000000%Q. lra. }
    { change (inject_Z 1000000) with 1000000%Q.
      change (2 ^ 20)%Q with 1048576%Q. lra. }
    { lia. }
    change (2 ^ (20 - 54))%Q with (1 # 17179869184)%Q in Hprod.
    change (inject_Z 1000000) with 1000000%Q in Hprod.
    pose proof (round_half_even_near prod) as Hus.
    set (us := round_half_even prod) in *.
    assert (Hus0 : (0 <= us)%Z).
    { assert (-1 < us)%Z; [|lia]. rewrite Zlt_Qlt.
      change (inject_Z (-1)) with (-1)%Q. lra. }
    assert (Hus1 : (us < 1000000)%Z).
    { rewrite Zlt_Qlt. change (inject_Z 1000000) with 1000000%Q. lra. }
    replace (1000000 <=? us)%Z with false by (symmetry; apply Z.leb_gt; lia).
    replace (us <? 0)%Z with false by (symmetry; apply Z.ltb_ge; lia).
    by rewrite Hrange.
Qed.

(** X17. An integer [timestamp] from 1970 to the end of the year 2999
    alone decides the stamp and is cut to the whole second, never rounded
    up: the stamp is that of the whole seconds [ms // 1000], whatever the
    modification time of the file and the clock. *)
Theorem integer_timestamp_truncates ms mtime now :
  (0 <= ms < 32503680000000)%Z →
  iso_from_epoch_ms (JInt ms) mtime now = strftime (ms / 1000).
Proof.
  intros Hms. unfold iso_from_epoch_ms.
  destruct (fromtimestamp_int_ms ms) as (t & -> & ->); [lia|done].
Qed.

Lemma integer_timestamp_truncates_witness :
  iso_from_epoch_ms (JInt 1700000000999) (Some 5%Q) 0 = "2023-11-14T22-13-20Z"
  ∧ iso_from_epoch_ms (JInt 999) None 0 = "1970-01-01T00-00-00Z".
Proof.
  split.
  - rewrite (integer_timestamp_truncates 1700000000999 (Some 5%Q) 0) by lia.
    vm_compute. reflexivity.
  - rewrite (integer_timestamp_truncates 999 None 0) by lia.
    vm_compute. reflexivity.
Defined.

(** * The claims on the failure log, the scope of a pass, restarts and
      names *)

(** ** The failure log *)

Lemma append_not_empty a c b : Py.is_empty (a ++ String c b) = false.
Proof. destruct a; [by rewrite append_empty_l|by rewrite append_cons]. Qed.

Lemma splitlines_not_nil s : s ≠ EmptyString → Py.splitlines s ≠ [].
Proof. intros Hs Hn. by apply Hs, splitlines_nil. Qed.

(** A text of one line and its line feed is one line. *)
Lemma splitlines_one_line line :
  Py.all_chars (fun c => negb (Py.is_linebreak c)) line = true →
  Py.splitlines (line ++ Py.str Py.LF) = [line].
Proof. intros H. unfold Py.str. by rewrite (splitlines_line _ _ H). Qed.

(** A text with a line feed inside and one at its end is two lines or
    more. *)
Lemma splitlines_two_lines u b :
  (2 ≤ length (Py.splitlines ((u ++ String Py.LF b) ++ Py.str Py.LF)))%nat.
Proof.
  replace ((u ++ String Py.LF b) ++ Py.str Py.LF)
    with ((u ++ Py.str Py.LF) ++ (b ++ Py.str Py.LF)).
  2:{ unfold Py.str. by rewrite !append_assoc, !append_cons, !append_empty_l. }
  rewrite splitlines_app by (by apply ends_with_app).
  rewrite length_app.
  assert (H1 : Py.splitlines (u ++ Py.str Py.LF) ≠ []).
  { apply splitlines_not_nil. intros H. apply (f_equal Py.is_empty) in H.
    unfold Py.str in H. by rewrite append_not_empty in H. }
  assert (H2 : Py.splitlines (b ++ Py.str Py.LF) ≠ []).
  { apply splitlines_not_nil. intros H. apply (f_equal Py.is_empty) in H.
    unfold Py.str in H. by rewrite append_not_empty in H. }
  destruct (Py.splitlines (u ++ Py.str Py.LF)); [done|].
  destruct (Py.splitlines (b ++ Py.str Py.LF)); [done|]. simpl. lia.
Qed.

Section FailureLog.

Context (urlparse_hostname : string → Hostname).
Context (json_loads : string → option Json).

(** C5 (as amended). When the HTTPS attempt of a visit fails, the HTTP
    address is tried once and nothing else is tried. If that attempt
    succeeds, the outcome is loaded with [final_url] the HTTP address, and
    the failure log is unchanged. If it fails with message [e_http], the
    outcome is not loaded and the text [line] and a line feed is appended
    to the failure log, once: the domain, an empty field and the reason,
    separated by TAB, where the reason is [e_http], or [not_loaded] when
    [e_http] is empty. The message is written as it is: what is appended
    is one line when neither the domain nor the message holds a line
    break, and two lines or more when the message holds a line feed. *)
Theorem https_fallback_and_failure_log cfg v domain st st' e_https :
  visit_domain urlparse_hostname json_loads cfg v domain st = Ok st' →
  new_page v = None → goto_https v = Some e_https →
  gotos (trace st')
  = app (gotos (trace st)) ["https://" ++ domain; "http://" ++ domain]
  ∧ (goto_http v = None →
       (navigate domain v).2 = mkOutcome true (Some ("http://" ++ domain)) None
       ∧ failed_txt st' = failed_txt st)
  ∧ (∀ e_http, goto_http v = Some e_http →
       let line := domain ++ Py.str Py.TAB ++ Py.str Py.TAB
                   ++ (if Py.is_empty e_http then "not_loaded" else e_http) in
       (navigate domain v).2 = mkOutcome false None (Some e_http)
       ∧ failed_txt st' = failed_txt st ++ line ++ Py.str Py.LF
       ∧ (Py.all_chars (fun c => negb (Py.is_linebreak c)) domain = true →
          Py.all_chars (fun c => negb (Py.is_linebreak c)) e_http = true →
          Py.splitlines (line ++ Py.str Py.LF) = [line])
       ∧ (∀ a b, e_http = a ++ String Py.LF b →
            (2 ≤ length (Py.splitlines (line ++ Py.str Py.LF)))%nat)).
Proof.
  intros Hv Hpage Hhttps.
  destruct (visit_domain_inv _ _ _ _ _ _ _ Hv) as [due Hdue].
  rewrite (visit_domain_ok _ _ _ _ _ _ _ Hdue) in Hv. injection Hv as <-.
  unfold navigate. rewrite Hpage, Hhttps. simpl. split_and!.
  - rewrite !gotos_app.
    replace (gotos (if due then [CloseContext; Launch] else [])) with (@nil string)
      by by destruct due.
    by destruct (goto_http v).
  - by intros ->.
  - intros e_http ->. simpl. split_and!.
    + done.
    + unfold failure_line, _append_line. simpl. by destruct e_http.
    + intros Hd He. apply splitlines_one_line.
      rewrite !all_chars_app, Hd. simpl.
      destruct (Py.is_empty e_http); [done|]. by rewrite He.
    + intros a b ->. rewrite append_not_empty.
      replace (domain ++ Py.str Py.TAB ++ Py.str Py.TAB ++ a ++ String Py.LF b)
        with ((domain ++ Py.str Py.TAB ++ Py.str Py.TAB ++ a) ++ String Py.LF b)
        by (by rewrite !append_assoc).
      apply splitlines_two_lines.
Qed.

End FailureLog.

(** Against C5 as stated: when the HTTP attempt fails with an empty
    message, the reason of the line is [not_loaded], not that message; and
    when it fails with a message of three lines, three lines are appended
    to the failure log, of which only the first has the three fields. *)
Lemma failure_entry_is_not_one_line_of_the_error :
  (∃ st', visit_domain Lib.py_urlparse_hostname Lib.py_json_loads
            (mkConfig 200 true) (Sample.failing_visit "timeout" EmptyString)
            "a.com" Sample.fresh = Ok st'
     ∧ Py.splitlines (failed_txt st')
       = ["a.com" ++ Py.str Py.TAB ++ Py.str Py.TAB ++ "not_loaded"])
  ∧ (∃ st', visit_domain Lib.py_urlparse_hostname Lib.py_json_loads
              (mkConfig 200 true)
              (Sample.failing_visit "timeout"
                 ("Page.goto: net::ERR_FAILED" ++ Py.str Py.LF
                  ++ "Call log:" ++ Py.str Py.LF ++ "  - navigating"))
              "a.com" Sample.fresh = Ok st'
       ∧ Py.splitlines (failed_txt st')
         = ["a.com" ++ Py.str Py.TAB ++ Py.str Py.TAB
            ++ "Page.goto: net::ERR_FAILED";
            "Call log:"; "  - navigating"]).
Proof.
  split; eexists; (split; [vm_compute; reflexivity|]); vm_compute; reflexivity.
Qed.

Lemma https_fallback_and_failure_log_witness :
  ∃ st', visit_domain Lib.py_urlparse_hostname Lib.py_json_loads
           (mkConfig 200 true) (Sample.failing_visit "timeout" "refused")
           "a.com" Sample.fresh = Ok st'
    ∧ gotos (trace st') = ["https://a.com"; "http://a.com"]
    ∧ failed_txt st'
      = "a.com" ++ Py.str Py.TAB ++ Py.str Py.TAB ++ "refused" ++ Py.str Py.LF
    ∧ Py.splitlines (failed_txt st')
      = ["a.com" ++ Py.str Py.TAB ++ Py.str Py.TAB ++ "refused"].
Proof.
  eexists. split; [vm_compute; reflexivity|].
  destruct (https_fallback_and_failure_log
              Lib.py_urlparse_hostname Lib.py_json_loads
              (mkConfig 200 true) (Sample.failing_visit "timeout" "refused")
              "a.com" Sample.fresh _ "timeout" eq_refl eq_refl eq_refl)
    as (Hg & _ & Hfail).
  destruct (Hfail "refused" eq_refl) as (_ & Htxt & Hone & _).
  split; [exact Hg|]. split; [exact Htxt|].
  exact (eq_trans (f_equal Py.splitlines Htxt) (Hone eq_refl eq_refl)).
Defined.

(** ** The scope of a pass *)

Lemma listed_files_elem d since f :
  f ∈ listed_files d since ↔
  ∃ e, (f, e) ∈ d ∧ is_file e = true
       ∧ match since with
         | Some bound => (bound <= st_mtime e)%Q
         | None => True
         end.
Proof.
  unfold listed_files. rewrite list_elem_of_fmap. destruct since as [bound|].
  - split.
    + intros ([f' e] & -> & [Hb [Hf He]%list_elem_of_filter]%list_elem_of_filter).
      exists e. simpl in *. split_and!; [done|by apply Is_true_eq_true|].
      by apply Qle_bool_iff, Is_true_eq_true.
    + intros (e & He & Hf & Hb). exists (f, e). split; [done|].
      apply list_elem_of_filter. simpl. split.
      * by apply Is_true_eq_left, Qle_bool_iff.
      * apply list_elem_of_filter. simpl. split; [by apply Is_true_eq_left|done].
  - split.
    + intros ([f' e] & -> & [Hf He]%list_elem_of_filter).
      exists e. simpl in *. split_and!; [done|by apply Is_true_eq_true|done].
    + intros (e & He & Hf & _). exists (f, e). split; [done|].
      apply list_elem_of_filter. simpl. split; [by apply Is_true_eq_left|done].
Qed.

Lemma elem_of_entry d n e : entry n d = Some e → (n, e) ∈ d.
Proof.
  induction d as [|[m x] d IH]; simpl; [done|].
  destruct (String.eqb_spec m n) as [->|_].
  - intros [= ->]. left.
  - intros H. right. by apply IH.
Qed.

Lemma names_replace_miss g t d : ∀ i x,
  names d !! i = Some x → x ≠ g → names (replace_name g t d) !! i = Some x.
Proof.
  induction d as [|[m e] d IH]; intros i x; [done|].
  simpl replace_name. destruct (String.eqb_spec m g) as [->|Hne].
  - destruct i as [|i]; [|done]. rewrite names_cons. simpl.
    by intros [= ->] ?.
  - rewrite !names_cons. destruct i as [|i]; [done|]. simpl. apply IH.
Qed.

Lemma names_replace_hit g t d : ∀ i,
  NoDup (names d) → names d !! i = Some g →
  names (replace_name g t d) !! i = Some t.
Proof.
  induction d as [|[m e] d IH]; intros i; [done|].
  rewrite names_cons. intros [Hm Hnd]%NoDup_cons.
  simpl replace_name. destruct (String.eqb_spec m g) as [->|Hne].
  - destruct i as [|i]; [done|]. simpl. intros Hi. exfalso. apply Hm.
    by eapply list_elem_of_lookup_2.
  - rewrite names_cons. destruct i as [|i]; simpl; [by intros [= ?]|].
    by apply IH.
Qed.

Section Scope.

Context (urlparse_hostname : string → Hostname).
Context (json_loads : string → option Json).

(** A name that the loop is not to process stays where it is. *)
Lemma rename_loop_stays now files : ∀ d r d' res i x,
  rename_loop urlparse_hostname json_loads now files d r = (d', res) →
  names d !! i = Some x → x ∉ files → names d' !! i = Some x.
Proof.
  induction files as [|g rest IH]; intros d r d' res i x; simpl.
  { by intros [= <- _]. }
  intros Hloop Hi [Hxg Hx]%not_elem_of_cons.
  destruct (rename_one _ _ now d g) as [[[t d1]|]|] eqn:Hone.
  - destruct (rename_one_result _ _ _ _ _ _ _ Hone) as (-> & _ & _).
    eapply IH; [exact Hloop| |done]. by apply names_replace_miss.
  - by eapply IH.
  - by injection Hloop as <- _.
Qed.

(** A file that the loop is to process, that is not locked and for which
    a name is computed, bears another name when the loop has ended. *)
Lemma rename_loop_renames now files : ∀ d r d' n i f e name,
  rename_loop urlparse_hostname json_loads now files d r = (d', Ok n) →
  NoDup (names d) → NoDup files → (∀ g, g ∈ files → g ∈ names d) →
  f ∈ files → names d !! i = Some f →
  entry f d = Some e → locked e = false →
  new_name urlparse_hostname json_loads now d f = Ok (Some name) →
  ∃ t, names d' !! i = Some t ∧ t ≠ f.
Proof.
  induction files as [|g rest IH];
    intros d r d' n i f e name Hloop Hnd Hfiles Hsub Hf Hi He Hl Hname.
  { by apply elem_of_nil in Hf. }
  apply NoDup_cons in Hfiles as [Hg Hrest]. simpl in Hloop.
  destruct (decide (g = f)) as [->|Hgf].
  - destruct (_uniquify_total d name) as [t Hu].
    rewrite (rename_one_renamed _ _ _ _ _ _ _ _ Hname He Hl Hu) in Hloop.
    destruct (_uniquify_spec _ _ _ Hu) as [Hfree _].
    exists t. split.
    + eapply rename_loop_stays; [exact Hloop|by apply names_replace_hit|].
      intros Hin. apply Hfree, Hsub. by right.
    + intros ->. apply Hfree. by eapply entry_names.
  - apply elem_of_cons in Hf as [->|Hf]; [done|].
    destruct (rename_one _ _ now d g) as [[[t d1]|]|] eqn:Hone; [| |done].
    + destruct (rename_one_result _ _ _ _ _ _ _ Hone) as (-> & Hfree & _).
      assert (Hft : f ≠ t) by (intros ->; apply Hfree; by eapply entry_names).
      assert (Heq : entry f (replace_name g t d) = entry f d)
        by (by apply entry_replace_other).
      eapply (IH _ _ _ _ i f e name Hloop).
      * by apply NoDup_replace.
      * done.
      * intros g' Hg'. apply names_replace_keep; [apply Hsub; by right|].
        by intros ->.
      * done.
      * by apply names_replace_miss.
      * by rewrite Heq.
      * done.
      * by rewrite (new_name_entry _ _ now _ d f Heq).
    + eapply (IH _ _ _ _ i f e name Hloop); try done.
      intros g' Hg'. apply Hsub. by right.
Qed.

(** C3 (as amended). A pass with a bound considers a regular file exactly
    when its modification time is at least the bound: it leaves every file
    below the bound under its name, whatever the file holds, and a file at
    or above the bound that is not locked and for which a name is computed
    bears another name when the pass returns. The pass that the driver
    runs for a visit has the bound [start_epoch - 1.0], one second before
    the start of the visit. *)
Theorem incremental_pass_scope now d bound d' res :
  postprocess_rename urlparse_hostname json_loads now d (Some bound) = (d', res) →
  NoDup (names d) →
  (∀ f e, entry f d = Some e → (st_mtime e < bound)%Q → entry f d' = Some e)
  ∧ (∀ n i f e name,
       res = Ok n → names d !! i = Some f → entry f d = Some e →
       is_file e = true → (bound <= st_mtime e)%Q → locked e = false →
       new_name urlparse_hostname json_loads now d f = Ok (Some name) →
       ∃ t, names d' !! i = Some t ∧ t ≠ f)
  ∧ (∀ cfg v domain st st',
       INCREMENTAL_RENAME cfg = true →
       visit_domain urlparse_hostname json_loads cfg v domain st = Ok st' →
       downloads st'
       = (postprocess_rename urlparse_hostname json_loads (clock_now v)
            (downloads st ++ downloaded v)%list
            (Some (start_epoch v - 1)%Q)).1).
Proof.
  intros Hpass Hnd. split_and!.
  - intros f e He Hlt.
    apply (pass_keeps_skipped _ _ _ _ _ _ _ _ _ Hpass Hnd He).
    right. left. by exists bound.
  - intros n i f e name -> Hi He Hf Hb Hl Hname.
    unfold postprocess_rename in Hpass.
    eapply (rename_loop_renames _ _ _ _ _ _ i f e name Hpass); try done.
    + eapply sublist_NoDup; [done|apply listed_files_sublist].
    + intros g Hg. eapply elem_of_sublist; [done|apply listed_files_sublist].
    + apply listed_files_elem. exists e. split_and!; [|done..].
      by apply elem_of_entry.
  - intros cfg v domain st st' Hinc Hv.
    destruct (visit_domain_inv _ _ _ _ _ _ _ Hv) as [due Hdue].
    rewrite (visit_domain_ok _ _ _ _ _ _ _ Hdue) in Hv. injection Hv as <-.
    simpl. by rewrite Hinc.
Qed.

End Scope.

Lemma incremental_pass_scope_witness :
  let d := [("older", Sample.artifact 98); ("edge", Sample.artifact 99);
            ("newer", Sample.artifact (201 # 2))] in
  let d' := [("older", Sample.artifact 98);
             (Sample.canonical, Sample.artifact 99);
             (Sample.canonical_1, Sample.artifact (201 # 2))] in
  postprocess_rename Lib.py_urlparse_hostname Lib.py_json_loads 0 d (Some 99%Q)
  = (d', Ok 2%Z)
  ∧ entry "older" d' = Some (Sample.artifact 98)
  ∧ ∃ t, names d' !! 1%nat = Some t ∧ t ≠ "edge".
Proof.
  intros d d'.
  assert (Hpass : postprocess_rename Lib.py_urlparse_hostname
                    Lib.py_json_loads 0 d (Some 99%Q) = (d', Ok 2%Z))
    by (vm_compute; reflexivity).
  destruct (incremental_pass_scope Lib.py_urlparse_hostname Lib.py_json_loads
              0 d 99%Q d' (Ok 2%Z) Hpass) as (Hkeep & Hren & _).
  { apply (bool_decide_unpack _). vm_compute. exact I. }
  split; [exact Hpass|]. split.
  - apply (Hkeep "older" (Sample.artifact 98)); reflexivity.
  - apply (Hren 2%Z 1%nat "edge" (Sample.artifact 99) Sample.canonical);
      try reflexivity.
    unfold Qle. simpl. lia.
Defined.

(** Against C3 as stated: of two files that were modified before the
    start of the visit, the pass of that visit leaves the one modified two
    seconds before the start and renames the one modified half a second
    before it: the bound is not the start time. *)
Lemma incremental_pass_reaches_before_start :
  let v := mkVisit 100 0 None None None
             [("older", Sample.artifact 98);
              ("download", Sample.artifact (199 # 2))] in
  (199 # 2 < start_epoch v)%Q
  ∧ ∃ st', visit_domain Lib.py_urlparse_hostname Lib.py_json_loads
             (mkConfig 200 true) v "x.com" Sample.fresh = Ok st'
      ∧ names (downloads st') = ["older"; Sample.canonical].
Proof.
  split; [reflexivity|].
  eexists. split; vm_compute; reflexivity.
Qed.

(** ** Restarts *)

Lemma visits_of_cadence N visits : ∀ j,
  Forall (fun dv : string * list Event => ∀ x, Visiting x ∉ dv.2) visits →
  visits_of (cadence N j visits) = visits.*1.
Proof.
  induction visits as [|[d events] rest IH]; intros j; [done|].
  intros [Hd Hrest]%Forall_cons. simpl cadence.
  rewrite visits_of_app. simpl.
  replace (visits_of (if (0 <? j)%Z && (j mod N =? 0)%Z
                      then [CloseContext; Launch] else [])) with (@nil string)
    by (by destruct (_ && _)).
  rewrite visits_of_app, (IH _ Hrest). simpl. f_equal.
  assert (Hnil : visits_of events = []); [|by rewrite Hnil].
  simpl in Hd. clear -Hd. induction events as [|ev events IH]; [done|].
  assert (Hrest : ∀ x, Visiting x ∉ events).
  { intros x Hx. apply (Hd x). by right. }
  destruct ev; simpl; try (by apply IH).
  exfalso. apply (Hd domain). left.
Qed.

(** The events before and after the visit at position [k]. *)
Lemma cadence_split N visits : ∀ j k d events,
  visits !! k = Some (d, events) →
  cadence N j visits
  = (cadence N j (take k visits)
     ++ (if (0 <? j + Z.of_nat k)%Z && ((j + Z.of_nat k) mod N =? 0)%Z
         then [CloseContext; Launch] else [])
     ++ Visiting d :: events
     ++ cadence N (j + Z.of_nat k + 1) (drop (S k) visits))%list.
Proof.
  induction visits as [|[d0 ev0] rest IH]; intros j k d events; [done|].
  destruct k as [|k]; simpl.
  - intros [= -> ->]. by rewrite Z.add_0_r.
  - intros Hk. rewrite (IH (j + 1)%Z k d events Hk).
    replace (j + 1 + Z.of_nat k)%Z with (j + Z.pos (Pos.of_succ_nat k))%Z by lia.
    repeat (rewrite <- app_assoc || rewrite <- app_comm_cons). reflexivity.
Qed.

Section Restarts.

Context (urlparse_hostname : string → Hostname).
Context (json_loads : string → option Json).

(** The trace of the loop: the visits it makes, each preceded by a
    restart or not as the counter has it; a domain that is skipped adds
    nothing to the trace and nothing to the counter. *)
Lemma crawl_trace cfg visit_at domains : ∀ idx st st' e,
  RESTART_EVERY cfg ≠ 0%Z →
  crawl urlparse_hostname json_loads cfg visit_at idx domains st = (st', e) →
  ∃ visits,
    trace st' = (trace st ++ cadence (RESTART_EVERY cfg) (processed st) visits)%list
    ∧ processed st' = (processed st + Z.of_nat (length visits))%Z
    ∧ Forall (fun dv : string * list Event =>
                ∃ v, dv.2 = (navigate dv.1 v).1) visits.
Proof.
  induction domains as [|domain rest IH]; intros idx st st' e HN; simpl.
  { intros [= <- _]. exists []. simpl. rewrite app_nil_r.
    split_and!; [done|lia|done]. }
  destruct (bool_decide (domain ∈ visited st)); [by apply IH|].
  assert (Hdue : restart_due cfg (processed st)
                 = Ok ((0 <? processed st)%Z
                       && (processed st mod RESTART_EVERY cfg =? 0)%Z)).
  { unfold restart_due. destruct (0 <? processed st)%Z; [|done].
    apply Z.eqb_neq in HN. by rewrite HN. }
  rewrite (visit_domain_ok _ _ _ _ _ _ _ Hdue).
  intros (visits & Ht & Hp & Hall)%IH; [|done]. simpl in Ht, Hp.
  exists ((domain, (navigate domain (visit_at idx)).1) :: visits).
  split_and!.
  - rewrite Ht. simpl cadence. by rewrite <- !app_assoc.
  - rewrite Hp. simpl length. lia.
  - apply Forall_cons. split; [by exists (visit_at idx)|done].
Qed.

(** C6 (as amended). With a restart threshold [N > 0], a run of [main]
    launches a context, makes the visits of its work set, the domains of
    the list that are not in the visited log, and closes the context. The
    visit that follows [k] processed visits is preceded by one
    [ctx.close()] and one launch exactly when [k] is a positive multiple of
    [N], and by nothing else: no restart comes before [N] visits have been
    processed, and one comes after exactly [N], before the next visit.
    The counter [processed] is never reset: at the end it is the number of
    visits of the run; a domain that is skipped is not counted. *)
Theorem restart_cadence cfg w st e :
  (0 < RESTART_EVERY cfg)%Z →
  main urlparse_hostname json_loads cfg w = Ok (st, e) →
  ∃ visits,
    trace st
    = (Launch :: cadence (RESTART_EVERY cfg) 0 visits ++ [CloseContext])%list
    ∧ processed st = Z.of_nat (length visits)
    ∧ (∃ sites, sites_file w = Some sites
         ∧ work_set urlparse_hostname sites (visited_file w) = Ok visits.*1)
    ∧ Forall (fun dv : string * list Event =>
                (Launch ∉ dv.2) ∧ (CloseContext ∉ dv.2)
                ∧ ∀ x, Visiting x ∉ dv.2) visits
    ∧ (∀ k d events, visits !! k = Some (d, events) →
         trace st
         = (Launch :: cadence (RESTART_EVERY cfg) 0 (take k visits)
            ++ (if bool_decide (0 < Z.of_nat k
                                ∧ Z.of_nat k mod RESTART_EVERY cfg = 0)%Z
                then [CloseContext; Launch] else [])
            ++ Visiting d :: events
            ++ cadence (RESTART_EVERY cfg) (Z.of_nat k + 1) (drop (S k) visits)
            ++ [CloseContext])%list).
Proof.
  intros HN Hmain.
  assert (Hne : RESTART_EVERY cfg ≠ 0%Z) by lia.
  destruct (main_visits_work_set _ _ _ _ _ _ Hne Hmain)
    as (sites & Hsites & Hws).
  destruct (main_inv _ _ _ _ _ _ Hmain)
    as (domains & st1 & e1 & _ & Hc & _ & _ & _ & Hp & Htr).
  destruct (crawl_trace _ _ _ _ _ _ _ Hne Hc)
    as (visits & Ht & Hp1 & Hall).
  simpl in Ht, Hp1.
  assert (Hclean : Forall (fun dv : string * list Event =>
                     (Launch ∉ dv.2) ∧ (CloseContext ∉ dv.2)
                     ∧ ∀ x, Visiting x ∉ dv.2) visits).
  { eapply Forall_impl; [exact Hall|]. intros [d events] [v Hv]. simpl in *.
    rewrite Hv. destruct (navigate_no_restart d v) as [HL HC].
    split_and!; [done|done|]. intros x. apply navigate_no_visiting. }
  assert (Htrace : trace st
    = (Launch :: cadence (RESTART_EVERY cfg) 0 visits ++ [CloseContext])%list).
  { by rewrite Htr, Ht. }
  exists visits. split_and!.
  - exact Htrace.
  - rewrite Hp, Hp1. lia.
  - exists sites. split; [done|]. rewrite Hws. f_equal.
    rewrite Htrace. simpl. rewrite visits_of_app. simpl. rewrite app_nil_r.
    apply visits_of_cadence.
    eapply Forall_impl; [exact Hclean|]. by intros dv (_ & _ & ?).
  - exact Hclean.
  - intros k d events Hk. rewrite Htrace.
    rewrite (cadence_split _ _ 0 k d events Hk). rewrite !Z.add_0_l.
    replace ((0 <? Z.of_nat k)%Z && (Z.of_nat k mod RESTART_EVERY cfg =? 0)%Z)
      with (bool_decide (0 < Z.of_nat k
                         ∧ Z.of_nat k mod RESTART_EVERY cfg = 0)%Z).
    + f_equal.
      repeat (rewrite <- app_assoc || rewrite <- app_comm_cons). reflexivity.
    + destruct (Z.ltb_spec 0 (Z.of_nat k)),
        (Z.eqb_spec (Z.of_nat k mod RESTART_EVERY cfg) 0); simpl;
        first [by rewrite bool_decide_eq_true_2
              |rewrite bool_decide_eq_false_2;
               [done|intros [? ?]; first [done|lia]]].
Qed.

End Restarts.

(** Against C6 as stated: with threshold 2, the third visit is preceded by
    one close and one launch, and [processed] goes on to 3: it is not reset
    to zero by the restart. *)
Lemma counter_not_reset_at_restart :
  ∃ st, crawl Lib.py_urlparse_hostname Lib.py_json_loads (mkConfig 2 true)
          (fun _ => Sample.quiet_visit) 1 ["a.com"; "b.org"; "c.net"]
          Sample.fresh = (st, None)
    ∧ processed st = 3%Z
    ∧ trace st
      = [Launch;
         Visiting "a.com"; NewPage; Goto "https://a.com"; Dwell; ClosePage;
         Visiting "b.org"; NewPage; Goto "https://b.org"; Dwell; ClosePage;
         CloseContext; Launch;
         Visiting "c.net"; NewPage; Goto "https://c.net"; Dwell; ClosePage].
Proof. eexists. split_and!; vm_compute; reflexivity. Qed.

Lemma restart_cadence_witness :
  ∃ st e,
    main Lib.py_urlparse_hostname Lib.py_json_loads (mkConfig 2 true)
      Sample.resumed_world = Ok (st, e)
    ∧ processed st = 2%Z
    ∧ ∃ visits,
        visits.*1 = ["a.com"; "c.net"]
        ∧ trace st = (Launch :: cadence 2 0 visits ++ [CloseContext])%list.
Proof.
  destruct (main Lib.py_urlparse_hostname Lib.py_json_loads (mkConfig 2 true)
              Sample.resumed_world) as [[st e]|x] eqn:Hm;
    [|by vm_compute in Hm].
  exists st, e. split; [done|].
  destruct (restart_cadence Lib.py_urlparse_hostname Lib.py_json_loads
              (mkConfig 2 true) Sample.resumed_world st e)
    as (visits & Htrace & Hp & (sites & Hs & Hws) & _); [reflexivity|exact Hm|].
  injection Hs as <-.
  assert (Hwork : work_set Lib.py_urlparse_hostname Sample.three_sites
                    (visited_file Sample.resumed_world) = Ok ["a.com"; "c.net"])
    by (vm_compute; reflexivity).
  rewrite Hwork in Hws. injection Hws as Hws.
  split.
  - rewrite Hp, <- (length_fmap fst visits), <- Hws. reflexivity.
  - exists visits. split; [by rewrite <- Hws|exact Htrace].
Defined.

(** ** The canonical name *)



Section Naming.

Context (urlparse_hostname : string → Hostname).
Context (json_loads : string → option Json).


End Naming.



(** The same artifact with the float timestamp 1700000000999.9994 in its
    text: [json.loads] gives the nearest double, the division by [1000.0]
    and the rounding to microseconds carry it into the next second. *)
Example float_timestamp_rounds_up :
  Lib.py_json_loads "1700000000999.9994" = Some (JFloat (3481600002047999 # 2048))
  ∧ iso_from_epoch_ms (JFloat (3481600002047999 # 2048)) None 0
    = "2023-11-14T22-13-21Z"
  ∧ iso_from_epoch_ms (JInt 1700000000999) None 0 = "2023-11-14T22-13-20Z"
  ∧ strftime (-40000000000) = "702-06-15T00-53-20Z".
Proof. split_and!; vm_compute; reflexivity. Qed.

(** ** Collisions in a directory that holds the name already *)

